(** * ToDo backend: authentication and realtime notification core

    A shallow embedding of [unified-server.js]: the two auth middlewares,
    the auth endpoints, the task endpoints, the endpoints of the other
    tables under [authRequired] and the Socket.IO [authenticate] handler,
    over an in-memory model of the PostgreSQL tables they touch.

    The server's third-party dependencies ([jsonwebtoken], [bcryptjs], the
    PostgreSQL engine behind [pg]) and the built-ins of the runtime that
    work on dates, floating-point numbers and JSON text are not part of
    the repository.  They appear here as interfaces (type classes) stating
    the part of their documented behaviour the server relies on, each with
    a small reference instance that shows the interface is inhabited and
    lets the handlers be evaluated on concrete requests.

    Conventions.  A JavaScript string is a [string], one character per
    code unit, so [s.length] is [String.length s]; the strings modelled
    are those whose code units are below 256.  A path segment and a
    query parameter are strings, as Express hands them over.  For the
    auth and task endpoints a body field of a text, date or time
    column is a string, that of an integer column an integer; the
    bodies of the other endpoints are JSON values, whose numbers are
    integers.  [undefined] and [null] are kept apart where the code
    tells them apart.  The id in an identity is one the server has put
    in a token, an id of [users].  Time is the clock of [jsonwebtoken],
    in seconds.  A handler runs to completion in one turn of the event
    loop. *)

From Stdlib Require Import ZArith String Ascii List Bool Lia Permutation.
From stdpp Require Import gmap strings list pretty.

Set Warnings "-register-all".
Open Scope Z_scope.

(** ** JavaScript prelude *)

(** What a [try] block yields: a value, or a thrown [Error] with its
    [name] and [message]. *)
Record js_error := JsError { err_name : string; err_message : string }.

Inductive completion (A : Type) : Type :=
| Return (a : A)
| Throw (e : js_error).
Arguments Return {A} a.
Arguments Throw {A} e.

(** JSON values, as sent by [res.json] and [emit]. *)
Inductive json :=
| JNull
| JBool (b : bool)
| JNum (z : Z)
| JStr (s : string)
| JArr (items : list json)
| JObj (fields : list (string * json)).

Definition json_opt {A} (f : A → json) (o : option A) : json :=
  match o with Some a => f a | None => JNull end.

(** A string in a boolean context: only the empty string is falsy. *)
Definition truthy (s : string) : bool :=
  match s with EmptyString => false | String _ _ => true end.

(** A value in a boolean context; [None] stands for [undefined]. *)
Definition js_truthy (v : option json) : bool :=
  match v with
  | None | Some JNull => false
  | Some (JBool b) => b
  | Some (JNum z) => negb (z =? 0)
  | Some (JStr s) => truthy s
  | Some (JArr _) | Some (JObj _) => true
  end.

(** [v || d] *)
Definition or_else (v : option json) (d : json) : json :=
  match v with
  | Some j => if js_truthy v then j else d
  | None => d
  end.

(** [o.key], [undefined] when [o] has no such property. *)
Definition json_field (key : string) (j : json) : option json :=
  match j with
  | JObj fields => snd <$> List.find (λ kv, String.eqb (fst kv) key) fields
  | _ => None
  end.

(** [o.key = v], and [{...o, key: v}]: the property keeps its place
    when [o] has it, else it is added last. *)
Definition assign_key (key : string) (v : json) (o : json) : json :=
  match o with
  | JObj fields =>
      JObj (if existsb (λ kv, String.eqb (fst kv) key) fields
            then map (λ kv, if String.eqb (fst kv) key then (fst kv, v) else kv)
                   fields
            else fields ++ [(key, v)])
  | _ => o
  end.

(** [{k1: o.c1, ..., kn: o.cn}] as [JSON.stringify] writes it: a
    property whose value is [undefined] is left out. *)
Definition pick (keys : list (string * string)) (o : json) : json :=
  JObj (omap (λ kc, (λ v, (fst kc, v)) <$> json_field (snd kc) o) keys).

(** A possibly [undefined] string in a boolean context. *)
Definition truthy_opt (o : option string) : bool :=
  match o with Some s => truthy s | None => false end.

(** [s.slice(n)] for [0 <= n]. *)
Fixpoint slice (n : nat) (s : string) : string :=
  match n, s with
  | O, _ => s
  | S n', String _ s' => slice n' s'
  | S _, EmptyString => EmptyString
  end.

(** [hay.includes(needle)]. *)
Fixpoint includes (needle hay : string) : bool :=
  String.prefix needle hay
  || match hay with
     | EmptyString => false
     | String _ hay' => includes needle hay'
     end.

(** The capitals below 256: [A]-[Z], and U+00C0-U+00DE without the
    multiplication sign U+00D7. *)
Definition lower_ascii (c : ascii) : ascii :=
  let n := nat_of_ascii c in
  if (Nat.leb 65 n && Nat.leb n 90)%bool
     || (Nat.leb 192 n && Nat.leb n 222 && negb (Nat.eqb n 215))%bool
  then ascii_of_nat (n + 32) else c.

(** [s.toLowerCase()] *)
Fixpoint toLowerCase (s : string) : string :=
  match s with
  | EmptyString => EmptyString
  | String c s' => String (lower_ascii c) (toLowerCase s')
  end.

(** The double quote character, for messages that quote a name. *)
Definition dquote : string := String (ascii_of_nat 34) EmptyString.

(** White space and line terminators, as [trim] and [Number] skip them:
    below 256 these are U+0009-U+000D, U+0020 and U+00A0. *)
Definition is_space (c : ascii) : bool :=
  let n := nat_of_ascii c in
  (Nat.leb 9 n && Nat.leb n 13)%bool || Nat.eqb n 32 || Nat.eqb n 160.

Fixpoint trim_start (s : string) : string :=
  match s with
  | EmptyString => EmptyString
  | String c s' => if is_space c then trim_start s' else s
  end.

Fixpoint trim_end (s : string) : string :=
  match s with
  | EmptyString => EmptyString
  | String c s' =>
      let r := trim_end s' in
      if is_space c && negb (truthy r) then EmptyString else String c r
  end.

(** [s.trim()] *)
Definition trim (s : string) : string := trim_end (trim_start s).

(** The value of a digit in a base up to 16. *)
Definition digit_value (base : N) (c : ascii) : option N :=
  let n := N_of_ascii c in
  let d := if (48 <=? n)%N && (n <=? 57)%N then Some (n - 48)%N
           else if (97 <=? n)%N && (n <=? 102)%N then Some (n - 87)%N
           else if (65 <=? n)%N && (n <=? 70)%N then Some (n - 55)%N
           else None in
  match d with
  | Some v => if (v <? base)%N then Some v else None
  | None => None
  end.

Fixpoint digits_from (base acc : N) (s : string) : option N :=
  match s with
  | EmptyString => Some acc
  | String c s' =>
      match digit_value base c with
      | Some d => digits_from base (acc * base + d)%N s'
      | None => None
      end
  end.

(** A non-empty run of digits, read in [base]. *)
Definition digits (base : N) (s : string) : option N :=
  match s with
  | EmptyString => None
  | String _ _ => digits_from base 0 s
  end.

(** The integer a numeral of the language denotes: white space around
    an optional sign and decimal digits, or around unsigned [0x], [0o]
    or [0b] digits; the blank string denotes 0. *)
Definition integer_numeral (s : string) : option Z :=
  let numeral := trim s in
  match numeral with
  | EmptyString => Some 0
  | String c ds =>
      if Ascii.eqb c "-" then (λ n, - Z.of_N n) <$> digits 10 ds
      else if Ascii.eqb c "+" then Z.of_N <$> digits 10 ds
      else
        match ds with
        | String r ds' =>
            if Ascii.eqb c "0" && (Ascii.eqb r "x" || Ascii.eqb r "X")
            then Z.of_N <$> digits 16 ds'
            else if Ascii.eqb c "0" && (Ascii.eqb r "o" || Ascii.eqb r "O")
            then Z.of_N <$> digits 8 ds'
            else if Ascii.eqb c "0" && (Ascii.eqb r "b" || Ascii.eqb r "B")
            then Z.of_N <$> digits 2 ds'
            else Z.of_N <$> digits 10 numeral
        | EmptyString => Z.of_N <$> digits 10 numeral
        end
  end.

(** [Number(s)] when [s] is the numeral of an integer a double holds
    exactly.  [None] is the answer for every other string: [NaN], which
    JSON writes as [null], or a numeral with a fraction, an exponent or
    [Infinity] or beyond 2^53, which no caller below passes on. *)
Definition Number (s : string) : option Z :=
  match integer_numeral s with
  | Some z => if Z.abs z <=? 9007199254740992 then Some z else None
  | None => None
  end.

(** ** jsonwebtoken *)

(** The decoded claim set of a token minted by this server:
    [{ userId, username, iat, exp }]. *)
Record jwt_payload := JwtPayload {
  p_userId : Z;
  p_username : string;
  p_iat : Z;
  p_exp : Z
}.

Definition TokenExpiredError : js_error :=
  JsError "TokenExpiredError" "jwt expired".
Definition JsonWebTokenError (msg : string) : js_error :=
  JsError "JsonWebTokenError" msg.

(** [jwt.sign({userId, username}, secret, {expiresIn})] called when the
    clock (in seconds) reads [clock], and [jwt.verify(token, secret)]
    called when it reads [clock].  The laws are the library's
    documented contract: a token is a non-empty string; it verifies
    under the key that signed it to the claims it was given, stamped
    with [iat] and [exp = iat + expiresIn], as long as the clock is
    before [exp]; from [exp] on, verification throws
    [TokenExpiredError]. *)
Class Jsonwebtoken := {
  jwt_sign : Z → string → string → Z → Z → string;
  jwt_verify : string → string → Z → completion jwt_payload;
  jwt_sign_truthy : ∀ uid uname secret expiresIn issued,
    truthy (jwt_sign uid uname secret expiresIn issued) = true;
  jwt_verify_sign : ∀ uid uname secret expiresIn issued clock,
    clock < issued + expiresIn →
    jwt_verify (jwt_sign uid uname secret expiresIn issued) secret clock
    = Return (JwtPayload uid uname issued (issued + expiresIn));
  jwt_verify_expired : ∀ uid uname secret expiresIn issued clock,
    issued + expiresIn ≤ clock →
    jwt_verify (jwt_sign uid uname secret expiresIn issued) secret clock
    = Throw TokenExpiredError
}.

(** [expiresIn: "7d"], in seconds. *)
Definition expiresIn_7d : Z := 7 * 24 * 60 * 60.

(** *** Reference instance

    A token is a marker followed by the binary numeral of the code of
    (key, claims); it stands in for the signed compact serialisation. *)
Fixpoint bits_of_pos (p : positive) : string :=
  match p with
  | xH => EmptyString
  | xO q => String "0" (bits_of_pos q)
  | xI q => String "1" (bits_of_pos q)
  end.

Fixpoint pos_of_bits (s : string) : option positive :=
  match s with
  | EmptyString => Some xH
  | String c s' =>
      if Ascii.eqb c "0" then xO <$> pos_of_bits s'
      else if Ascii.eqb c "1" then xI <$> pos_of_bits s'
      else None
  end.

Definition ref_sign (uid : Z) (uname secret : string) (expiresIn issued : Z)
  : string :=
  String "J"
    (bits_of_pos (encode (secret, (uid, uname, issued, issued + expiresIn)))).

Definition ref_decode (token : string)
  : option (string * (Z * string * Z * Z)) :=
  match token with
  | String c bits => if Ascii.eqb c "J" then pos_of_bits bits ≫= decode else None
  | EmptyString => None
  end.

Definition ref_verify (token secret : string) (clock : Z)
  : completion jwt_payload :=
  match ref_decode token with
  | None => Throw (JsonWebTokenError "jwt malformed")
  | Some (key, (uid, uname, issued, expires)) =>
      if negb (String.eqb key secret)
      then Throw (JsonWebTokenError "invalid signature")
      else if expires <=? clock then Throw TokenExpiredError
      else Return (JwtPayload uid uname issued expires)
  end.

(** ** bcryptjs *)

(** [bcrypt.hash(password, rounds)] draws a random salt, made explicit
    here; [bcrypt.compare(password, hash)] accepts the hashes of
    [password]. *)
Class Bcryptjs := {
  bcrypt_hash : string → nat → string → string;
  bcrypt_compare : string → string → bool;
  bcrypt_compare_hash : ∀ password rounds salt,
    bcrypt_compare password (bcrypt_hash password rounds salt) = true
}.

(** Reference instance: the password behind a marker; the salt and the
    cost are dropped. *)
Definition ref_hash (password : string) (rounds : nat) (salt : string) : string :=
  "$2a$" +:+ password.
Definition ref_compare (password hash : string) : bool :=
  String.eqb hash ("$2a$" +:+ password).

(** ** HTTP *)

Record response := Response { status : Z; body : json }.

(** [res.json(body)]: status 200. *)
Definition res_json (b : json) : response := Response 200 b.

Definition error_body (e : string) : json := JObj [("error", JStr e)].
Definition error_message_body (e m : string) : json :=
  JObj [("error", JStr e); ("message", JStr m)].

(** [req.user] once a middleware has attached it. *)
Record identity := Identity { user_id : Z; user_username : string }.

(** What a middleware does with a request: answer it, or call [next()]. *)
Inductive middleware (A : Type) : Type :=
| Respond (r : response)
| Next (a : A).
Arguments Respond {A} r.
Arguments Next {A} a.

(** [const auth = req.headers["authorization"] || "";
     const token = auth.startsWith("Bearer ") ? auth.slice(7) : null;] *)
Definition bearer_token (authorization : option string) : option string :=
  let auth := default EmptyString authorization in
  if String.prefix "Bearer " auth then Some (slice 7 auth) else None.

Section Auth.
Context {jwt : Jsonwebtoken}.
Variable JWT_SECRET : string.

(** [authOptional]: [req.user] is the identity, or [null]. *)
Definition authOptional (authorization : option string) (clock : Z)
  : option identity :=
  match bearer_token authorization with
  | Some token =>
      if truthy token then
        match jwt_verify token JWT_SECRET clock with
        | Return payload =>
            Some (Identity (p_userId payload) (p_username payload))
        | Throw _ => None
        end
      else None
  | None => None
  end.

(** [authRequired].  [!payload.userId] holds of the user id 0, the one
    number that is falsy. *)
Definition authRequired (authorization : option string) (clock : Z)
  : middleware identity :=
  match bearer_token authorization with
  | Some token =>
      if truthy token then
        match jwt_verify token JWT_SECRET clock with
        | Return payload =>
            if p_userId payload =? 0 then
              Respond (Response 401
                (error_message_body "Invalid token" "Token payload is invalid"))
            else Next (Identity (p_userId payload) (p_username payload))
        | Throw error =>
            if String.eqb (err_name error) "TokenExpiredError" then
              Respond (Response 401
                (error_message_body "Token expired" "Please login again"))
            else if String.eqb (err_name error) "JsonWebTokenError" then
              Respond (Response 401
                (error_message_body "Invalid token" "Token is malformed"))
            else
              Respond (Response 401
                (error_message_body "Invalid token" "Token verification failed"))
        end
      else
        Respond (Response 401
          (error_message_body "Unauthorized" "No token provided"))
  | None =>
      Respond (Response 401
        (error_message_body "Unauthorized" "No token provided"))
  end.

End Auth.

(** The rejections of [authRequired], by name. *)
Definition Unauthorized : response :=
  Response 401 (error_message_body "Unauthorized" "No token provided").
Definition TokenExpired : response :=
  Response 401 (error_message_body "Token expired" "Please login again").
Definition InvalidToken (message : string) : response :=
  Response 401 (error_message_body "Invalid token" message).

(** ** PostgreSQL tables *)

(** A row of [users] (see [initDb]); the [reset_token] columns, which
    no handler reads or writes, are left out. *)
Record user_row := UserRow {
  u_id : Z;
  u_username : string;
  u_password_hash : string;
  u_created_at : Z;
  u_phone : option string;
  u_profile_photo : option string;
  u_full_name : option string;
  u_email : option string;
  u_is_verified : option bool
}.

(** A row of [tasks], with the columns [initDb] adds.  [user_id] is
    nullable: the column was added to an existing table.  A date and a
    time are kept in the text form the server gives them back in, an
    instant as the reading of the clock. *)
Record task_row := TaskRow {
  t_id : Z;
  t_title : string;
  t_status : string;
  t_description : option string;
  t_priority : option string;
  t_due_date : option string;
  t_created_at : option Z;
  t_updated_at : option Z;
  t_category : option string;
  t_due_time : option string;
  t_user_id : option Z;
  t_type : option string;
  t_project_id : option Z;
  t_important : option bool;
  t_assigned_to : option string
}.

(** A row of one of the other tables ([learning_progress], [notes],
    [files], [prs], [daily_goals], [study_sessions], [time_logs],
    [time_sessions]): its [id], its [user_id], its [note_id] (a column
    of [files] only), and the object the driver makes of the whole row,
    which is all the handlers use of the other columns. *)
Record item := Item {
  item_id : Z;
  item_user_id : option Z;
  item_note_id : option Z;
  item_object : json
}.

Record table := Table { items : list item; items_id_seq : Z }.

(** The tables and their [SERIAL] sequences; [tables] holds, by name,
    the tables other than [users] and [tasks] that exist.  The store is
    always reachable; a statement fails on a parameter the server
    refuses and on the constraints modelled below. *)
Record database := Database {
  users : list user_row;
  users_id_seq : Z;
  tasks : list task_row;
  tasks_id_seq : Z;
  tables : gmap string table
}.

Definition with_users (db : database) (us : list user_row) (seq : Z) : database :=
  Database us seq (tasks db) (tasks_id_seq db) (tables db).
Definition with_tasks (db : database) (ts : list task_row) (seq : Z) : database :=
  Database (users db) (users_id_seq db) ts seq (tables db).
Definition with_table (db : database) (name : string) (t : table) : database :=
  Database (users db) (users_id_seq db) (tasks db) (tasks_id_seq db)
    (<[name := t]> (tables db)).

(** The tables [initDb] creates besides [users] and [tasks]. *)
Definition initDb_tables : gmap string table :=
  list_to_map
    ((λ name, (name, Table [] 1))
       <$> ["learning_progress"; "notes"; "files"; "prs"; "daily_goals";
            "study_sessions"]).

(** A value in the parameter array of [pool.query]: a value of the
    request ([None] for [undefined]), or the text [JSON.stringify]
    writes for one. *)
Inductive param :=
| Value (v : option json)
| Stringified (v : json).

Definition owned_by (uid : Z) (t : task_row) : Prop := t_user_id t = Some uid.

#[global] Instance owned_by_dec uid t : Decision (owned_by uid t).
Proof. unfold owned_by. apply _. Defined.

Definition unique_violation (constraint : string) : js_error :=
  JsError "error"
    ("duplicate key value violates unique constraint "
     +:+ dquote +:+ constraint +:+ dquote).

Definition not_null_violation (column relation : string) : js_error :=
  JsError "error"
    ("null value in column " +:+ dquote +:+ column +:+ dquote
     +:+ " of relation " +:+ dquote +:+ relation +:+ dquote
     +:+ " violates not-null constraint").

Definition foreign_key_violation (relation constraint : string) : js_error :=
  JsError "error"
    ("insert or update on table " +:+ dquote +:+ relation +:+ dquote
     +:+ " violates foreign key constraint " +:+ dquote +:+ constraint +:+ dquote).

(** A text parameter that holds the code unit 0 is refused when it is
    bound, before the statement runs. *)
Fixpoint valid_text (s : string) : bool :=
  match s with
  | EmptyString => true
  | String c s' => negb (Ascii.eqb c Ascii.zero) && valid_text s'
  end.

Definition invalid_byte_sequence : js_error :=
  JsError "error"
    ("invalid byte sequence for encoding " +:+ dquote +:+ "UTF8" +:+ dquote
     +:+ ": 0x00").

(** A parameter the input function of its column type refuses, also at
    bind time.  The message names the value; it is left out, as no
    handler reads it. *)
Definition invalid_input (type : string) : js_error :=
  JsError "error" ("invalid input for type " +:+ type).

(** The range of [INTEGER] and of a [SERIAL] sequence. *)
Definition int4 (z : Z) : Prop := -2147483648 ≤ z ≤ 2147483647.

#[global] Instance int4_dec z : Decision (int4 z).
Proof. unfold int4. apply _. Defined.

Definition sequence_exhausted (sequence : string) : js_error :=
  JsError "error"
    ("nextval: reached maximum value of sequence " +:+ dquote +:+ sequence
     +:+ dquote +:+ " (2147483647)").

Definition index_row_too_large (index : string) : js_error :=
  JsError "error"
    ("index row size exceeds btree version 4 maximum 2704 for index "
     +:+ dquote +:+ index +:+ dquote).

(** [SELECT ... FROM users WHERE username=$1].  A stored text holds no
    code unit 0, so a parameter that equals a stored username is one
    the server takes; any other is refused if it holds one. *)
Definition select_users_by_username (db : database) (username : string)
  : completion (list user_row) :=
  match filter (λ u, u_username u = username) (users db) with
  | [] => if valid_text username then Return [] else Throw invalid_byte_sequence
  | rows => Return rows
  end.

Definition set_password_hash (hash : string) (u : user_row) : user_row :=
  UserRow (u_id u) (u_username u) hash (u_created_at u) (u_phone u)
    (u_profile_photo u) (u_full_name u) (u_email u) (u_is_verified u).

(** [UPDATE users SET password_hash = $1 WHERE username = $2]. *)
Definition update_password_by_username (db : database) (hash username : string)
  : database :=
  with_users db
    (map (λ u, if bool_decide (u_username u = username)
               then set_password_hash hash u else u) (users db))
    (users_id_seq db).

(** [UPDATE users SET password_hash=$1 WHERE id=$2]. *)
Definition update_password_by_id (db : database) (hash : string) (id : Z)
  : database :=
  with_users db
    (map (λ u, if bool_decide (u_id u = id)
               then set_password_hash hash u else u) (users db))
    (users_id_seq db).

(** The conditions [GET /tasks] pushes on its [where] array, each with
    the parameter it binds. *)
Inductive cond :=
| UserIdEq (uid : Z)
| StatusEq (s : string)
| PriorityEq (s : string)
| CategoryEq (s : string)
| TypeEq (s : string)
| ProjectIdEq (s : string)
| ImportantIs (b : bool)
| TitleOrDescriptionILike (pattern : string).

(** The engine's part that is not in the repository.  [ILIKE] matching
    ([ilike text pattern]) and [ORDER BY column ASC|DESC] depend on the
    locale; of the latter only that it reorders its input is used.
    [int4in], [date_in] and [time_in] are the input functions of
    [INTEGER], [DATE] and [TIME]: [None] when the server refuses the
    text, else the integer, or the date or time in the text form the
    server gives it back in.  An integer is in range, and the decimal
    numeral of an integer in range is read as that integer.
    [date_json] and [timestamptz_json] are what [JSON.stringify] writes
    for the [Date] the driver builds from a [DATE] and from a [TIMESTAMP
    WITH TIME ZONE].  [index_fits] tells the texts short enough, once
    compressed, for an entry of a b-tree index.  [date_of] is [DATE(t)]
    of an instant and [date_before] the order of two dates, both on the
    text form of a date; [pg_text] is the text a [TEXT] column takes for
    a value that is not null.

    For the tables of which only the driver's objects are kept, a
    statement names its table and its parameters by their columns:
    [pg_binds] tells whether every parameter is taken at bind time;
    [pg_row table values id uid clock] is the row [INSERT ... RETURNING
    *] stores, defaults included, and [pg_set table values clock row]
    the row [UPDATE ... RETURNING *] makes of [row], each [None] when a
    constraint refuses it; [pg_matches table column value row] is the
    comparison [column = value] of a [WHERE] clause; [pg_sorted] is
    [ORDER BY], a reordering. *)
Class Postgres := {
  ilike : string → string → bool;
  order_by : string → bool → list task_row → list task_row;
  order_by_perm : ∀ column desc rows, order_by column desc rows ≡ₚ rows;
  int4in : string → option Z;
  int4in_range : ∀ s z, int4in s = Some z → int4 z;
  int4in_decimal : ∀ z, int4 z → int4in (pretty z) = Some z;
  date_in : string → option string;
  time_in : string → option string;
  date_json : string → string;
  timestamptz_json : Z → string;
  index_fits : string → bool;
  date_of : Z → string;
  date_before : string → string → bool;
  pg_text : json → option string;
  pg_binds : string → list (string * param) → bool;
  pg_row : string → list (string * param) → Z → Z → Z → option json;
  pg_set : string → list (string * param) → Z → json → option json;
  pg_matches : string → string → param → json → bool;
  pg_sorted : string → string → list item → list item;
  pg_sorted_perm : ∀ name order rows, pg_sorted name order rows ≡ₚ rows
}.

(** Reference instance: [ILIKE] as containment of the pattern without
    its outer wildcards, ignoring case; [ORDER BY] sorts on [id] and
    leaves the table order for the other columns; an integer is an
    optional minus sign and decimal digits; a date is [YYYY-MM-DD] and
    a time [HH:MM:SS], digit for digit; an instant is written as its
    count of seconds. *)
Definition strip_percent (pattern : string) : string :=
  match pattern with
  | String "%" rest =>
      String.substring 0 (Nat.pred (String.length rest)) rest
  | _ => pattern
  end.

Definition ref_ilike (text pattern : string) : bool :=
  includes (toLowerCase (strip_percent pattern)) (toLowerCase text).

Fixpoint insert_by_id (t : task_row) (rows : list task_row) : list task_row :=
  match rows with
  | [] => [t]
  | r :: rows' =>
      if t_id t <=? t_id r then t :: rows else r :: insert_by_id t rows'
  end.

Definition sort_by_id (rows : list task_row) : list task_row :=
  foldr insert_by_id [] rows.

Definition ref_order_by (column : string) (desc : bool) (rows : list task_row)
  : list task_row :=
  let sorted := if String.eqb column "id" then sort_by_id rows else rows in
  if desc then reverse sorted else sorted.

Definition ref_int4in (s : string) : option Z :=
  match s with
  | String c ds =>
      if Ascii.eqb c "-" then (λ n, - Z.of_N n) <$> digits 10 ds
      else Z.of_N <$> digits 10 s
  | EmptyString => None
  end ≫= λ z, if bool_decide (int4 z) then Some z else None.

(** [pattern] with [d] for a digit: the strings of that shape. *)
Fixpoint shaped (pattern s : string) : bool :=
  match pattern, s with
  | EmptyString, EmptyString => true
  | String p pattern', String c s' =>
      (if Ascii.eqb p "d" then bool_decide (is_Some (digit_value 10 c))
       else Ascii.eqb p c)
      && shaped pattern' s'
  | _, _ => false
  end.

Definition ref_date_in (s : string) : option string :=
  if shaped "dddd-dd-dd" s then Some s else None.

Definition ref_time_in (s : string) : option string :=
  if shaped "dd:dd:dd" s then Some s else None.

Definition ref_date_json (d : string) : string := d +:+ "T00:00:00.000Z".

Definition ref_timestamptz_json (z : Z) : string := pretty z.

Definition ref_index_fits (s : string) : bool :=
  (String.length s <=? 2704)%nat.

Definition ref_date_of (z : Z) : string := "2024-01-01".

Definition ref_date_before (d d' : string) : bool := String.ltb d d'.

Definition ref_pg_text (j : json) : option string :=
  match j with
  | JStr s => if valid_text s then Some s else None
  | JNum z => Some (pretty z)
  | _ => None
  end.

Definition ref_pg_binds (name : string) (values : list (string * param))
  : bool := true.

(** What a parameter stores, in the reference instance: the value. *)
Definition param_json (p : param) : json :=
  match p with
  | Value (Some j) | Stringified j => j
  | Value None => JNull
  end.

Definition ref_pg_row (name : string) (values : list (string * param))
  (id uid clock : Z) : option json :=
  Some (JObj ([("id", JNum id); ("user_id", JNum uid)]
              ++ ((λ kv, (fst kv, param_json (snd kv))) <$> values)
              ++ [("created_at", JNum clock)])).

Definition ref_pg_set (name : string) (values : list (string * param))
  (clock : Z) (row : json) : option json :=
  Some (foldl (λ o kv, assign_key (fst kv) (param_json (snd kv)) o) row values).

Definition ref_pg_matches (name column : string) (value : param) (row : json)
  : bool :=
  match param_json value, json_field column row with
  | JStr s, Some (JStr s') => String.eqb s s'
  | JNum z, Some (JNum z') => z =? z'
  | _, _ => false
  end.

Definition ref_pg_sorted (name order : string) (rows : list item) : list item :=
  rows.

(** The [user_id] condition of a [where] array. *)
Definition is_user_id_cond (c : cond) : Prop :=
  match c with UserIdEq _ => True | _ => False end.

(** Every stored username is non-empty, as [POST /auth/register]
    requires of the usernames it stores. *)
Definition usernames_nonempty (db : database) : Prop :=
  Forall (λ u, truthy (u_username u) = true) (users db).

(** A task column bound from a request body: absent, [null], or a value. *)
Inductive field (A : Type) : Type :=
| Undefined
| Null
| Val (a : A).
Arguments Undefined {A}.
Arguments Null {A}.
Arguments Val {A} a.

(** [x ?? d] *)
Definition nullish {A} (x : field A) (d : A) : A :=
  match x with Val a => a | _ => d end.

(** [x ?? null] *)
Definition or_null {A} (x : field A) : option A :=
  match x with Val a => Some a | _ => None end.

(** [x !== undefined] *)
Definition defined {A} (x : field A) : bool :=
  match x with Undefined => false | _ => true end.

Definition is_null {A} (x : field A) : bool :=
  match x with Null => true | _ => false end.

(** [Boolean(x)] *)
Definition Boolean (x : field bool) : bool :=
  match x with Val b => b | _ => false end.

(** The body of [POST /tasks] and [PUT /tasks/:id]. *)
Record task_body := TaskBody {
  b_title : field string;
  b_status : field string;
  b_description : field string;
  b_priority : field string;
  b_due_date : field string;
  b_due_time : field string;
  b_category : field string;
  b_type : field string;
  b_project_id : field Z;
  b_important : field bool;
  b_assigned_to : field string
}.

(** A column after [SET col=$n] when the body defines the field. *)
Definition assign {A} (x : field A) (old : option A) : option A :=
  match x with
  | Undefined => old
  | Null => None
  | Val a => Some a
  end.

(** A parameter that may be [null]: [null] is taken by every type. *)
Definition binds {A} (ok : A → bool) (v : option A) : bool :=
  match v with Some a => ok a | None => true end.

(** A parameter read by an input function; [null] stays [null]. *)
Definition read (input : string → option string) (v : option string)
  : option (option string) :=
  match v with
  | Some s => Some <$> input s
  | None => Some None
  end.

Definition read_field (input : string → option string) (x : field string)
  : option (field string) :=
  match x with
  | Undefined => Some Undefined
  | Null => Some Null
  | Val s => Val <$> input s
  end.

Definition task_is (id uid : Z) (t : task_row) : Prop :=
  t_id t = id ∧ t_user_id t = Some uid.

#[global] Instance task_is_dec id uid t : Decision (task_is id uid t).
Proof. unfold task_is. apply _. Defined.

Section Store.
Context {pg : Postgres}.

(** [INSERT INTO users (username, password_hash, is_verified)
     VALUES ($1, $2, TRUE) RETURNING id, username].
    A username the server refuses as text stops the statement at bind
    time; [nextval] fails once the sequence is used up; after that the
    sequence advances whether or not the unique index accepts the row:
    it refuses a username that is stored already, and one too long for
    an entry.  A hash is text of the [bcrypt] alphabet. *)
Definition insert_user (db : database) (username hash : string) (clock : Z)
  : database * completion user_row :=
  let id := users_id_seq db in
  if negb (valid_text username) then (db, Throw invalid_byte_sequence)
  else if 2147483647 <? id then (db, Throw (sequence_exhausted "users_id_seq"))
  else if bool_decide (Exists (λ u, u_username u = username) (users db)) then
    (with_users db (users db) (id + 1),
     Throw (unique_violation "users_username_key"))
  else if negb (index_fits username) then
    (with_users db (users db) (id + 1),
     Throw (index_row_too_large "users_username_key"))
  else
    let row := UserRow id username hash clock None None None None (Some true) in
    (with_users db (users db ++ [row]) (id + 1), Return row).

(** Whether the parameter of a condition is taken at bind time. *)
Definition cond_binds (c : cond) : bool :=
  match c with
  | UserIdEq _ | ImportantIs _ => true
  | StatusEq s | PriorityEq s | CategoryEq s | TypeEq s
  | TitleOrDescriptionILike s => valid_text s
  | ProjectIdEq s => bool_decide (is_Some (int4in s))
  end.

(** A comparison with a [NULL] column is not true. *)
Definition cond_holds (c : cond) (t : task_row) : bool :=
  match c with
  | UserIdEq uid => bool_decide (t_user_id t = Some uid)
  | StatusEq s => bool_decide (t_status t = s)
  | PriorityEq s => bool_decide (t_priority t = Some s)
  | CategoryEq s => bool_decide (t_category t = Some s)
  | TypeEq s => bool_decide (t_type t = Some s)
  | ProjectIdEq s =>
      match int4in s with
      | Some z => bool_decide (t_project_id t = Some z)
      | None => false
      end
  | ImportantIs b => bool_decide (t_important t = Some b)
  | TitleOrDescriptionILike pattern =>
      ilike (t_title t) pattern
      || ilike (default EmptyString (t_description t)) pattern
  end.

Definition where_holds (where_ : list cond) (t : task_row) : Prop :=
  forallb (λ c, cond_holds c t) where_ = true.

#[global] Instance where_holds_dec where_ t : Decision (where_holds where_ t).
Proof. unfold where_holds. apply _. Defined.

(** Whether every parameter of a [where] array is taken. *)
Definition where_binds (where_ : list cond) : bool :=
  forallb cond_binds where_.

(** [SELECT * FROM tasks WHERE c1 AND ... AND cn ORDER BY sortBy sortOrder];
    it fails when a parameter is refused. *)
Definition select_tasks (db : database) (where_ : list cond)
  (sortBy : string) (desc : bool) : completion (list task_row) :=
  if where_binds where_
  then Return (order_by sortBy desc (filter (where_holds where_) (tasks db)))
  else Throw (invalid_input "a parameter").

(** [INSERT INTO tasks (title, ..., user_id) VALUES ($1, ..., $12)
     RETURNING *]: [created_at] and [updated_at] take their default
    [NOW()]; [user_id] references [users(id)].  A parameter its column
    refuses stops the statement at bind time; [nextval] fails once the
    sequence is used up, and after that the sequence advances whether
    or not the row is accepted. *)
Definition insert_task (db : database) (title st : string)
  (description : option string) (pr : string) (due_date due_time : option string)
  (cat ty : string) (project_id : option Z) (important : bool)
  (assigned_to : option string) (uid : Z) (clock : Z)
  : database * completion task_row :=
  let id := tasks_id_seq db in
  if negb (valid_text title && valid_text st && binds valid_text description
           && valid_text pr && valid_text cat && valid_text ty
           && binds valid_text assigned_to)
  then (db, Throw invalid_byte_sequence)
  else if negb (binds (λ z, bool_decide (int4 z)) project_id)
  then (db, Throw (invalid_input "integer"))
  else
    match read date_in due_date, read time_in due_time with
    | Some date, Some time =>
        if 2147483647 <? id
        then (db, Throw (sequence_exhausted "tasks_id_seq"))
        else if bool_decide (Exists (λ u, u_id u = uid) (users db)) then
          let row := TaskRow id title st description (Some pr) date
                       (Some clock) (Some clock) (Some cat) time (Some uid)
                       (Some ty) project_id (Some important) assigned_to in
          (with_tasks db (tasks db ++ [row]) (id + 1), Return row)
        else
          (with_tasks db (tasks db) (id + 1),
           Throw (foreign_key_violation "tasks" "tasks_user_id_fkey"))
    | _, _ => (db, Throw (invalid_input "date or time"))
    end.

(** Whether the fields a body defines are taken at bind time, the date
    and the time apart. *)
Definition body_binds (b : task_body) : bool :=
  binds valid_text (or_null (b_title b))
  && binds valid_text (or_null (b_status b))
  && binds valid_text (or_null (b_description b))
  && binds valid_text (or_null (b_priority b))
  && binds valid_text (or_null (b_category b))
  && binds valid_text (or_null (b_type b))
  && binds (λ z, bool_decide (int4 z)) (or_null (b_project_id b))
  && binds valid_text (or_null (b_assigned_to b)).

(** A body the server takes: no text field holds the code unit 0,
    [project_id] is in range, and [due_date] and [due_time] are read as
    the date [date] and the time [time]. *)
Definition body_taken (b : task_body) (date time : field string) : Prop :=
  body_binds b = true
  ∧ read_field date_in (b_due_date b) = Some date
  ∧ read_field time_in (b_due_time b) = Some time.

(** The [SET] list [PUT /tasks/:id] builds from the fields that are not
    [undefined], followed by [updated_at=NOW()]; [due_date] and
    [due_time] are the date and the time as the server has read them. *)
Definition set_fields (b : task_body) (due_date due_time : field string)
  (clock : Z) (t : task_row) : task_row :=
  TaskRow (t_id t)
    (nullish (b_title b) (t_title t))
    (nullish (b_status b) (t_status t))
    (assign (b_description b) (t_description t))
    (assign (b_priority b) (t_priority t))
    (assign due_date (t_due_date t))
    (t_created_at t)
    (Some clock)
    (assign (b_category b) (t_category t))
    (assign due_time (t_due_time t))
    (t_user_id t)
    (assign (b_type b) (t_type t))
    (assign (b_project_id b) (t_project_id t))
    (if defined (b_important b) then Some (Boolean (b_important b))
     else t_important t)
    (assign (b_assigned_to b) (t_assigned_to t)).

(** [UPDATE tasks SET ... WHERE id=$i AND user_id=$j RETURNING *].
    The id of the path is read as an [INTEGER]; a parameter its column
    refuses stops the statement at bind time.  [title] and [status] are
    [NOT NULL]. *)
Definition update_task (db : database) (b : task_body) (id : string)
  (uid : Z) (clock : Z) : database * completion (list task_row) :=
  if negb (body_binds b) then (db, Throw (invalid_input "a parameter"))
  else
    match read_field date_in (b_due_date b), read_field time_in (b_due_time b),
          int4in id with
    | Some due_date, Some due_time, Some n =>
        let hit := filter (task_is n uid) (tasks db) in
        match hit with
        | [] => (db, Return [])
        | _ :: _ =>
            if is_null (b_title b) then
              (db, Throw (not_null_violation "title" "tasks"))
            else if is_null (b_status b) then
              (db, Throw (not_null_violation "status" "tasks"))
            else
              (with_tasks db
                 (map (λ t, if bool_decide (task_is n uid t)
                            then set_fields b due_date due_time clock t else t)
                    (tasks db))
                 (tasks_id_seq db),
               Return (map (set_fields b due_date due_time clock) hit))
        end
    | _, _, _ => (db, Throw (invalid_input "a parameter"))
    end.

(** [DELETE FROM tasks WHERE id=$1 AND user_id=$2]; yields [rowCount]. *)
Definition delete_task (db : database) (id : string) (uid : Z)
  : database * completion nat :=
  match int4in id with
  | Some n =>
      (with_tasks db (filter (λ t, ¬ task_is n uid t) (tasks db))
         (tasks_id_seq db),
       Return (List.length (filter (task_is n uid) (tasks db))))
  | None => (db, Throw (invalid_input "integer"))
  end.

(** ** Rows as JSON *)

(** [res.json(row)] for a row of [tasks], as the driver hands it over:
    numbers for the integer columns, a [Date] for [due_date],
    [created_at] and [updated_at], the server's text for [due_time]. *)
Definition task_json (t : task_row) : json :=
  JObj [("id", JNum (t_id t));
        ("title", JStr (t_title t));
        ("status", JStr (t_status t));
        ("description", json_opt JStr (t_description t));
        ("priority", json_opt JStr (t_priority t));
        ("due_date", json_opt (λ d, JStr (date_json d)) (t_due_date t));
        ("created_at",
         json_opt (λ z, JStr (timestamptz_json z)) (t_created_at t));
        ("updated_at",
         json_opt (λ z, JStr (timestamptz_json z)) (t_updated_at t));
        ("category", json_opt JStr (t_category t));
        ("due_time", json_opt JStr (t_due_time t));
        ("user_id", json_opt JNum (t_user_id t));
        ("type", json_opt JStr (t_type t));
        ("project_id", json_opt JNum (t_project_id t));
        ("important", json_opt JBool (t_important t));
        ("assigned_to", json_opt JStr (t_assigned_to t))].

End Store.

(** [DELETE FROM tasks WHERE status='done' AND user_id=$1]. *)
Definition delete_done_tasks (db : database) (uid : Z) : database :=
  with_tasks db
    (filter (λ t, ¬ (t_status t = "done" ∧ owned_by uid t)) (tasks db))
    (tasks_id_seq db).

Definition set_done (clock : Z) (t : task_row) : task_row :=
  TaskRow (t_id t) (t_title t) "done" (t_description t) (t_priority t)
    (t_due_date t) (t_created_at t) (Some clock) (t_category t) (t_due_time t)
    (t_user_id t) (t_type t) (t_project_id t) (t_important t) (t_assigned_to t).

(** [UPDATE tasks SET status='done', updated_at=NOW()
     WHERE status<>'done' AND user_id=$1]. *)
Definition mark_tasks_done (db : database) (uid : Z) (clock : Z) : database :=
  with_tasks db
    (map (λ t, if bool_decide (t_status t ≠ "done" ∧ owned_by uid t)
               then set_done clock t else t) (tasks db))
    (tasks_id_seq db).

Definition user_json (id : Z) (username : string) : json :=
  JObj [("id", JNum id); ("username", JStr username)].


(** ** Socket.IO *)

(** What a client receives: an event name and its payload. *)
Record message := Message { msg_event : string; msg_data : json }.

(** [io.to(room).emit(event, data)], as a handler requests it. *)
Record emission := Emission { to_room : string; em_message : message }.

(** One connection: whether it is open, the rooms it joined with
    [socket.join], and what the server has sent it so far.  The room
    every socket has under its own id is left out: nothing in the server
    emits to it. *)
Record socket := Socket {
  sock_connected : bool;
  sock_rooms : gset string;
  sock_received : list message
}.

(** [`user-${id}`] *)
Definition user_room (id : Z) : string := "user-" +:+ pretty id.

Definition receive (m : message) (s : socket) : socket :=
  Socket (sock_connected s) (sock_rooms s) (sock_received s ++ [m]).

(** [socket.join(room)] *)
Definition socket_join (sid : nat) (room : string)
  (sockets : gmap nat socket) : gmap nat socket :=
  alter (λ s, Socket (sock_connected s) ({[room]} ∪ sock_rooms s)
                (sock_received s)) sid sockets.

(** [socket.emit(event, data)]: to this connection only. *)
Definition socket_emit (sid : nat) (m : message)
  (sockets : gmap nat socket) : gmap nat socket :=
  alter (receive m) sid sockets.

(** [io.to(room).emit(event, data)]: to every socket in [room]. *)
Definition io_to_emit (e : emission) (sockets : gmap nat socket)
  : gmap nat socket :=
  (λ s, if bool_decide (to_room e ∈ sock_rooms s)
        then receive (em_message e) s else s) <$> sockets.

(** What one socket receives of a list of emissions. *)
Definition receive_all (emits : list emission) (s : socket) : socket :=
  fold_left (λ s e, if bool_decide (to_room e ∈ sock_rooms s)
                    then receive (em_message e) s else s) emits s.

(** What a handler leaves behind: the store, the emissions it asked
    for, and its response. *)
Record outcome := Outcome {
  out_db : database;
  out_emits : list emission;
  out_response : response
}.

(** ** Request handlers *)

(** The query string of [GET /tasks]. *)
Record tasks_query := TasksQuery {
  q_status : option string;
  q_priority : option string;
  q_category : option string;
  q_type : option string;
  q_project_id : option string;
  q_important : option string;
  q_q : option string;
  q_sort : option string;
  q_order : option string
}.

Definition allowedSort : list string :=
  ["id"; "title"; "status"; "priority"; "category"; "type"; "due_date";
   "due_time"; "project_id"; "created_at"; "updated_at"].

(** [if (v) { where.push(...) }] for a string parameter. *)
Definition push_if (v : option string) (c : string → cond) : list cond :=
  match v with
  | Some s => if truthy s then [c s] else []
  | None => []
  end.

(** The [where] array of [GET /tasks], in the order it is filled. *)
Definition tasks_where (user : option identity) (q : tasks_query) : list cond :=
  match user with Some u => [UserIdEq (user_id u)] | None => [] end
  ++ push_if (q_status q) StatusEq
  ++ push_if (q_priority q) PriorityEq
  ++ push_if (q_category q) CategoryEq
  ++ push_if (q_type q) TypeEq
  ++ push_if (q_project_id q) ProjectIdEq
  ++ match q_important q with
     | Some important =>
         let val := toLowerCase important in
         if String.eqb val "true" || String.eqb val "1" then [ImportantIs true]
         else if String.eqb val "false" || String.eqb val "0"
              then [ImportantIs false]
              else []
     | None => []
     end
  ++ push_if (q_q q) (λ s, TitleOrDescriptionILike ("%" +:+ s +:+ "%")).

Definition tasks_sortBy (q : tasks_query) : string :=
  let sort := default "id" (q_sort q) in
  if bool_decide (sort ∈ allowedSort) then sort else "id".

Definition tasks_sortOrder_desc (q : tasks_query) : bool :=
  String.eqb (toLowerCase (default "asc" (q_order q))) "desc".

Section Handlers.
Context {jwt : Jsonwebtoken} {bcrypt : Bcryptjs} {pg : Postgres}.
Variable JWT_SECRET : string.

(** A route declared with [authRequired]: the handler runs only when the
    middleware calls [next()]. *)
Definition with_authRequired (authorization : option string) (clock : Z)
  (db : database) (handler : identity → outcome) : outcome :=
  match authRequired JWT_SECRET authorization clock with
  | Respond r => Outcome db [] r
  | Next user => handler user
  end.

(** [POST /auth/register] *)
Definition post_auth_register (username password : option string)
  (salt : string) (clock : Z) (db : database) : outcome :=
  match username, password with
  | Some username, Some password =>
      if negb (truthy username) || negb (truthy password) then
        Outcome db []
          (Response 400 (error_body "Username and password are required"))
      else if (String.length username <? 3)%nat then
        Outcome db []
          (Response 400 (error_body "Username must be at least 3 characters"))
      else if (String.length password <? 6)%nat then
        Outcome db []
          (Response 400 (error_body "Password must be at least 6 characters"))
      else
        let hash := bcrypt_hash password 10 salt in
        match insert_user db username hash clock with
        | (db', Return user) =>
            let token := jwt_sign (u_id user) (u_username user) JWT_SECRET
                           expiresIn_7d clock in
            Outcome db' []
              (res_json (JObj [("success", JBool true);
                               ("message", JStr "Registration successful");
                               ("token", JStr token);
                               ("user", user_json (u_id user) (u_username user))]))
        | (db', Throw err) =>
            let msg := err_message err in
            if includes "duplicate key" msg && includes "users_username_key" msg
            then Outcome db' []
              (Response 409 (error_body "Username already exists"))
            else Outcome db' [] (Response 500 (error_body "Failed to register"))
        end
  | _, _ =>
      Outcome db []
        (Response 400 (error_body "Username and password are required"))
  end.

(** [POST /auth/login] *)
Definition post_auth_login (username password : option string)
  (clock : Z) (db : database) : outcome :=
  match username, password with
  | Some username, Some password =>
      if negb (truthy username) || negb (truthy password) then
        Outcome db []
          (Response 400 (error_body "username and password are required"))
      else
        match select_users_by_username db username with
        | Return [] =>
            Outcome db [] (Response 401 (error_body "invalid credentials"))
        | Return (user :: _) =>
            if bcrypt_compare password (u_password_hash user) then
              let token := jwt_sign (u_id user) (u_username user) JWT_SECRET
                             expiresIn_7d clock in
              Outcome db []
                (res_json (JObj [("token", JStr token);
                                 ("user", user_json (u_id user) (u_username user))]))
            else Outcome db [] (Response 401 (error_body "invalid credentials"))
        | Throw _ => Outcome db [] (Response 500 (error_body "Failed to login"))
        end
  | _, _ =>
      Outcome db []
        (Response 400 (error_body "username and password are required"))
  end.

(** [GET /auth/verify] *)
Definition get_auth_verify (authorization : option string) (clock : Z)
  (db : database) : outcome :=
  with_authRequired authorization clock db (λ user,
    Outcome db []
      (res_json (JObj [("valid", JBool true);
                       ("user", user_json (user_id user) (user_username user))]))).

(** [POST /auth/reset-password]: declared without a middleware. *)
Definition post_auth_reset_password (username newPassword : option string)
  (salt : string) (db : database) : outcome :=
  match username, newPassword with
  | Some username, Some newPassword =>
      if negb (truthy username) || negb (truthy newPassword) then
        Outcome db []
          (Response 400 (error_body "Username and new password are required"))
      else if (String.length newPassword <? 6)%nat then
        Outcome db []
          (Response 400 (error_body "Password must be at least 6 characters"))
      else
        match select_users_by_username db username with
        | Return [] => Outcome db [] (Response 404 (error_body "User not found"))
        | Return (_ :: _) =>
            let hash := bcrypt_hash newPassword 10 salt in
            Outcome (update_password_by_username db hash username) []
              (res_json (JObj [("success", JBool true);
                               ("message", JStr "Password updated successfully")]))
        | Throw _ =>
            Outcome db [] (Response 500 (error_body "Failed to update password"))
        end
  | _, _ =>
      Outcome db []
        (Response 400 (error_body "Username and new password are required"))
  end.

(** [GET /tasks]: declared with [authOptional]; the [user_id] condition
    is pushed only under [if (req.user)]. *)
Definition get_tasks (authorization : option string) (q : tasks_query)
  (clock : Z) (db : database) : outcome :=
  let user := authOptional JWT_SECRET authorization clock in
  match select_tasks db (tasks_where user q) (tasks_sortBy q)
          (tasks_sortOrder_desc q) with
  | Return rows => Outcome db [] (res_json (JArr (map task_json rows)))
  | Throw _ => Outcome db [] (Response 500 (error_body "Failed to fetch tasks"))
  end.

(** [POST /tasks] *)
Definition post_tasks (authorization : option string) (b : task_body)
  (clock : Z) (db : database) : outcome :=
  with_authRequired authorization clock db (λ user,
    match b_title b with
    | Val title =>
        if negb (truthy title) || negb (truthy (trim title)) then
          Outcome db [] (Response 400 (error_body "Title is required"))
        else
          let st := nullish (b_status b) "pending" in
          let pr := nullish (b_priority b) "medium" in
          let cat := nullish (b_category b) "own" in
          let ty := nullish (b_type b) "work" in
          match insert_task db (trim title) st (or_null (b_description b)) pr
                  (or_null (b_due_date b)) (or_null (b_due_time b)) cat ty
                  (or_null (b_project_id b)) (Boolean (b_important b))
                  (or_null (b_assigned_to b)) (user_id user) clock with
          | (db', Return task) =>
              Outcome db'
                [Emission (user_room (user_id user))
                   (Message "task_created" (task_json task))]
                (res_json (task_json task))
          | (db', Throw _) =>
              Outcome db' [] (Response 500 (error_body "Failed to create task"))
          end
    | _ => Outcome db [] (Response 400 (error_body "Title is required"))
    end).

Definition nothing_to_update (b : task_body) : bool :=
  negb (defined (b_status b)) && negb (defined (b_title b))
  && negb (defined (b_description b)) && negb (defined (b_priority b))
  && negb (defined (b_due_date b)) && negb (defined (b_due_time b))
  && negb (defined (b_category b)) && negb (defined (b_type b))
  && negb (defined (b_project_id b)) && negb (defined (b_important b))
  && negb (defined (b_assigned_to b)).

(** [PUT /tasks/:id] *)
Definition put_tasks_id (authorization : option string) (id : string)
  (b : task_body) (clock : Z) (db : database) : outcome :=
  with_authRequired authorization clock db (λ user,
    if nothing_to_update b then
      Outcome db [] (Response 400 (error_body "Nothing to update"))
    else
      match update_task db b id (user_id user) clock with
      | (db', Return []) =>
          Outcome db' [] (Response 404 (error_body "Task not found"))
      | (db', Return (updated :: _)) =>
          Outcome db'
            [Emission (user_room (user_id user))
               (Message "task_updated" (task_json updated))]
            (res_json (task_json updated))
      | (db', Throw _) =>
          Outcome db' [] (Response 500 (error_body "Failed to update task"))
      end).

(** [DELETE /tasks/:id]; the event carries [Number(id)]. *)
Definition delete_tasks_id (authorization : option string) (id : string)
  (clock : Z) (db : database) : outcome :=
  with_authRequired authorization clock db (λ user,
    match delete_task db id (user_id user) with
    | (db', Return O) =>
        Outcome db' [] (Response 404 (error_body "Task not found"))
    | (db', Return (S _)) =>
        Outcome db'
          [Emission (user_room (user_id user))
             (Message "task_deleted" (JObj [("id", json_opt JNum (Number id))]))]
          (res_json (JObj [("success", JBool true)]))
    | (db', Throw _) =>
        Outcome db' [] (Response 500 (error_body "Failed to delete task"))
    end).

(** [POST /tasks/clear-completed] *)
Definition post_tasks_clear_completed (authorization : option string)
  (clock : Z) (db : database) : outcome :=
  with_authRequired authorization clock db (λ user,
    Outcome (delete_done_tasks db (user_id user)) []
      (res_json (JObj [("success", JBool true)]))).

(** [POST /tasks/mark-all-done] *)
Definition post_tasks_mark_all_done (authorization : option string)
  (clock : Z) (db : database) : outcome :=
  with_authRequired authorization clock db (λ user,
    Outcome (mark_tasks_done db (user_id user) clock) []
      (res_json (JObj [("success", JBool true)]))).

End Handlers.

(** ** The server as a transition system *)

(** The requests modelled with their handlers: the auth endpoints and
    the task endpoints.  The other routes of the file (notes, files,
    PRs, profile, goals, sessions, time logs, dashboard) never use [io]
    or a socket and do not write [tasks]; they appear in the route table
    below. *)
Inductive request :=
| POST_auth_register (username password : option string)
| POST_auth_login (username password : option string)
| GET_auth_verify (authorization : option string)
| POST_auth_reset_password (username newPassword : option string)
| GET_tasks (authorization : option string) (q : tasks_query)
| POST_tasks (authorization : option string) (b : task_body)
| PUT_tasks_id (authorization : option string) (id : string) (b : task_body)
| DELETE_tasks_id (authorization : option string) (id : string)
| POST_tasks_clear_completed (authorization : option string)
| POST_tasks_mark_all_done (authorization : option string).

(** What reaches the event loop: a new connection, an [authenticate]
    message or the end of a connection, or an HTTP request. *)
Inductive input :=
| Connection (sid : nat)
| Authenticate (sid : nat) (token : string)
| Disconnect (sid : nat)
| Http (r : request).

(** An input together with the clock (seconds) and the salt [bcrypt]
    draws while it is handled. *)
Record occurrence := Occurrence {
  at_clock : Z;
  with_salt : string;
  what : input
}.

Record server := Server {
  srv_db : database;
  srv_sockets : gmap nat socket
}.

Definition empty_database : database := Database [] 1 [] 1 initDb_tables.
Definition initial_server : server := Server empty_database ∅.

(** The task events of the realtime protocol. *)
Definition task_events : list string :=
  ["task_created"; "task_updated"; "task_deleted"].

Definition is_task_event (m : message) : Prop := msg_event m ∈ task_events.

#[global] Instance is_task_event_dec m : Decision (is_task_event m).
Proof. unfold is_task_event. apply _. Defined.

(** The requests on tasks whose route carries [authRequired]. *)
Definition task_write (r : request) : Prop :=
  match r with
  | POST_tasks _ _ | PUT_tasks_id _ _ _ | DELETE_tasks_id _ _
  | POST_tasks_clear_completed _ | POST_tasks_mark_all_done _ => True
  | _ => False
  end.

(** The event of the protocol that corresponds to a request on a single
    task. *)
Definition mutation_event (r : request) : option string :=
  match r with
  | POST_tasks _ _ => Some "task_created"
  | PUT_tasks_id _ _ _ => Some "task_updated"
  | DELETE_tasks_id _ _ => Some "task_deleted"
  | _ => None
  end.

Section Server.
Context {jwt : Jsonwebtoken} {bcrypt : Bcryptjs} {pg : Postgres}.
Variable JWT_SECRET : string.

Definition handle (r : request) (salt : string) (clock : Z) (db : database)
  : outcome :=
  match r with
  | POST_auth_register username password =>
      post_auth_register JWT_SECRET username password salt clock db
  | POST_auth_login username password =>
      post_auth_login JWT_SECRET username password clock db
  | GET_auth_verify authorization =>
      get_auth_verify JWT_SECRET authorization clock db
  | POST_auth_reset_password username newPassword =>
      post_auth_reset_password username newPassword salt db
  | GET_tasks authorization q => get_tasks JWT_SECRET authorization q clock db
  | POST_tasks authorization b => post_tasks JWT_SECRET authorization b clock db
  | PUT_tasks_id authorization id b =>
      put_tasks_id JWT_SECRET authorization id b clock db
  | DELETE_tasks_id authorization id =>
      delete_tasks_id JWT_SECRET authorization id clock db
  | POST_tasks_clear_completed authorization =>
      post_tasks_clear_completed JWT_SECRET authorization clock db
  | POST_tasks_mark_all_done authorization =>
      post_tasks_mark_all_done JWT_SECRET authorization clock db
  end.

(** The identity the route's middleware attaches to the request. *)
Definition request_user (r : request) (clock : Z) : option identity :=
  match r with
  | POST_auth_register _ _ | POST_auth_login _ _
  | POST_auth_reset_password _ _ => None
  | GET_tasks authorization _ => authOptional JWT_SECRET authorization clock
  | GET_auth_verify authorization
  | POST_tasks authorization _
  | PUT_tasks_id authorization _ _
  | DELETE_tasks_id authorization _
  | POST_tasks_clear_completed authorization
  | POST_tasks_mark_all_done authorization =>
      match authRequired JWT_SECRET authorization clock with
      | Next user => Some user
      | Respond _ => None
      end
  end.

(** [socket.on("authenticate", (token) => ...)] *)
Definition on_authenticate (sid : nat) (token : string) (clock : Z)
  (sockets : gmap nat socket) : gmap nat socket :=
  match jwt_verify token JWT_SECRET clock with
  | Return payload =>
      let room := user_room (p_userId payload) in
      socket_emit sid (Message "authenticated" (JObj [("ok", JBool true)]))
        (socket_join sid room sockets)
  | Throw _ =>
      socket_emit sid
        (Message "auth_error" (JObj [("error", JStr "Invalid token")]))
        sockets
  end.

(** [io.on("connection", ...)]: a fresh socket, in no room. *)
Definition on_connection (sid : nat) (sockets : gmap nat socket)
  : gmap nat socket :=
  match sockets !! sid with
  | Some _ => sockets
  | None => <[sid := Socket true ∅ []]> sockets
  end.

(** A closed connection leaves its rooms. *)
Definition on_disconnect (sid : nat) (sockets : gmap nat socket)
  : gmap nat socket :=
  alter (λ s, Socket false ∅ (sock_received s)) sid sockets.

Definition is_connected (sid : nat) (sockets : gmap nat socket) : bool :=
  match sockets !! sid with
  | Some s => sock_connected s
  | None => false
  end.

Definition deliver (emits : list emission) (sockets : gmap nat socket)
  : gmap nat socket :=
  fold_left (λ socks e, io_to_emit e socks) emits sockets.

(** One turn of the event loop.  A handler runs to completion within
    its turn; only open connections send messages. *)
Definition step (o : occurrence) (srv : server) : server :=
  match what o with
  | Connection sid => Server (srv_db srv) (on_connection sid (srv_sockets srv))
  | Authenticate sid token =>
      if is_connected sid (srv_sockets srv) then
        Server (srv_db srv)
          (on_authenticate sid token (at_clock o) (srv_sockets srv))
      else srv
  | Disconnect sid => Server (srv_db srv) (on_disconnect sid (srv_sockets srv))
  | Http r =>
      let out := handle r (with_salt o) (at_clock o) (srv_db srv) in
      Server (out_db out) (deliver (out_emits out) (srv_sockets srv))
  end.

Definition run (tr : list occurrence) (srv : server) : server :=
  fold_left (λ s o, step o s) tr srv.

(** The messages the handlers publish for the requests of user [uid]
    along a run. *)
Fixpoint emitted_for (uid : Z) (tr : list occurrence) (srv : server)
  : list message :=
  match tr with
  | [] => []
  | o :: tr' =>
      match what o with
      | Http r =>
          if bool_decide (user_id <$> request_user r (at_clock o) = Some uid)
          then map em_message
                 (out_emits (handle r (with_salt o) (at_clock o) (srv_db srv)))
          else []
      | _ => []
      end ++ emitted_for uid tr' (step o srv)
  end.

(** The task events connection [sid] has received. *)
Definition task_events_received (sid : nat) (srv : server) : list message :=
  match srv_sockets srv !! sid with
  | Some s => filter is_task_event (sock_received s)
  | None => []
  end.

(** Every token connection [sid] presents in [o] fails to verify or
    carries user id [uid]. *)
Definition authenticates_as (uid : Z) (sid : nat) (o : occurrence) : Prop :=
  match what o with
  | Authenticate sid' token =>
      sid' = sid →
      match jwt_verify token JWT_SECRET (at_clock o) with
      | Return payload => p_userId payload = uid
      | Throw _ => True
      end
  | _ => True
  end.

(** Connection [sid] is not closed by [o]. *)
Definition stays_open (sid : nat) (o : occurrence) : Prop :=
  what o ≠ Disconnect sid.

(** A connection of user [uid]: it stays open and authenticates as
    [uid] only. *)
Definition presents_only (uid : Z) (sid : nat) (o : occurrence) : Prop :=
  authenticates_as uid sid o ∧ stays_open sid o.

(** The user channels a socket is in hold at most one user id. *)
Definition at_most_one_channel (s : socket) : Prop :=
  ∀ a b : Z, user_room a ∈ sock_rooms s → user_room b ∈ sock_rooms s → a = b.

End Server.

(** ** The route table *)

Inductive auth_policy := NoMiddleware | Optional | Required.

Inductive verb := SELECT | INSERT | UPDATE | DELETE | CREATE_TABLE.

(** How a statement is tied to the caller: its owner column ([user_id],
    or [id] on [users]) is bound to [req.user.id]; bound to it only
    under [if (req.user)]; the row is picked by a username taken from
    the request body; or the statement has no owner constraint. *)
Inductive scope := ByReqUser | ByReqUserIfAny | ByBodyUsername | Unscoped.

Record statement := Statement {
  st_verb : verb;
  st_table : string;
  st_scope : scope
}.

Record route := Route {
  r_method : string;
  r_path : string;
  r_auth : auth_policy;
  r_statements : list statement
}.

#[global] Instance auth_policy_eq_dec : EqDecision auth_policy.
Proof. solve_decision. Defined.
#[global] Instance verb_eq_dec : EqDecision verb.
Proof. solve_decision. Defined.
#[global] Instance scope_eq_dec : EqDecision scope.
Proof. solve_decision. Defined.

(** Every [app.METHOD(path, [middleware,] handler)] of the file, in
    order, with the statements its handler sends to the pool. *)
Definition routes : list route := [
  Route "GET" "/" NoMiddleware [];
  Route "POST" "/auth/register" NoMiddleware [Statement INSERT "users" Unscoped];
  Route "POST" "/auth/login" NoMiddleware [Statement SELECT "users" ByBodyUsername];
  Route "GET" "/auth/verify" Required [];
  Route "POST" "/auth/change-password" Required
    [Statement SELECT "users" ByReqUser; Statement UPDATE "users" ByReqUser];
  Route "GET" "/tasks" Optional [Statement SELECT "tasks" ByReqUserIfAny];
  Route "POST" "/tasks" Required [Statement INSERT "tasks" ByReqUser];
  Route "PUT" "/tasks/:id" Required [Statement UPDATE "tasks" ByReqUser];
  Route "DELETE" "/tasks/:id" Required [Statement DELETE "tasks" ByReqUser];
  Route "POST" "/tasks/clear-completed" Required [Statement DELETE "tasks" ByReqUser];
  Route "POST" "/tasks/mark-all-done" Required [Statement UPDATE "tasks" ByReqUser];
  Route "GET" "/learning/progress" Required
    [Statement SELECT "learning_progress" ByReqUser];
  Route "POST" "/learning/progress" Required
    [Statement INSERT "learning_progress" ByReqUser];
  Route "PUT" "/learning/progress/:id" Required
    [Statement UPDATE "learning_progress" ByReqUser];
  Route "DELETE" "/learning/progress/:id" Required
    [Statement DELETE "learning_progress" ByReqUser];
  Route "POST" "/notes/:id/files" Required
    [Statement SELECT "notes" ByReqUser; Statement INSERT "files" ByReqUser];
  Route "GET" "/notes/:id/files" Required
    [Statement SELECT "notes" ByReqUser; Statement SELECT "files" ByReqUser];
  Route "DELETE" "/files/:id" Required [Statement DELETE "files" ByReqUser];
  Route "GET" "/notes" Required [Statement SELECT "notes" ByReqUser];
  Route "POST" "/notes" Required [Statement INSERT "notes" ByReqUser];
  Route "PUT" "/notes/:id" Required [Statement UPDATE "notes" ByReqUser];
  Route "DELETE" "/notes/:id" Required [Statement DELETE "notes" ByReqUser];
  Route "GET" "/prs" Required [Statement SELECT "prs" ByReqUser];
  Route "POST" "/prs" Required [Statement INSERT "prs" ByReqUser];
  Route "PUT" "/prs/:id" Required [Statement UPDATE "prs" ByReqUser];
  Route "DELETE" "/prs/:id" Required [Statement DELETE "prs" ByReqUser];
  Route "GET" "/prs/download" Required [Statement SELECT "prs" ByReqUser];
  Route "GET" "/profile" Required [Statement SELECT "users" ByReqUser];
  Route "PUT" "/profile" Required [Statement UPDATE "users" ByReqUser];
  Route "POST" "/auth/reset-password" NoMiddleware
    [Statement SELECT "users" ByBodyUsername;
     Statement UPDATE "users" ByBodyUsername];
  Route "GET" "/test-db" NoMiddleware [];
  Route "GET" "/test-network" NoMiddleware [];
  Route "GET" "/projects" Required [];
  Route "POST" "/time-logs" Required
    [Statement CREATE_TABLE "time_logs" Unscoped;
     Statement INSERT "time_logs" ByReqUser];
  Route "GET" "/time-sessions" Required
    [Statement CREATE_TABLE "time_sessions" Unscoped;
     Statement SELECT "time_sessions" ByReqUser];
  Route "POST" "/time-sessions" Required
    [Statement CREATE_TABLE "time_sessions" Unscoped;
     Statement INSERT "time_sessions" ByReqUser];
  Route "GET" "/dashboard/overview" Required
    [Statement SELECT "tasks" ByReqUser; Statement SELECT "tasks" ByReqUser;
     Statement SELECT "tasks" ByReqUser; Statement SELECT "time_logs" ByReqUser;
     Statement SELECT "tasks" ByReqUser; Statement SELECT "tasks" ByReqUser];
  Route "GET" "/daily-goals" Required [Statement SELECT "daily_goals" ByReqUser];
  Route "POST" "/daily-goals" Required [Statement INSERT "daily_goals" ByReqUser];
  Route "PUT" "/daily-goals/:id" Required [Statement UPDATE "daily_goals" ByReqUser];
  Route "DELETE" "/daily-goals/:id" Required
    [Statement DELETE "daily_goals" ByReqUser];
  Route "GET" "/study-sessions" Required
    [Statement SELECT "study_sessions" ByReqUser];
  Route "POST" "/study-sessions" Required
    [Statement INSERT "study_sessions" ByReqUser];
  Route "PUT" "/study-sessions/:id" Required
    [Statement UPDATE "study_sessions" ByReqUser];
  Route "DELETE" "/study-sessions/:id" Required
    [Statement DELETE "study_sessions" ByReqUser];
  Route "POST" "/admin/create-demo-user" NoMiddleware
    [Statement INSERT "users" Unscoped];
  Route "GET" "*" NoMiddleware []
].

(** The tables whose rows belong to a user. *)
Definition user_scoped_tables : list string :=
  ["users"; "tasks"; "learning_progress"; "notes"; "files"; "prs";
   "daily_goals"; "study_sessions"; "time_logs"; "time_sessions"].

(** A statement that reads or writes rows of a user-scoped table. *)
Definition row_statement (s : statement) : Prop :=
  st_verb s ≠ CREATE_TABLE ∧ st_table s ∈ user_scoped_tables.

#[global] Instance row_statement_dec s : Decision (row_statement s).
Proof. unfold row_statement. apply _. Defined.

Definition touches_user_data (r : route) : Prop :=
  Exists row_statement (r_statements r).

#[global] Instance touches_user_data_dec r : Decision (touches_user_data r).
Proof. unfold touches_user_data. apply _. Defined.

(** The tenant-isolation rule of a route: the [authRequired] middleware,
    and every row statement bound to [req.user.id]. *)
Definition isolates (r : route) : Prop :=
  r_auth r = Required
  ∧ Forall (λ s, row_statement s → st_scope s = ByReqUser) (r_statements r).

#[global] Instance isolates_dec r : Decision (isolates r).
Proof. unfold isolates. apply _. Defined.

(** The routes on user data that are declared without [authRequired]. *)
Definition open_routes : list (string * string) :=
  [("POST", "/auth/register"); ("POST", "/auth/login");
   ("GET", "/tasks"); ("POST", "/auth/reset-password");
   ("POST", "/admin/create-demo-user")].

Definition find_route (method path : string) : option route :=
  List.find (λ r, bool_decide (r_method r = method ∧ r_path r = path)) routes.

(** ** Further endpoints on [users] *)

(** [SELECT password_hash FROM users WHERE id=$1]. *)
Definition select_users_by_id (db : database) (id : Z) : list user_row :=
  filter (λ u, u_id u = id) (users db).

(** The credentials [POST /admin/create-demo-user] hard-codes. *)
Definition demo_username : string := "murugan@symatic.com".
Definition demo_password : string := "Mukesh9944".
Definition demo_phone : string := "9944567890".

Definition set_hash_and_phone (hash phone : string) (u : user_row) : user_row :=
  UserRow (u_id u) (u_username u) hash (u_created_at u) (Some phone)
    (u_profile_photo u) (u_full_name u) (u_email u) (u_is_verified u).

(** [INSERT INTO users (username, password_hash, phone) VALUES ($1, $2, $3)
     ON CONFLICT (username) DO UPDATE SET password_hash =
     EXCLUDED.password_hash, phone = EXCLUDED.phone RETURNING id, username].
    [phone] is [UNIQUE]: the statement fails when another user holds it.
    [is_verified] takes its default [FALSE] on insertion. *)
Definition upsert_user (db : database) (username hash phone : string)
  (clock : Z) : database * completion user_row :=
  let id := users_id_seq db in
  if bool_decide (Exists (λ u, u_phone u = Some phone ∧ u_username u ≠ username)
                    (users db)) then
    (with_users db (users db) (id + 1),
     Throw (unique_violation "users_phone_key"))
  else
    match filter (λ u, u_username u = username) (users db) with
    | [] =>
        let row := UserRow id username hash clock (Some phone) None None None
                     (Some false) in
        (with_users db (users db ++ [row]) (id + 1), Return row)
    | existing :: _ =>
        (with_users db
           (map (λ u, if bool_decide (u_username u = username)
                      then set_hash_and_phone hash phone u else u) (users db))
           (id + 1),
         Return (set_hash_and_phone hash phone existing))
    end.

Section UserEndpoints.
Context {jwt : Jsonwebtoken} {bcrypt : Bcryptjs}.
Variable JWT_SECRET : string.

(** [POST /auth/change-password] *)
Definition post_auth_change_password (authorization : option string)
  (currentPassword newPassword : option string) (salt : string) (clock : Z)
  (db : database) : outcome :=
  with_authRequired JWT_SECRET authorization clock db (λ user,
    match currentPassword, newPassword with
    | Some currentPassword, Some newPassword =>
        if negb (truthy currentPassword) || negb (truthy newPassword) then
          Outcome db []
            (Response 400
               (error_body "Current password and new password are required"))
        else
          match select_users_by_id db (user_id user) with
          | [] => Outcome db [] (Response 404 (error_body "User not found"))
          | row :: _ =>
              if bcrypt_compare currentPassword (u_password_hash row) then
                let hashedNewPassword := bcrypt_hash newPassword 10 salt in
                Outcome
                  (update_password_by_id db hashedNewPassword (user_id user)) []
                  (res_json
                     (JObj [("success", JBool true);
                            ("message", JStr "Password changed successfully")]))
              else
                Outcome db []
                  (Response 401 (error_body "Current password is incorrect"))
          end
    | _, _ =>
        Outcome db []
          (Response 400
             (error_body "Current password and new password are required"))
    end).

(** [POST /admin/create-demo-user]: declared without a middleware. *)
Definition post_admin_create_demo_user (salt : string) (clock : Z)
  (db : database) : outcome :=
  let passwordHash := bcrypt_hash demo_password 10 salt in
  match upsert_user db demo_username passwordHash demo_phone clock with
  | (db', Return user) =>
      Outcome db' []
        (res_json
           (JObj [("success", JBool true);
                  ("message", JStr "Demo user created/updated successfully");
                  ("user", user_json (u_id user) (u_username user))]))
  | (db', Throw _) =>
      Outcome db' [] (Response 500 (error_body "Failed to create demo user"))
  end.

End UserEndpoints.

(** ** The SQL text of the dynamic statements *)

(** A value bound to a placeholder. *)
Inductive sql_param := PNull | PInt (z : Z) | PText (s : string) | PBool (b : bool).

(** [`$${idx}`] *)
Definition placeholder (idx : nat) : string := "$" +:+ pretty idx.

(** [clauses.join(sep)] *)
Fixpoint join (sep : string) (clauses : list string) : string :=
  match clauses with
  | [] => EmptyString
  | [c] => c
  | c :: rest => c +:+ sep +:+ join sep rest
  end.

(** The three variables a handler threads while it builds a statement:
    the clauses, the [values] array and [idx]. *)
Record sql_builder := SqlBuilder {
  sb_clauses : list string;
  sb_values : list sql_param;
  sb_idx : nat
}.

Definition new_builder : sql_builder := SqlBuilder [] [] 1.

(** A body field as a bound value; [None] when it is [undefined]. *)
Definition bound {A} (f : A → sql_param) (x : field A) : option sql_param :=
  match x with
  | Undefined => None
  | Null => Some PNull
  | Val a => Some (f a)
  end.

(** [if (x !== undefined) { fields.push(`col=$${idx++}`); values.push(x); }] *)
Definition push_set (col : string) (v : option sql_param) (sb : sql_builder)
  : sql_builder :=
  match v with
  | None => sb
  | Some p =>
      SqlBuilder (sb_clauses sb ++ [col +:+ "=" +:+ placeholder (sb_idx sb)])
        (sb_values sb ++ [p]) (S (sb_idx sb))
  end.

(** The [fields] and [values] of [PUT /tasks/:id] before
    [updated_at=NOW()] is pushed. *)
Definition put_tasks_fields (b : task_body) : sql_builder :=
  let sb := new_builder in
  let sb := push_set "title" (bound PText (b_title b)) sb in
  let sb := push_set "status" (bound PText (b_status b)) sb in
  let sb := push_set "description" (bound PText (b_description b)) sb in
  let sb := push_set "priority" (bound PText (b_priority b)) sb in
  let sb := push_set "due_date" (bound PText (b_due_date b)) sb in
  let sb := push_set "due_time" (bound PText (b_due_time b)) sb in
  let sb := push_set "category" (bound PText (b_category b)) sb in
  let sb := push_set "type" (bound PText (b_type b)) sb in
  let sb := push_set "project_id" (bound PInt (b_project_id b)) sb in
  let sb := push_set "important"
              (if defined (b_important b)
               then Some (PBool (Boolean (b_important b))) else None) sb in
  push_set "assigned_to" (bound PText (b_assigned_to b)) sb.

(** The [query] and [values] [PUT /tasks/:id] sends to the pool. *)
Definition put_tasks_sql (b : task_body) (id : string) (uid : Z)
  : string * list sql_param :=
  let sb := put_tasks_fields b in
  let fields := sb_clauses sb ++ ["updated_at=NOW()"] in
  ("UPDATE tasks SET " +:+ join ", " fields
   +:+ " WHERE id=" +:+ placeholder (sb_idx sb)
   +:+ " AND user_id=" +:+ placeholder (S (sb_idx sb)) +:+ " RETURNING *",
   sb_values sb ++ [PText id; PInt uid]).

(** Which fields of a body are not [undefined]. *)
Definition defined_fields (b : task_body) : list bool :=
  [defined (b_title b); defined (b_status b); defined (b_description b);
   defined (b_priority b); defined (b_due_date b); defined (b_due_time b);
   defined (b_category b); defined (b_type b); defined (b_project_id b);
   defined (b_important b); defined (b_assigned_to b)].

(** [where.push(clause(idx++)); values.push(v)] *)
Definition push_where (clause : nat → string) (v : sql_param)
  (sb : sql_builder) : sql_builder :=
  SqlBuilder (sb_clauses sb ++ [clause (sb_idx sb)]) (sb_values sb ++ [v])
    (S (sb_idx sb)).

(** [if (v) { where.push(`col = $${idx++}`); values.push(v); }] *)
Definition push_eq (col : string) (v : option string) (sb : sql_builder)
  : sql_builder :=
  match v with
  | Some s =>
      if truthy s
      then push_where (λ i, col +:+ " = " +:+ placeholder i) (PText s) sb
      else sb
  | None => sb
  end.

(** A clause without a placeholder. *)
Definition push_literal (clause : string) (sb : sql_builder) : sql_builder :=
  SqlBuilder (sb_clauses sb ++ [clause]) (sb_values sb) (sb_idx sb).

(** The [where] and [values] arrays of [GET /tasks]. *)
Definition get_tasks_where (user : option identity) (q : tasks_query)
  : sql_builder :=
  let sb := new_builder in
  let sb := match user with
            | Some u => push_where (λ i, "user_id = " +:+ placeholder i)
                          (PInt (user_id u)) sb
            | None => sb
            end in
  let sb := push_eq "status" (q_status q) sb in
  let sb := push_eq "priority" (q_priority q) sb in
  let sb := push_eq "category" (q_category q) sb in
  let sb := push_eq "type" (q_type q) sb in
  let sb := push_eq "project_id" (q_project_id q) sb in
  let sb := match q_important q with
            | Some important =>
                let val := toLowerCase important in
                if String.eqb val "true" || String.eqb val "1"
                then push_literal "important = TRUE" sb
                else if String.eqb val "false" || String.eqb val "0"
                     then push_literal "important = FALSE" sb
                     else sb
            | None => sb
            end in
  match q_q q with
  | Some s =>
      if truthy s
      then push_where
             (λ i, "(title ILIKE " +:+ placeholder i
                   +:+ " OR COALESCE(description,'') ILIKE " +:+ placeholder i
                   +:+ ")")
             (PText ("%" +:+ s +:+ "%")) sb
      else sb
  | None => sb
  end.

(** The [query] and [values] [GET /tasks] sends to the pool. *)
Definition get_tasks_sql (user : option identity) (q : tasks_query)
  : string * list sql_param :=
  let sb := get_tasks_where user q in
  ("SELECT * FROM tasks "
   +:+ (match sb_clauses sb with
        | [] => EmptyString
        | _ :: _ => "WHERE " +:+ join " AND " (sb_clauses sb)
        end)
   +:+ " ORDER BY " +:+ tasks_sortBy q +:+ " "
   +:+ (if tasks_sortOrder_desc q then "DESC" else "ASC"),
   sb_values sb).

(** The value a condition of the [where] array binds, if any. *)
Definition cond_param (c : cond) : option sql_param :=
  match c with
  | UserIdEq uid => Some (PInt uid)
  | StatusEq s | PriorityEq s | CategoryEq s | TypeEq s
  | ProjectIdEq s => Some (PText s)
  | ImportantIs _ => None
  | TitleOrDescriptionILike pattern => Some (PText pattern)
  end.

(** A column of the [SET] list with the value the body gives it. *)
Definition assignment (col : string) (v : option sql_param)
  : list (string * sql_param) :=
  match v with Some p => [(col, p)] | None => [] end.

(** The columns [PUT /tasks/:id] sets from a body, with their values,
    in the order of the handler. *)
Definition put_tasks_assignments (b : task_body) : list (string * sql_param) :=
  assignment "title" (bound PText (b_title b))
  ++ assignment "status" (bound PText (b_status b))
  ++ assignment "description" (bound PText (b_description b))
  ++ assignment "priority" (bound PText (b_priority b))
  ++ assignment "due_date" (bound PText (b_due_date b))
  ++ assignment "due_time" (bound PText (b_due_time b))
  ++ assignment "category" (bound PText (b_category b))
  ++ assignment "type" (bound PText (b_type b))
  ++ assignment "project_id" (bound PInt (b_project_id b))
  ++ assignment "important"
       (if defined (b_important b)
        then Some (PBool (Boolean (b_important b))) else None)
  ++ assignment "assigned_to" (bound PText (b_assigned_to b)).

(** A builder that has pushed the assignments [l]: the [k]-th clause is
    [col=$k], the [k]-th value that of the [k]-th assignment, and [idx]
    is one past them. *)
Definition built (sb : sql_builder) (l : list (string * sql_param)) : Prop :=
  sb_clauses sb = imap (λ k a, a.1 +:+ "=" +:+ placeholder (S k)) l
  ∧ sb_values sb = l.*2
  ∧ sb_idx sb = S (length l).

(** Two builders that produce the same text. *)
Definition same_text (sb sb' : sql_builder) : Prop :=
  sb_clauses sb = sb_clauses sb' ∧ sb_idx sb = sb_idx sb'.

(** The clause a condition of the [where] array is written as, with
    the placeholder [$i] when it binds a value. *)
Definition cond_sql (c : cond) (i : nat) : string :=
  match c with
  | UserIdEq _ => "user_id = " +:+ placeholder i
  | StatusEq _ => "status = " +:+ placeholder i
  | PriorityEq _ => "priority = " +:+ placeholder i
  | CategoryEq _ => "category = " +:+ placeholder i
  | TypeEq _ => "type = " +:+ placeholder i
  | ProjectIdEq _ => "project_id = " +:+ placeholder i
  | ImportantIs true => "important = TRUE"
  | ImportantIs false => "important = FALSE"
  | TitleOrDescriptionILike _ =>
      "(title ILIKE " +:+ placeholder i
      +:+ " OR COALESCE(description,'') ILIKE " +:+ placeholder i +:+ ")"
  end.

(** The conditions written one after the other, the placeholders
    counted from [$i]. *)
Fixpoint where_sql (i : nat) (conds : list cond) : list string :=
  match conds with
  | [] => []
  | c :: conds' =>
      cond_sql c i
      :: where_sql (match cond_param c with Some _ => S i | None => i end)
           conds'
  end.

(** A builder that has pushed the conditions [conds]. *)
Definition tracks (sb : sql_builder) (conds : list cond) : Prop :=
  sb_clauses sb = where_sql 1 conds
  ∧ sb_values sb = omap cond_param conds
  ∧ sb_idx sb = S (length (sb_values sb)).

(** What [POST /auth/register] requires of its body. *)
Definition valid_registration (username password : option string) : Prop :=
  truthy_opt username = true ∧ truthy_opt password = true
  ∧ (3 ≤ String.length (default EmptyString username))%nat
  ∧ (6 ≤ String.length (default EmptyString password))%nat.

(** ** The other tables and their endpoints *)

(** The runtime's part that is not in the repository:
    [toISOString_date clock] is [new Date().toISOString().split('T')[0]]
    at a reading of the clock; [round_percent a b] is [Math.round((a /
    b) * 100)] in double arithmetic; [minutes_between s e] is
    [Math.round((new Date(e) - new Date(s)) / (1000 * 60))], [None]
    for [NaN]; [JSON_parse] is [JSON.parse]. *)
Class Node := {
  toISOString_date : Z → string;
  round_percent : Z → Z → Z;
  minutes_between : json → json → option Z;
  JSON_parse : string → completion json
}.

(** Reference instance: one fixed day, rounding half up on exact
    quotients, no date arithmetic, and no text that parses. *)
Definition ref_node : Node :=
  {| toISOString_date := λ _, "2024-01-01";
     round_percent := λ a b, (200 * a + b) / (2 * b);
     minutes_between := λ _ _, None;
     JSON_parse := λ s, Throw (JsError "SyntaxError" "Unexpected token") |}.

(** [String(v)], as a template literal has it. *)
Fixpoint js_String (j : json) : string :=
  match j with
  | JNull => "null"
  | JBool true => "true"
  | JBool false => "false"
  | JNum z => pretty z
  | JStr s => s
  | JArr items =>
      join ","
        (map (λ x, match x with JNull => EmptyString | _ => js_String x end)
           items)
  | JObj _ => "[object Object]"
  end.

Definition template (v : option json) : string :=
  match v with Some j => js_String j | None => "undefined" end.

Definition undefined_table (name : string) : js_error :=
  JsError "error"
    ("relation " +:+ dquote +:+ name +:+ dquote +:+ " does not exist").

Definition check_violation (name : string) : js_error :=
  JsError "error"
    ("new row for relation " +:+ dquote +:+ name +:+ dquote
     +:+ " violates a constraint").

Definition owns (uid : Z) (i : item) : Prop := item_user_id i = Some uid.

#[global] Instance owns_dec uid i : Decision (owns uid i).
Proof. unfold owns. apply _. Defined.

Definition item_is (n uid : Z) (i : item) : Prop :=
  item_id i = n ∧ item_user_id i = Some uid.

#[global] Instance item_is_dec n uid i : Decision (item_is n uid i).
Proof. unfold item_is. apply _. Defined.

(** A file of one of the notes [deleted]. *)
Definition refers_to (deleted : list item) (i : item) : Prop :=
  match item_note_id i with
  | Some n => n ∈ item_id <$> deleted
  | None => False
  end.

#[global] Instance refers_to_dec deleted i : Decision (refers_to deleted i).
Proof. unfold refers_to. destruct (item_note_id i); apply _. Defined.

(** [CREATE TABLE IF NOT EXISTS name (id SERIAL PRIMARY KEY, ...)] *)
Definition create_table_if_not_exists (db : database) (name : string)
  : database :=
  match tables db !! name with
  | Some _ => db
  | None => with_table db name (Table [] 1)
  end.

Section Tables.
Context {pg : Postgres}.

Definition matches (name : string) (conds : list (string * param)) (i : item)
  : Prop :=
  forallb (λ c, pg_matches name (fst c) (snd c) (item_object i)) conds = true.

#[global] Instance matches_dec name conds i : Decision (matches name conds i).
Proof. unfold matches. apply _. Defined.

(** [SELECT * FROM name WHERE user_id = $1 AND c2 = $2 ... ORDER BY
    order]: the conditions after the first are [conds]. *)
Definition select_items (db : database) (name : string) (uid : Z)
  (conds : list (string * param)) (order : string) : completion (list item) :=
  match tables db !! name with
  | Some t =>
      if pg_binds name conds then
        Return (pg_sorted name order
                  (filter (λ i, owns uid i ∧ matches name conds i) (items t)))
      else Throw (invalid_input "a parameter")
  | None => Throw (undefined_table name)
  end.

(** [SELECT id FROM name WHERE id = $1 AND user_id = $2] *)
Definition find_items (db : database) (name id : string) (uid : Z)
  : completion (list item) :=
  match tables db !! name, int4in id with
  | Some t, Some n => Return (filter (item_is n uid) (items t))
  | None, _ => Throw (undefined_table name)
  | Some _, None => Throw (invalid_input "integer")
  end.

(** [SELECT ... FROM files WHERE note_id = $1 AND user_id = $2 ORDER BY
    created_at DESC] *)
Definition select_files (db : database) (id : string) (uid : Z)
  : completion (list item) :=
  match tables db !! "files", int4in id with
  | Some t, Some n =>
      Return (pg_sorted "files" "created_at DESC"
                (filter (λ i, item_note_id i = Some n ∧ owns uid i) (items t)))
  | None, _ => Throw (undefined_table "files")
  | Some _, None => Throw (invalid_input "integer")
  end.

(** [INSERT INTO name (user_id, ...) VALUES ($1, ...) RETURNING *].
    [user_id] references [users(id)].  As for [tasks]: a parameter
    refused stops the statement at bind time, [nextval] fails once the
    sequence is used up, and after that the sequence advances whether
    or not the row is accepted. *)
Definition insert_item (db : database) (name : string) (uid : Z)
  (note_id : option Z) (values : list (string * param)) (clock : Z)
  : database * completion item :=
  match tables db !! name with
  | Some t =>
      let id := items_id_seq t in
      if negb (pg_binds name values) then
        (db, Throw (invalid_input "a parameter"))
      else if 2147483647 <? id then
        (db, Throw (sequence_exhausted (name +:+ "_id_seq")))
      else
        let advanced := with_table db name (Table (items t) (id + 1)) in
        if bool_decide (Exists (λ u, u_id u = uid) (users db)) then
          match pg_row name values id uid clock with
          | Some object =>
              let row := Item id (Some uid) note_id object in
              (with_table db name (Table (items t ++ [row]) (id + 1)),
               Return row)
          | None => (advanced, Throw (check_violation name))
          end
        else
          (advanced,
           Throw (foreign_key_violation name (name +:+ "_user_id_fkey")))
  | None => (db, Throw (undefined_table name))
  end.

(** What [UPDATE] makes of a row: [id], [user_id] and [note_id] are in
    no [SET] list. *)
Definition set_item (name : string) (values : list (string * param))
  (clock : Z) (i : item) : option item :=
  Item (item_id i) (item_user_id i) (item_note_id i)
    <$> pg_set name values clock (item_object i).

(** [UPDATE name SET ... WHERE id = $k AND user_id = $k' RETURNING *] *)
Definition update_items (db : database) (name id : string) (uid : Z)
  (values : list (string * param)) (clock : Z)
  : database * completion (list item) :=
  match tables db !! name, int4in id with
  | Some t, Some n =>
      if pg_binds name values then
        match mapM (set_item name values clock)
                (filter (item_is n uid) (items t)) with
        | Some rows =>
            (with_table db name
               (Table (map (λ i, if bool_decide (item_is n uid i)
                                 then default i (set_item name values clock i)
                                 else i) (items t))
                  (items_id_seq t)),
             Return rows)
        | None => (db, Throw (check_violation name))
        end
      else (db, Throw (invalid_input "a parameter"))
  | None, _ => (db, Throw (undefined_table name))
  | Some _, None => (db, Throw (invalid_input "integer"))
  end.

(** [files.note_id] references [notes(id) ON DELETE CASCADE]: the files
    of the notes a statement deletes go with them. *)
Definition cascade (name : string) (deleted : list item) (db : database)
  : database :=
  if String.eqb name "notes" then
    match tables db !! "files" with
    | Some files =>
        with_table db "files"
          (Table (filter (λ i, ¬ refers_to deleted i) (items files))
             (items_id_seq files))
    | None => db
    end
  else db.

(** [DELETE FROM name WHERE id = $1 AND user_id = $2 RETURNING *] *)
Definition delete_items (db : database) (name id : string) (uid : Z)
  : database * completion (list item) :=
  match tables db !! name, int4in id with
  | Some t, Some n =>
      let deleted := filter (item_is n uid) (items t) in
      (cascade name deleted
         (with_table db name
            (Table (filter (λ i, ¬ item_is n uid i) (items t))
               (items_id_seq t))),
       Return deleted)
  | None, _ => (db, Throw (undefined_table name))
  | Some _, None => (db, Throw (invalid_input "integer"))
  end.

(** The text a [TEXT] column takes for a parameter: [NULL] for [null]
    and [undefined]. *)
Definition text_param (v : option json) : option (option string) :=
  match v with
  | None | Some JNull => Some None
  | Some j => Some <$> pg_text j
  end.

Definition set_profile (full_name email profile_photo : option string)
  (u : user_row) : user_row :=
  UserRow (u_id u) (u_username u) (u_password_hash u) (u_created_at u)
    (u_phone u) profile_photo full_name email (u_is_verified u).

(** [UPDATE users SET full_name = $1, email = $2, profile_photo = $3
     WHERE id = $4 RETURNING ...] *)
Definition update_profile (db : database)
  (full_name email profile_photo : option json) (uid : Z)
  : database * completion (list user_row) :=
  match text_param full_name, text_param email, text_param profile_photo with
  | Some full_name, Some email, Some profile_photo =>
      (with_users db
         (map (λ u, if bool_decide (u_id u = uid)
                    then set_profile full_name email profile_photo u else u)
            (users db))
         (users_id_seq db),
       Return (set_profile full_name email profile_photo
                 <$> filter (λ u, u_id u = uid) (users db)))
  | _, _, _ => (db, Throw (invalid_input "text"))
  end.

(** [DATE(created_at) = $2] and [due_date < $2], for a date [day]. *)
Definition created_on (day : string) (t : task_row) : Prop :=
  date_of <$> t_created_at t = Some day.

#[global] Instance created_on_dec day t : Decision (created_on day t).
Proof. unfold created_on. apply _. Defined.

Definition due_before (day : string) (t : task_row) : Prop :=
  match t_due_date t with
  | Some d => date_before d day = true
  | None => False
  end.

#[global] Instance due_before_dec day t : Decision (due_before day t).
Proof. unfold due_before. destruct (t_due_date t); apply _. Defined.

End Tables.

(** [SELECT id, username, phone, email, full_name, profile_photo,
    is_verified FROM users] as the driver returns a row. *)
Definition profile_json (u : user_row) : json :=
  JObj [("id", JNum (u_id u));
        ("username", JStr (u_username u));
        ("phone", json_opt JStr (u_phone u));
        ("email", json_opt JStr (u_email u));
        ("full_name", json_opt JStr (u_full_name u));
        ("profile_photo", json_opt JStr (u_profile_photo u));
        ("is_verified", json_opt JBool (u_is_verified u))].

(** What a handler leaves: the store, the events it published, and its
    answer, sent by [res.status(s).json(body)] ([None] for a body
    [undefined]) or by [res.send] with the headers of an attachment. *)
Inductive reply :=
| Json (status : Z) (body : option json)
| Download (content_type content_disposition content : string).

Record result := Result {
  res_db : database;
  res_emits : list emission;
  res_reply : reply
}.

Definition of_outcome (o : outcome) : result :=
  Result (out_db o) (out_emits o)
    (Json (status (out_response o)) (Some (body (out_response o)))).

Definition failed (e : string) : reply := Json 500 (Some (error_body e)).

Definition refused (status : Z) (e : string) : reply :=
  Json status (Some (error_body e)).

(** [res.status(s).json(shape(result.rows[0]))] after an [INSERT ...
    RETURNING *]. *)
Definition created_as (shape : json → json) (status : Z) (error : string)
  (o : database * completion item) : result :=
  match o with
  | (db', Return row) =>
      Result db' [] (Json status (Some (shape (item_object row))))
  | (db', Throw _) => Result db' [] (failed error)
  end.

(** [res.status(s).json(result.rows[0])] *)
Definition created : Z → string → database * completion item → result :=
  created_as (λ row, row).

(** [if (!result.rowCount) return 404; res.json(result.rows[0])] after
    an [UPDATE ... RETURNING *]. *)
Definition updated (missing error : string)
  (o : database * completion (list item)) : result :=
  match o with
  | (db', Return []) => Result db' [] (refused 404 missing)
  | (db', Return (row :: _)) =>
      Result db' [] (Json 200 (Some (item_object row)))
  | (db', Throw _) => Result db' [] (failed error)
  end.

(** [if (!result.rowCount) return 404; res.json(ok)] after a [DELETE]. *)
Definition deleted (missing error : string) (ok : json)
  (o : database * completion (list item)) : result :=
  match o with
  | (db', Return []) => Result db' [] (refused 404 missing)
  | (db', Return (_ :: _)) => Result db' [] (Json 200 (Some ok))
  | (db', Throw _) => Result db' [] (failed error)
  end.

(** [res.json(result.rows.map(shape))] after a [SELECT]; [shape] may
    throw. *)
Definition listed (db : database) (error : string)
  (shape : json → completion json) (rows : completion (list item)) : result :=
  match rows with
  | Return rows =>
      match mapM (λ i, match shape (item_object i) with
                       | Return j => Some j
                       | Throw _ => None
                       end) rows with
      | Some objects => Result db [] (Json 200 (Some (JArr objects)))
      | None => Result db [] (failed error)
      end
  | Throw _ => Result db [] (failed error)
  end.

(** The parameters a handler takes from the body under the names of
    their columns. *)
Definition columns (names : list string) (body : json)
  : list (string * param) :=
  (λ k, (k, Value (json_field k body))) <$> names.

(** [if (v) { query += " AND column = $2"; values.push(v) }] *)
Definition and_if (column : string) (v : option string)
  : list (string * param) :=
  match v with
  | Some s => if truthy s then [(column, Value (Some (JStr s)))] else []
  | None => []
  end.

Definition count {A} (P : A → Prop) `{!∀ x, Decision (P x)} (l : list A) : Z :=
  Z.of_nat (length (filter P l)).

(** [status NOT IN ('done', 'completed')] *)
Definition unfinished (t : task_row) : Prop :=
  t_status t ≠ "done" ∧ t_status t ≠ "completed".

#[global] Instance unfinished_dec t : Decision (unfinished t).
Proof. unfold unfinished. apply _. Defined.

(** The columns [GET] and [POST /time-sessions] rename. *)
Definition session_json (row : json) : json :=
  pick [("id", "id"); ("type", "type"); ("description", "description");
        ("startTime", "start_time"); ("endTime", "end_time");
        ("duration", "duration"); ("createdAt", "created_at")] row.

(** One line of the file [GET /prs/download] sends. *)
Definition csv_line (pr : json) : string :=
  let shown status :=
    match json_field status pr with
    | Some (JStr "none") => EmptyString
    | v => template v
    end in
  dquote +:+ template (json_field "title" pr) +:+ dquote +:+ ","
  +:+ dquote +:+ shown "frontend_status" +:+ dquote +:+ ","
  +:+ dquote +:+ shown "backend_status" +:+ dquote
  +:+ String "010" EmptyString.

Section Workspace.
Context {jwt : Jsonwebtoken} {bcrypt : Bcryptjs} {pg : Postgres} {node : Node}.
Variable JWT_SECRET : string.

(** A route declared with [authRequired], for the handlers below. *)
Definition guarded (authorization : option string) (clock : Z) (db : database)
  (handler : identity → result) : result :=
  match authRequired JWT_SECRET authorization clock with
  | Respond r => Result db [] (Json (status r) (Some (body r)))
  | Next user => handler user
  end.

(** [note.attachments ? (typeof note.attachments === 'string' ?
     JSON.parse(note.attachments) : note.attachments) : []], put back
    on the note. *)
Definition with_attachments (note : json) : completion json :=
  let attachments := json_field "attachments" note in
  match
    (if js_truthy attachments then
       match attachments with
       | Some (JStr s) => JSON_parse s
       | Some j => Return j
       | None => Return (JArr [])
       end
     else Return (JArr []))
  with
  | Return j => Return (assign_key "attachments" j note)
  | Throw e => Throw e
  end.

(** [GET /learning/progress] *)
Definition get_learning_progress (authorization : option string) (clock : Z)
  (db : database) : result :=
  guarded authorization clock db (λ user,
    listed db "Failed to fetch learning progress" Return
      (select_items db "learning_progress" (user_id user) []
         "last_practiced DESC NULLS LAST")).

Definition learning_columns : list string :=
  ["subject"; "topic"; "skill_level"; "hours_spent"; "progress_percentage";
   "notes"].

(** [POST /learning/progress] *)
Definition post_learning_progress (authorization : option string)
  (body : json) (clock : Z) (db : database) : result :=
  guarded authorization clock db (λ user,
    if negb (js_truthy (json_field "subject" body)) then
      Result db [] (refused 400 "subject is required")
    else
      created 200 "Failed to save learning progress"
        (insert_item db "learning_progress" (user_id user) None
           (columns learning_columns body) clock)).

(** [PUT /learning/progress/:id] *)
Definition put_learning_progress_id (authorization : option string)
  (id : string) (body : json) (clock : Z) (db : database) : result :=
  guarded authorization clock db (λ user,
    updated "Learning progress not found" "Failed to update learning progress"
      (update_items db "learning_progress" id (user_id user)
         (columns learning_columns body) clock)).

(** [DELETE /learning/progress/:id] *)
Definition delete_learning_progress_id (authorization : option string)
  (id : string) (clock : Z) (db : database) : result :=
  guarded authorization clock db (λ user,
    deleted "Learning progress not found" "Failed to delete learning progress"
      (JObj [("success", JBool true)])
      (delete_items db "learning_progress" id (user_id user))).

(** [POST /notes/:id/files]: the note is looked up under the caller's
    id before the file is stored under the note's. *)
Definition post_notes_id_files (authorization : option string) (id : string)
  (body : json) (clock : Z) (db : database) : result :=
  guarded authorization clock db (λ user,
    let filename := json_field "filename" body in
    let fileData := json_field "fileData" body in
    if negb (js_truthy filename) || negb (js_truthy fileData) then
      Result db [] (refused 400 "Filename and file data are required")
    else
      match find_items db "notes" id (user_id user) with
      | Return [] => Result db [] (refused 404 "Note not found")
      | Return (note :: _) =>
          created 200 "Failed to upload file"
            (insert_item db "files" (user_id user) (Some (item_id note))
               [("filename", Value filename);
                ("original_name", Value filename);
                ("file_path", Value fileData);
                ("file_size", Value (json_field "fileSize" body));
                ("mime_type", Value (json_field "mimeType" body))]
               clock)
      | Throw _ => Result db [] (failed "Failed to upload file")
      end).

(** [GET /notes/:id/files] *)
Definition get_notes_id_files (authorization : option string) (id : string)
  (clock : Z) (db : database) : result :=
  guarded authorization clock db (λ user,
    match find_items db "notes" id (user_id user) with
    | Return [] => Result db [] (refused 404 "Note not found")
    | Return (_ :: _) =>
        listed db "Failed to fetch files"
          (λ row, Return (pick [("id", "id"); ("filename", "filename");
                                ("original_name", "original_name");
                                ("file_size", "file_size");
                                ("mime_type", "mime_type");
                                ("created_at", "created_at")] row))
          (select_files db id (user_id user))
    | Throw _ => Result db [] (failed "Failed to fetch files")
    end).

(** [DELETE /files/:id] *)
Definition delete_files_id (authorization : option string) (id : string)
  (clock : Z) (db : database) : result :=
  guarded authorization clock db (λ user,
    deleted "File not found" "Failed to delete file"
      (JObj [("success", JBool true)])
      (delete_items db "files" id (user_id user))).

(** [GET /notes], with the [type] of the query string. *)
Definition get_notes (authorization : option string) (type : option string)
  (clock : Z) (db : database) : result :=
  guarded authorization clock db (λ user,
    listed db "Failed to fetch notes" with_attachments
      (select_items db "notes" (user_id user) (and_if "type" type)
         "updated_at DESC")).

(** [res.json(note)] once [note.attachments] is parsed. *)
Definition noted (missing error : string)
  (o : database * completion (list item)) : result :=
  match o with
  | (db', Return []) => Result db' [] (refused 404 missing)
  | (db', Return (row :: _)) =>
      match with_attachments (item_object row) with
      | Return note => Result db' [] (Json 200 (Some note))
      | Throw _ => Result db' [] (failed error)
      end
  | (db', Throw _) => Result db' [] (failed error)
  end.

(** The rows of an [INSERT ... RETURNING *]: the one it stored. *)
Definition rows_of (o : database * completion item)
  : database * completion (list item) :=
  (o.1, match o.2 with Return row => Return [row] | Throw e => Throw e end).

(** [POST /notes] *)
Definition post_notes (authorization : option string) (body : json)
  (clock : Z) (db : database) : result :=
  guarded authorization clock db (λ user,
    let type := json_field "type" body in
    let title := json_field "title" body in
    if negb (js_truthy type) || negb (js_truthy title)
       || negb (match type with
                | Some (JStr s) => bool_decide (s ∈ ["learning"; "working"])
                | _ => false
                end)
    then Result db [] (refused 400 "Valid type and title are required")
    else
      noted "Note not found" "Failed to create note"
        (rows_of
           (insert_item db "notes" (user_id user) None
              [("type", Value type);
               ("title", Value title);
               ("content",
                Value (Some (or_else (json_field "content" body)
                               (JStr EmptyString))));
               ("tags",
                Value (Some (or_else (json_field "tags" body) (JArr []))));
               ("attachments",
                Stringified (or_else (json_field "attachments" body)
                               (JArr [])))]
              clock))).

(** [PUT /notes/:id] *)
Definition put_notes_id (authorization : option string) (id : string)
  (body : json) (clock : Z) (db : database) : result :=
  guarded authorization clock db (λ user,
    noted "Note not found" "Failed to update note"
      (update_items db "notes" id (user_id user)
         [("title", Value (json_field "title" body));
          ("content", Value (json_field "content" body));
          ("tags", Value (json_field "tags" body));
          ("attachments",
           Stringified (or_else (json_field "attachments" body) (JArr [])))]
         clock)).

(** [DELETE /notes/:id] *)
Definition delete_notes_id (authorization : option string) (id : string)
  (clock : Z) (db : database) : result :=
  guarded authorization clock db (λ user,
    deleted "Note not found" "Failed to delete note"
      (JObj [("success", JBool true)])
      (delete_items db "notes" id (user_id user))).

(** [GET /prs] *)
Definition get_prs (authorization : option string) (clock : Z)
  (db : database) : result :=
  guarded authorization clock db (λ user,
    listed db "Failed to fetch PRs" Return
      (select_items db "prs" (user_id user) [] "created_at DESC")).

(** [POST /prs] *)
Definition post_prs (authorization : option string) (body : json)
  (clock : Z) (db : database) : result :=
  guarded authorization clock db (λ user,
    let title := json_field "title" body in
    if negb (js_truthy title) then
      Result db [] (refused 400 "Title is required")
    else
      created 200 "Failed to create PR"
        (insert_item db "prs" (user_id user) None
           [("title", Value title);
            ("frontend_status",
             Value (Some (or_else (json_field "frontend_status" body)
                            (JStr "none"))));
            ("backend_status",
             Value (Some (or_else (json_field "backend_status" body)
                            (JStr "none"))));
            ("frontend_link",
             Value (Some (or_else (json_field "frontend_link" body) JNull)));
            ("backend_link",
             Value (Some (or_else (json_field "backend_link" body) JNull)))]
           clock)).

(** [PUT /prs/:id] *)
Definition put_prs_id (authorization : option string) (id : string)
  (body : json) (clock : Z) (db : database) : result :=
  guarded authorization clock db (λ user,
    updated "PR not found" "Failed to update PR"
      (update_items db "prs" id (user_id user)
         [("title", Value (json_field "title" body));
          ("frontend_status", Value (json_field "frontend_status" body));
          ("backend_status", Value (json_field "backend_status" body));
          ("frontend_link",
           Value (Some (or_else (json_field "frontend_link" body) JNull)));
          ("backend_link",
           Value (Some (or_else (json_field "backend_link" body) JNull)))]
         clock)).

(** [DELETE /prs/:id] *)
Definition delete_prs_id (authorization : option string) (id : string)
  (clock : Z) (db : database) : result :=
  guarded authorization clock db (λ user,
    deleted "PR not found" "Failed to delete PR"
      (JObj [("success", JBool true)])
      (delete_items db "prs" id (user_id user))).

(** [GET /prs/download]; [now] is [Date.now()]. *)
Definition get_prs_download (authorization : option string) (clock now : Z)
  (db : database) : result :=
  guarded authorization clock db (λ user,
    match select_items db "prs" (user_id user) [] EmptyString with
    | Return rows =>
        if (length rows <? 10)%nat then
          Result db [] (refused 400 "Minimum 10 PRs required for download")
        else
          Result db []
            (Download "text/csv"
               ("attachment; filename=" +:+ dquote +:+ "prs-" +:+ pretty now
                +:+ ".csv" +:+ dquote)
               (foldl (λ csvContent pr, csvContent +:+ csv_line (item_object pr))
                  ("Title,Frontend PR,Backend PR" +:+ String "010" EmptyString)
                  rows))
    | Throw _ => Result db [] (failed "Failed to download PRs")
    end).

(** [GET /profile] *)
Definition get_profile (authorization : option string) (clock : Z)
  (db : database) : result :=
  guarded authorization clock db (λ user,
    Result db []
      (Json 200 (profile_json <$> head (select_users_by_id db (user_id user))))).

(** [PUT /profile] *)
Definition put_profile (authorization : option string) (body : json)
  (clock : Z) (db : database) : result :=
  guarded authorization clock db (λ user,
    match update_profile db (json_field "full_name" body)
            (json_field "email" body) (json_field "profile_photo" body)
            (user_id user) with
    | (db', Return rows) => Result db' [] (Json 200 (profile_json <$> head rows))
    | (db', Throw _) => Result db' [] (failed "Failed to update profile")
    end).

(** [GET /projects] *)
Definition get_projects (authorization : option string) (clock : Z)
  (db : database) : result :=
  guarded authorization clock db (λ user,
    Result db [] (Json 200 (Some (JArr [])))).

(** [POST /time-logs] *)
Definition post_time_logs (authorization : option string) (body : json)
  (clock : Z) (db : database) : result :=
  guarded authorization clock db (λ user,
    created 201 "Failed to create time log"
      (insert_item (create_table_if_not_exists db "time_logs") "time_logs"
         (user_id user) None (columns ["day"; "category"; "minutes"] body)
         clock)).

(** [GET /time-sessions] *)
Definition get_time_sessions (authorization : option string) (clock : Z)
  (db : database) : result :=
  guarded authorization clock db (λ user,
    let db' := create_table_if_not_exists db "time_sessions" in
    listed db' "Failed to fetch time sessions" (λ row, Return (session_json row))
      (select_items db' "time_sessions" (user_id user) [] "start_time DESC")).

(** [POST /time-sessions] *)
Definition post_time_sessions (authorization : option string) (body : json)
  (clock : Z) (db : database) : result :=
  guarded authorization clock db (λ user,
    let description := json_field "description" body in
    let startTime := json_field "startTime" body in
    let endTime := json_field "endTime" body in
    let duration := json_field "duration" body in
    if negb (js_truthy description) || negb (js_truthy startTime)
       || negb (js_truthy endTime) || negb (js_truthy duration)
    then Result db [] (refused 400 "Missing required fields")
    else
      created_as session_json 201 "Failed to create time session"
        (insert_item (create_table_if_not_exists db "time_sessions")
           "time_sessions" (user_id user) None
           [("type",
             Value (Some (or_else (json_field "type" body) (JStr "work"))));
            ("description", Value description);
            ("start_time", Value startTime);
            ("end_time", Value endTime);
            ("duration", Value duration)]
           clock)).

(** [GET /dashboard/overview] *)
Definition get_dashboard_overview (authorization : option string) (clock : Z)
  (db : database) : result :=
  guarded authorization clock db (λ user,
    let uid := user_id user in
    let today := toISOString_date clock in
    match date_in today,
          select_items db "time_logs" uid [("day", Value (Some (JStr today)))]
            EmptyString with
    | Some day, Return timeLogs =>
        let tasksToday :=
          filter (λ t, owned_by uid t ∧ created_on day t) (tasks db) in
        let of_status s := count (λ t, t_status t = s) tasksToday in
        let total := Z.of_nat (length tasksToday) in
        let projects ty :=
          count (λ t, owned_by uid t ∧ unfinished t ∧ t_type t = Some ty)
            (tasks db) in
        let overdue :=
          count (λ t, owned_by uid t ∧ unfinished t ∧ due_before day t)
            (tasks db) in
        let minutes category :=
          foldr Z.add 0
            (omap (λ i, match json_field "category" (item_object i),
                              json_field "minutes" (item_object i) with
                        | Some (JStr c), Some (JNum m) =>
                            if String.eqb c category then Some m else None
                        | _, _ => None
                        end) timeLogs) in
        let list ty :=
          take 10
            (order_by "created_at" true
               (filter (λ t, owned_by uid t ∧ t_type t = Some ty ∧ unfinished t)
                  (tasks db))) in
        Result db []
          (Json 200
             (Some
                (JObj
                   [("tasksToday",
                     JObj [("total", JNum total);
                           ("learning", JNum (of_status "learning"));
                           ("working", JNum (of_status "working"));
                           ("testing", JNum (of_status "testing"));
                           ("completed", JNum (of_status "completed"));
                           ("done",
                            JNum (of_status "completed" + of_status "done"));
                           ("pending",
                            JNum (of_status "learning" + of_status "pending"));
                           ("goalPercent",
                            JNum (if 0 <? total
                                  then round_percent (of_status "completed")
                                         total
                                  else 0))]);
                    ("projects",
                     JObj [("office", JNum (projects "work"));
                           ("personal", JNum (projects "learning"))]);
                    ("overdue", JNum overdue);
                    ("time",
                     JObj [("workMinutes", JNum (minutes "work"));
                           ("learningMinutes", JNum (minutes "learning"))]);
                    ("lists",
                     JObj [("work", JArr (task_json <$> list "work"));
                           ("learning",
                            JArr (task_json <$> list "learning"))])])))
    | _, _ => Result db [] (failed "Failed to fetch dashboard data")
    end).

(** [GET /daily-goals], with the [date] of the query string. *)
Definition get_daily_goals (authorization : option string)
  (date : option string) (clock : Z) (db : database) : result :=
  guarded authorization clock db (λ user,
    let date :=
      match date with
      | Some d => if truthy d then d else toISOString_date clock
      | None => toISOString_date clock
      end in
    listed db "Failed to fetch daily goals" Return
      (select_items db "daily_goals" (user_id user)
         [("date", Value (Some (JStr date)))] "created_at DESC")).

(** [POST /daily-goals] *)
Definition post_daily_goals (authorization : option string) (body : json)
  (clock : Z) (db : database) : result :=
  guarded authorization clock db (λ user,
    let title := json_field "title" body in
    let date := json_field "date" body in
    if negb (js_truthy title) || negb (js_truthy date) then
      Result db [] (refused 400 "Title and date are required")
    else
      created 201 "Failed to create daily goal"
        (insert_item db "daily_goals" (user_id user) None
           [("title", Value title);
            ("description",
             Value (Some (or_else (json_field "description" body)
                            (JStr EmptyString))));
            ("category",
             Value (Some (or_else (json_field "category" body)
                            (JStr "personal"))));
            ("priority",
             Value (Some (or_else (json_field "priority" body)
                            (JStr "medium"))));
            ("date", Value date)]
           clock)).

(** [PUT /daily-goals/:id]; the expression of [completed_at] goes into
    the text of the statement. *)
Definition put_daily_goals_id (authorization : option string) (id : string)
  (body : json) (clock : Z) (db : database) : result :=
  guarded authorization clock db (λ user,
    let completed_at :=
      match json_field "status" body with
      | Some (JStr "completed") => "NOW()"
      | Some (JStr "pending") => "NULL"
      | _ => "completed_at"
      end in
    updated "Daily goal not found" "Failed to update daily goal"
      (update_items db "daily_goals" id (user_id user)
         (columns ["status"; "title"; "description"; "category"; "priority"]
            body
          ++ [("completed_at", Value (Some (JStr completed_at)))])
         clock)).

(** [DELETE /daily-goals/:id] *)
Definition delete_daily_goals_id (authorization : option string) (id : string)
  (clock : Z) (db : database) : result :=
  guarded authorization clock db (λ user,
    deleted "Daily goal not found" "Failed to delete daily goal"
      (JObj [("message", JStr "Daily goal deleted successfully")])
      (delete_items db "daily_goals" id (user_id user))).

(** [GET /study-sessions], with the [date] of the query string. *)
Definition get_study_sessions (authorization : option string)
  (date : option string) (clock : Z) (db : database) : result :=
  guarded authorization clock db (λ user,
    listed db "Failed to fetch study sessions" Return
      (select_items db "study_sessions" (user_id user)
         (and_if "DATE(start_time)" date) "start_time DESC")).

(** [POST /study-sessions] *)
Definition post_study_sessions (authorization : option string) (body : json)
  (clock : Z) (db : database) : result :=
  guarded authorization clock db (λ user,
    let subject := json_field "subject" body in
    let start_time := json_field "start_time" body in
    let end_time := json_field "end_time" body in
    let duration := json_field "duration" body in
    if negb (js_truthy subject) || negb (js_truthy start_time) then
      Result db [] (refused 400 "Subject and start time are required")
    else
      let calculatedDuration :=
        if negb (js_truthy duration) && js_truthy end_time then
          JNum <$> minutes_between (default JNull start_time)
                     (default JNull end_time)
        else duration in
      created 201 "Failed to create study session"
        (insert_item db "study_sessions" (user_id user) None
           [("subject", Value subject);
            ("start_time", Value start_time);
            ("end_time", Value (Some (or_else end_time JNull)));
            ("duration_minutes",
             Value (Some (or_else calculatedDuration JNull)));
            ("focus_rating",
             Value (Some (or_else (json_field "focus_rating" body) (JNum 3))));
            ("notes",
             Value (Some (or_else (json_field "notes" body)
                            (JStr EmptyString))))]
           clock)).

(** [PUT /study-sessions/:id] *)
Definition put_study_sessions_id (authorization : option string) (id : string)
  (body : json) (clock : Z) (db : database) : result :=
  guarded authorization clock db (λ user,
    updated "Study session not found" "Failed to update study session"
      (update_items db "study_sessions" id (user_id user)
         (columns ["subject"; "start_time"; "end_time"; "duration_minutes";
                   "focus_rating"; "notes"] body)
         clock)).

(** [DELETE /study-sessions/:id] *)
Definition delete_study_sessions_id (authorization : option string)
  (id : string) (clock : Z) (db : database) : result :=
  guarded authorization clock db (λ user,
    deleted "Study session not found" "Failed to delete study session"
      (JObj [("message", JStr "Study session deleted successfully")])
      (delete_items db "study_sessions" id (user_id user))).

End Workspace.

(** A request to a route declared with [authRequired], with what the
    handler reads of the path, the query string and the body. *)
Inductive protected_request :=
| Get_auth_verify
| Post_auth_change_password (currentPassword newPassword : option string)
| Post_tasks (b : task_body)
| Put_tasks_id (id : string) (b : task_body)
| Delete_tasks_id (id : string)
| Post_tasks_clear_completed
| Post_tasks_mark_all_done
| Get_learning_progress
| Post_learning_progress (body : json)
| Put_learning_progress_id (id : string) (body : json)
| Delete_learning_progress_id (id : string)
| Post_notes_id_files (id : string) (body : json)
| Get_notes_id_files (id : string)
| Delete_files_id (id : string)
| Get_notes (type : option string)
| Post_notes (body : json)
| Put_notes_id (id : string) (body : json)
| Delete_notes_id (id : string)
| Get_prs
| Post_prs (body : json)
| Put_prs_id (id : string) (body : json)
| Delete_prs_id (id : string)
| Get_prs_download
| Get_profile
| Put_profile (body : json)
| Get_projects
| Post_time_logs (body : json)
| Get_time_sessions
| Post_time_sessions (body : json)
| Get_dashboard_overview
| Get_daily_goals (date : option string)
| Post_daily_goals (body : json)
| Put_daily_goals_id (id : string) (body : json)
| Delete_daily_goals_id (id : string)
| Get_study_sessions (date : option string)
| Post_study_sessions (body : json)
| Put_study_sessions_id (id : string) (body : json)
| Delete_study_sessions_id (id : string).

(** The method and the path under which the handler of a request is
    declared. *)
Definition route_of (r : protected_request) : string * string :=
  match r with
  | Get_auth_verify => ("GET", "/auth/verify")
  | Post_auth_change_password _ _ => ("POST", "/auth/change-password")
  | Post_tasks _ => ("POST", "/tasks")
  | Put_tasks_id _ _ => ("PUT", "/tasks/:id")
  | Delete_tasks_id _ => ("DELETE", "/tasks/:id")
  | Post_tasks_clear_completed => ("POST", "/tasks/clear-completed")
  | Post_tasks_mark_all_done => ("POST", "/tasks/mark-all-done")
  | Get_learning_progress => ("GET", "/learning/progress")
  | Post_learning_progress _ => ("POST", "/learning/progress")
  | Put_learning_progress_id _ _ => ("PUT", "/learning/progress/:id")
  | Delete_learning_progress_id _ => ("DELETE", "/learning/progress/:id")
  | Post_notes_id_files _ _ => ("POST", "/notes/:id/files")
  | Get_notes_id_files _ => ("GET", "/notes/:id/files")
  | Delete_files_id _ => ("DELETE", "/files/:id")
  | Get_notes _ => ("GET", "/notes")
  | Post_notes _ => ("POST", "/notes")
  | Put_notes_id _ _ => ("PUT", "/notes/:id")
  | Delete_notes_id _ => ("DELETE", "/notes/:id")
  | Get_prs => ("GET", "/prs")
  | Post_prs _ => ("POST", "/prs")
  | Put_prs_id _ _ => ("PUT", "/prs/:id")
  | Delete_prs_id _ => ("DELETE", "/prs/:id")
  | Get_prs_download => ("GET", "/prs/download")
  | Get_profile => ("GET", "/profile")
  | Put_profile _ => ("PUT", "/profile")
  | Get_projects => ("GET", "/projects")
  | Post_time_logs _ => ("POST", "/time-logs")
  | Get_time_sessions => ("GET", "/time-sessions")
  | Post_time_sessions _ => ("POST", "/time-sessions")
  | Get_dashboard_overview => ("GET", "/dashboard/overview")
  | Get_daily_goals _ => ("GET", "/daily-goals")
  | Post_daily_goals _ => ("POST", "/daily-goals")
  | Put_daily_goals_id _ _ => ("PUT", "/daily-goals/:id")
  | Delete_daily_goals_id _ => ("DELETE", "/daily-goals/:id")
  | Get_study_sessions _ => ("GET", "/study-sessions")
  | Post_study_sessions _ => ("POST", "/study-sessions")
  | Put_study_sessions_id _ _ => ("PUT", "/study-sessions/:id")
  | Delete_study_sessions_id _ => ("DELETE", "/study-sessions/:id")
  end.

(** The routes declared with [authRequired], in the order of the file. *)
Definition protected_routes : list (string * string) :=
  [("GET", "/auth/verify"); ("POST", "/auth/change-password");
   ("POST", "/tasks"); ("PUT", "/tasks/:id"); ("DELETE", "/tasks/:id");
   ("POST", "/tasks/clear-completed"); ("POST", "/tasks/mark-all-done");
   ("GET", "/learning/progress"); ("POST", "/learning/progress");
   ("PUT", "/learning/progress/:id"); ("DELETE", "/learning/progress/:id");
   ("POST", "/notes/:id/files"); ("GET", "/notes/:id/files");
   ("DELETE", "/files/:id"); ("GET", "/notes"); ("POST", "/notes");
   ("PUT", "/notes/:id"); ("DELETE", "/notes/:id"); ("GET", "/prs");
   ("POST", "/prs"); ("PUT", "/prs/:id"); ("DELETE", "/prs/:id");
   ("GET", "/prs/download"); ("GET", "/profile"); ("PUT", "/profile");
   ("GET", "/projects"); ("POST", "/time-logs"); ("GET", "/time-sessions");
   ("POST", "/time-sessions"); ("GET", "/dashboard/overview");
   ("GET", "/daily-goals"); ("POST", "/daily-goals");
   ("PUT", "/daily-goals/:id"); ("DELETE", "/daily-goals/:id");
   ("GET", "/study-sessions"); ("POST", "/study-sessions");
   ("PUT", "/study-sessions/:id"); ("DELETE", "/study-sessions/:id")].

Section Protected.
Context {jwt : Jsonwebtoken} {bcrypt : Bcryptjs} {pg : Postgres} {node : Node}.
Variable JWT_SECRET : string.

(** The handler of a request under [authRequired]: [authorization] is
    the header, [salt] what [bcrypt] draws, [clock] the reading of the
    clock in seconds and [now] [Date.now()]. *)
Definition protected_handle (r : protected_request)
  (authorization : option string) (salt : string) (clock now : Z)
  (db : database) : result :=
  match r with
  | Get_auth_verify => of_outcome (get_auth_verify JWT_SECRET authorization clock db)
  | Post_auth_change_password currentPassword newPassword =>
      of_outcome
        (post_auth_change_password JWT_SECRET authorization currentPassword
           newPassword salt clock db)
  | Post_tasks b => of_outcome (post_tasks JWT_SECRET authorization b clock db)
  | Put_tasks_id id b =>
      of_outcome (put_tasks_id JWT_SECRET authorization id b clock db)
  | Delete_tasks_id id =>
      of_outcome (delete_tasks_id JWT_SECRET authorization id clock db)
  | Post_tasks_clear_completed =>
      of_outcome (post_tasks_clear_completed JWT_SECRET authorization clock db)
  | Post_tasks_mark_all_done =>
      of_outcome (post_tasks_mark_all_done JWT_SECRET authorization clock db)
  | Get_learning_progress =>
      get_learning_progress JWT_SECRET authorization clock db
  | Post_learning_progress body =>
      post_learning_progress JWT_SECRET authorization body clock db
  | Put_learning_progress_id id body =>
      put_learning_progress_id JWT_SECRET authorization id body clock db
  | Delete_learning_progress_id id =>
      delete_learning_progress_id JWT_SECRET authorization id clock db
  | Post_notes_id_files id body =>
      post_notes_id_files JWT_SECRET authorization id body clock db
  | Get_notes_id_files id =>
      get_notes_id_files JWT_SECRET authorization id clock db
  | Delete_files_id id => delete_files_id JWT_SECRET authorization id clock db
  | Get_notes type => get_notes JWT_SECRET authorization type clock db
  | Post_notes body => post_notes JWT_SECRET authorization body clock db
  | Put_notes_id id body => put_notes_id JWT_SECRET authorization id body clock db
  | Delete_notes_id id => delete_notes_id JWT_SECRET authorization id clock db
  | Get_prs => get_prs JWT_SECRET authorization clock db
  | Post_prs body => post_prs JWT_SECRET authorization body clock db
  | Put_prs_id id body => put_prs_id JWT_SECRET authorization id body clock db
  | Delete_prs_id id => delete_prs_id JWT_SECRET authorization id clock db
  | Get_prs_download => get_prs_download JWT_SECRET authorization clock now db
  | Get_profile => get_profile JWT_SECRET authorization clock db
  | Put_profile body => put_profile JWT_SECRET authorization body clock db
  | Get_projects => get_projects JWT_SECRET authorization clock db
  | Post_time_logs body => post_time_logs JWT_SECRET authorization body clock db
  | Get_time_sessions => get_time_sessions JWT_SECRET authorization clock db
  | Post_time_sessions body =>
      post_time_sessions JWT_SECRET authorization body clock db
  | Get_dashboard_overview =>
      get_dashboard_overview JWT_SECRET authorization clock db
  | Get_daily_goals date => get_daily_goals JWT_SECRET authorization date clock db
  | Post_daily_goals body =>
      post_daily_goals JWT_SECRET authorization body clock db
  | Put_daily_goals_id id body =>
      put_daily_goals_id JWT_SECRET authorization id body clock db
  | Delete_daily_goals_id id =>
      delete_daily_goals_id JWT_SECRET authorization id clock db
  | Get_study_sessions date =>
      get_study_sessions JWT_SECRET authorization date clock db
  | Post_study_sessions body =>
      post_study_sessions JWT_SECRET authorization body clock db
  | Put_study_sessions_id id body =>
      put_study_sessions_id JWT_SECRET authorization id body clock db
  | Delete_study_sessions_id id =>
      delete_study_sessions_id JWT_SECRET authorization id clock db
  end.

End Protected.

(** *** Rows of other users *)

(** The rows of a table that are not [uid]'s; none in a table that does
    not exist. *)
Definition foreign_items (uid : Z) (db : database) (name : string) : list item :=
  match tables db !! name with
  | Some t => filter (λ i, ¬ owns uid i) (items t)
  | None => []
  end.

(** [db'] holds the rows of every user other than [uid] as [db] does. *)
Definition untouched (uid : Z) (db db' : database) : Prop :=
  filter (λ u, u_id u ≠ uid) (users db') = filter (λ u, u_id u ≠ uid) (users db)
  ∧ filter (λ t, ¬ owned_by uid t) (tasks db')
    = filter (λ t, ¬ owned_by uid t) (tasks db)
  ∧ ∀ name, foreign_items uid db' name = foreign_items uid db name.

Definition own_table (uid : Z) (t : table) : table :=
  Table (filter (owns uid) (items t)) (items_id_seq t).

(** The store without the rows of the users other than [uid]: the
    tables and the sequences stay. *)
Definition only (uid : Z) (db : database) : database :=
  Database (filter (λ u, u_id u = uid) (users db)) (users_id_seq db)
    (filter (owned_by uid) (tasks db)) (tasks_id_seq db)
    (own_table uid <$> tables db).

Definition restricted (uid : Z) (r : result) : result :=
  Result (only uid (res_db r)) (res_emits r) (res_reply r).

(** A file's note, in [notes]: the one its [note_id] names, with the
    same owner. *)
Definition has_note (notes : list item) (f : item) : Prop :=
  ∀ n, item_note_id f = Some n →
       ∃ note, note ∈ notes ∧ item_id note = n
               ∧ item_user_id note = item_user_id f.

(** What the keys and the handlers keep of [notes] and [files]: the ids
    of [notes] are distinct and below the sequence, and a file with a
    [note_id] has its note. *)
Definition files_follow_notes (db : database) : Prop :=
  ∀ files, tables db !! "files" = Some files →
    ∃ notes,
      tables db !! "notes" = Some notes
      ∧ NoDup (item_id <$> items notes)
      ∧ Forall (λ i, item_id i < items_id_seq notes) (items notes)
      ∧ Forall (has_note (items notes)) (items files).

(** What isolation asks of a handler that leaves [out] on the store
    [db] and [out'] on the store without the rows of the others: the
    rows of the others stay, [out'] is [out] but for these rows, the
    events go to the caller's room, and files still follow their
    notes. *)
Definition isolated (uid : Z) (db : database) (out out' : result) : Prop :=
  (files_follow_notes db → untouched uid db (res_db out))
  ∧ out' = restricted uid out
  ∧ Forall (λ e, to_room e = user_room uid) (res_emits out)
  ∧ (files_follow_notes db → files_follow_notes (res_db out)).

(** ** Further predicates on runs and stores *)

Section RunPredicates.
Context {jwt : Jsonwebtoken}.
Variable JWT_SECRET : string.

(** No token connection [sid] presents in [o] verifies. *)
Definition never_verifies (sid : nat) (o : occurrence) : Prop :=
  match what o with
  | Authenticate sid' token =>
      sid' = sid → ∃ e, jwt_verify token JWT_SECRET (at_clock o) = Throw e
  | _ => True
  end.

End RunPredicates.

(** Every task id is below the sequence of [tasks], and no two rows
    share an id. *)
Definition task_ids_fresh (db : database) : Prop :=
  Forall (λ t, t_id t < tasks_id_seq db) (tasks db)
  ∧ NoDup (map t_id (tasks db)).

(** ** Example data

    Two registered users, each with an open connection in the room of
    its user, and some requests of theirs; the tokens are those of the
    reference instance. *)

Definition secret : string := "s3cret".
Definition alice_token : string := ref_sign 1 "alice" secret expiresIn_7d 0.
Definition bob_token : string := ref_sign 2 "bob" secret expiresIn_7d 0.

Definition bearer (token : string) : option string :=
  Some ("Bearer " +:+ token).

Definition titled (title : string) (st : field string) : task_body :=
  TaskBody (Val title) st Undefined Undefined Undefined Undefined Undefined
    Undefined Undefined Undefined Undefined.

Definition no_filter : tasks_query :=
  TasksQuery None None None None None None None None None.

Definition setup : list occurrence :=
  [Occurrence 0 "salt1" (Http (POST_auth_register (Some "alice") (Some "secret1")));
   Occurrence 0 "salt2" (Http (POST_auth_register (Some "bob") (Some "secret2")));
   Occurrence 1 "" (Connection 7);
   Occurrence 2 "" (Authenticate 7 alice_token);
   Occurrence 3 "" (Connection 8);
   Occurrence 4 "" (Authenticate 8 bob_token)].

Definition activity : list occurrence :=
  [Occurrence 10 "" (Http (POST_tasks (bearer alice_token)
                             (titled "write the spec" (Val "done"))));
   Occurrence 11 "" (Http (POST_tasks (bearer bob_token)
                             (titled "read the spec" Undefined)));
   Occurrence 12 "" (Authenticate 7 "garbage");
   Occurrence 13 "" (Http (DELETE_tasks_id (bearer bob_token) "2"));
   Occurrence 14 "" (Http (PUT_tasks_id (bearer alice_token) "1"
                             (titled "write the spec" (Val "pending"))))].

Definition joined_alice : socket :=
  Socket true {[user_room 1]}
    [Message "authenticated" (JObj [("ok", JBool true)])].

(** * Properties *)

(** ** The reference instances satisfy their interfaces *)

Lemma pos_of_bits_of_pos (p : positive) : pos_of_bits (bits_of_pos p) = Some p.
Proof.
  induction p as [q IH | q IH |]; simpl; [rewrite IH .. |]; reflexivity.
Qed.

Lemma ref_decode_sign uid uname secret expiresIn issued :
  ref_decode (ref_sign uid uname secret expiresIn issued)
  = Some (secret, (uid, uname, issued, issued + expiresIn)).
Proof.
  unfold ref_decode, ref_sign. simpl.
  rewrite pos_of_bits_of_pos. simpl. apply decode_encode.
Qed.

#[refine] Definition ref_jsonwebtoken : Jsonwebtoken :=
  {| jwt_sign := ref_sign; jwt_verify := ref_verify |}.
Proof.
  - reflexivity.
  - intros uid uname secret expiresIn issued clock Hlt.
    unfold ref_verify. rewrite ref_decode_sign, String.eqb_refl. simpl.
    destruct (Z.leb_spec (issued + expiresIn) clock); [lia | reflexivity].
  - intros uid uname secret expiresIn issued clock Hle.
    unfold ref_verify. rewrite ref_decode_sign, String.eqb_refl. simpl.
    destruct (Z.leb_spec (issued + expiresIn) clock); [reflexivity | lia].
Defined.

#[refine] Definition ref_bcryptjs : Bcryptjs :=
  {| bcrypt_hash := ref_hash; bcrypt_compare := ref_compare |}.
Proof.
  intros password rounds salt. unfold ref_compare, ref_hash.
  apply String.eqb_refl.
Defined.

Lemma insert_by_id_perm t rows : insert_by_id t rows ≡ₚ t :: rows.
Proof.
  induction rows as [| r rows IH]; simpl; [reflexivity |].
  destruct (t_id t <=? t_id r); [reflexivity |].
  rewrite IH. apply Permutation_swap.
Qed.

Lemma sort_by_id_perm rows : sort_by_id rows ≡ₚ rows.
Proof.
  induction rows as [| r rows IH]; simpl; [reflexivity |].
  rewrite insert_by_id_perm. by rewrite IH.
Qed.

(** Decimal numerals are read back as the number they were written
    from. *)
Lemma digit_value_pretty (x : N) :
  (x < 10)%N → digit_value 10 (pretty_N_char x) = Some x.
Proof.
  intros Hx.
  assert (x = 0 ∨ x = 1 ∨ x = 2 ∨ x = 3 ∨ x = 4 ∨ x = 5 ∨ x = 6 ∨ x = 7
          ∨ x = 8 ∨ x = 9)%N as Hcases by lia.
  destruct_or!; subst x; reflexivity.
Qed.

Lemma digits_from_pretty_go (x : N) (s : string) :
  ∃ k : N, ∀ acc,
    digits_from 10 acc (pretty_N_go x s)
    = digits_from 10 (acc * 10 ^ k + x)%N s.
Proof.
  revert s. induction (N.lt_wf_0 x) as [x _ IH]. intros s.
  destruct (decide (x = 0)%N) as [-> | Hx].
  - exists 0%N. intros acc. rewrite pretty_N_go_0. f_equal. lia.
  - rewrite pretty_N_go_step by lia.
    destruct (IH (x `div` 10)%N (N.div_lt x 10 ltac:(lia) ltac:(lia))
                (String (pretty_N_char (x `mod` 10)) s)) as [k Hk].
    exists (k + 1)%N. intros acc. rewrite Hk. cbn [digits_from].
    rewrite digit_value_pretty by (apply N.mod_lt; lia).
    f_equal. rewrite N.pow_add_r, N.pow_1_r.
    pose proof (N.div_mod x 10 ltac:(lia)). lia.
Qed.

Lemma digits_pretty (x : N) : digits 10 (pretty x) = Some x.
Proof.
  unfold pretty, pretty_N. case_decide as Hx; [by subst x |].
  destruct (digits_from_pretty_go x EmptyString) as [k Hk].
  specialize (Hk 0%N). rewrite N.mul_0_l, N.add_0_l in Hk.
  destruct (pretty_N_go x EmptyString) as [| c s] eqn:Hs.
  - simpl in Hk. by injection Hk as <-.
  - exact Hk.
Qed.

Lemma digits_from_head base acc c s n :
  digits_from base acc (String c s) = Some n → is_Some (digit_value base c).
Proof. simpl. by destruct (digit_value base c). Qed.

Lemma ref_int4in_decimal (z : Z) : int4 z → ref_int4in (pretty z) = Some z.
Proof.
  intros Hz. unfold ref_int4in. destruct z as [| q | q].
  - reflexivity.
  - change (pretty (Z.pos q)) with (pretty (N.pos q)).
    pose proof (digits_pretty (N.pos q)) as Hd.
    destruct (pretty (N.pos q)) as [| c ds]; [discriminate Hd |].
    destruct (Ascii.eqb_spec c "-") as [-> | _]; [discriminate Hd |].
    rewrite Hd. simpl. by rewrite bool_decide_eq_true_2.
  - change (pretty (Z.neg q)) with (String "-" (pretty (N.pos q))).
    cbv beta iota. rewrite Ascii.eqb_refl, digits_pretty. simpl.
    by rewrite bool_decide_eq_true_2.
Qed.

Lemma ref_int4in_range (s : string) (z : Z) : ref_int4in s = Some z → int4 z.
Proof.
  unfold ref_int4in. intros Hs. apply bind_Some in Hs as (z' & _ & Hz).
  case_bool_decide; by simplify_eq.
Qed.

#[refine] Definition ref_postgres : Postgres :=
  {| ilike := ref_ilike; order_by := ref_order_by; int4in := ref_int4in;
     date_in := ref_date_in; time_in := ref_time_in;
     date_json := ref_date_json; timestamptz_json := ref_timestamptz_json;
     index_fits := ref_index_fits; date_of := ref_date_of;
     date_before := ref_date_before; pg_text := ref_pg_text;
     pg_binds := ref_pg_binds; pg_row := ref_pg_row; pg_set := ref_pg_set;
     pg_matches := ref_pg_matches; pg_sorted := ref_pg_sorted |}.
Proof.
  - intros column desc rows. unfold ref_order_by.
    destruct desc; [rewrite reverse_Permutation |];
      destruct (String.eqb column "id"); auto using sort_by_id_perm.
  - exact ref_int4in_range.
  - exact ref_int4in_decimal.
  - done.
Defined.

(** ** The auth middlewares *)

Lemma bearer_token_Bearer (token : string) :
  bearer_token (Some ("Bearer " +:+ token)) = Some token.
Proof.
  unfold bearer_token. cbv [append default]. simpl.
  destruct token; reflexivity.
Qed.

Lemma truthy_nonempty (s : string) : truthy s = true ↔ s ≠ EmptyString.
Proof. destruct s; simpl; split; congruence. Qed.

Section AuthProperties.
Context {jwt : Jsonwebtoken}.
Variable JWT_SECRET : string.

Lemma authRequired_no_token authorization clock :
  bearer_token authorization = None
  ∨ bearer_token authorization = Some EmptyString →
  authRequired JWT_SECRET authorization clock = Respond Unauthorized.
Proof.
  unfold authRequired. intros [-> | ->]; reflexivity.
Qed.

Lemma authRequired_throw authorization clock token e :
  bearer_token authorization = Some token →
  token ≠ EmptyString →
  jwt_verify token JWT_SECRET clock = Throw e →
  authRequired JWT_SECRET authorization clock
  = Respond
      (if String.eqb (err_name e) "TokenExpiredError" then TokenExpired
       else if String.eqb (err_name e) "JsonWebTokenError"
            then InvalidToken "Token is malformed"
            else InvalidToken "Token verification failed").
Proof.
  intros Hb Hne Hv. unfold authRequired. rewrite Hb.
  apply truthy_nonempty in Hne. rewrite Hne, Hv.
  destruct (String.eqb (err_name e) "TokenExpiredError"); [reflexivity |].
  destruct (String.eqb (err_name e) "JsonWebTokenError"); reflexivity.
Qed.

Lemma authRequired_Next authorization clock user :
  authRequired JWT_SECRET authorization clock = Next user →
  ∃ token payload,
    bearer_token authorization = Some token
    ∧ token ≠ EmptyString
    ∧ jwt_verify token JWT_SECRET clock = Return payload
    ∧ p_userId payload ≠ 0
    ∧ user = Identity (p_userId payload) (p_username payload).
Proof.
  unfold authRequired.
  destruct (bearer_token authorization) as [token |]; [| discriminate].
  destruct (truthy token) eqn:Ht; [| discriminate].
  destruct (jwt_verify token JWT_SECRET clock) as [payload | e] eqn:Hv.
  - destruct (Z.eqb_spec (p_userId payload) 0) as [| Hnz]; [discriminate |].
    intros [= <-]. exists token, payload.
    by rewrite <- truthy_nonempty.
  - destruct (String.eqb (err_name e) "TokenExpiredError"); [discriminate |].
    destruct (String.eqb (err_name e) "JsonWebTokenError"); discriminate.
Qed.

Lemma authRequired_Return authorization clock token payload :
  bearer_token authorization = Some token →
  token ≠ EmptyString →
  jwt_verify token JWT_SECRET clock = Return payload →
  p_userId payload ≠ 0 →
  authRequired JWT_SECRET authorization clock
  = Next (Identity (p_userId payload) (p_username payload)).
Proof.
  intros Hb Hne Hv Hnz. unfold authRequired. rewrite Hb.
  apply truthy_nonempty in Hne. rewrite Hne, Hv.
  by destruct (Z.eqb_spec (p_userId payload) 0).
Qed.

Lemma authRequired_Respond_401 authorization clock r :
  authRequired JWT_SECRET authorization clock = Respond r → status r = 401.
Proof.
  unfold authRequired.
  repeat match goal with
         | |- context [match ?x with _ => _ end] => destruct x
         end; intros [= <-]; reflexivity.
Qed.

Lemma authOptional_None authorization clock :
  (bearer_token authorization = None
   ∨ bearer_token authorization = Some EmptyString
   ∨ ∃ token e, bearer_token authorization = Some token
                ∧ jwt_verify token JWT_SECRET clock = Throw e) →
  authOptional JWT_SECRET authorization clock = None.
Proof.
  unfold authOptional. intros [-> | [-> | (token & e & -> & ->)]];
    try reflexivity.
  by destruct (truthy token).
Qed.

(** C3.  The responses of [authRequired]: without a bearer token (no
    header, another scheme, or an empty token) it answers 401
    [Unauthorized]; when [jwt.verify] throws, it answers 401 with
    [Token expired] for a [TokenExpiredError] (thrown for a token of
    this server whose expiry has passed), with [Invalid token] / "Token
    is malformed" for a [JsonWebTokenError], and with [Invalid token] /
    "Token verification failed" for any other error; it calls [next()]
    only when verification returned a payload, with the identity
    [{id: userId, username}] of that payload; every rejection has
    status 401, and the three rejections of a thrown error are pairwise
    distinct responses. *)
Theorem authRequired_responses (authorization : option string) (clock : Z) :
  (bearer_token authorization = None
   ∨ bearer_token authorization = Some EmptyString →
   authRequired JWT_SECRET authorization clock = Respond Unauthorized)
  ∧ (∀ token e,
       bearer_token authorization = Some token →
       token ≠ EmptyString →
       jwt_verify token JWT_SECRET clock = Throw e →
       authRequired JWT_SECRET authorization clock
       = Respond
           (if String.eqb (err_name e) "TokenExpiredError" then TokenExpired
            else if String.eqb (err_name e) "JsonWebTokenError"
                 then InvalidToken "Token is malformed"
                 else InvalidToken "Token verification failed"))
  ∧ (∀ uid uname expiresIn issued,
       issued + expiresIn ≤ clock →
       authRequired JWT_SECRET
         (Some ("Bearer " +:+ jwt_sign uid uname JWT_SECRET expiresIn issued))
         clock
       = Respond TokenExpired)
  ∧ (∀ user,
       authRequired JWT_SECRET authorization clock = Next user →
       ∃ token payload,
         bearer_token authorization = Some token
         ∧ jwt_verify token JWT_SECRET clock = Return payload
         ∧ user = Identity (p_userId payload) (p_username payload))
  ∧ (∀ r, authRequired JWT_SECRET authorization clock = Respond r →
          status r = 401)
  ∧ TokenExpired ≠ InvalidToken "Token is malformed"
  ∧ TokenExpired ≠ InvalidToken "Token verification failed"
  ∧ InvalidToken "Token is malformed" ≠ InvalidToken "Token verification failed"
  ∧ Unauthorized ≠ TokenExpired
  ∧ (∀ message, Unauthorized ≠ InvalidToken message).
Proof.
  split; [apply authRequired_no_token |].
  split; [apply authRequired_throw |].
  split.
  { intros uid uname expiresIn issued Hle.
    rewrite (authRequired_throw _ clock _ TokenExpiredError
               (bearer_token_Bearer _)).
    - reflexivity.
    - apply truthy_nonempty, jwt_sign_truthy.
    - by apply jwt_verify_expired. }
  split.
  { intros user Hnext.
    destruct (authRequired_Next _ _ _ Hnext)
      as (token & payload & Hb & _ & Hv & _ & ->).
    by exists token, payload. }
  split; [apply authRequired_Respond_401 |].
  repeat split; discriminate.
Qed.

(** What both middlewares make of a token [jwt.sign] has just minted,
    before and after its expiry. *)
Lemma sign_then_verify (u : Z) (n : string) (expiresIn issued clock : Z) :
  let token := jwt_sign u n JWT_SECRET expiresIn issued in
  (clock < issued + expiresIn →
   jwt_verify token JWT_SECRET clock
   = Return (JwtPayload u n issued (issued + expiresIn))
   ∧ authOptional JWT_SECRET (Some ("Bearer " +:+ token)) clock
     = Some (Identity u n)
   ∧ (u ≠ 0 →
      authRequired JWT_SECRET (Some ("Bearer " +:+ token)) clock
      = Next (Identity u n)))
  ∧ (issued + expiresIn ≤ clock →
     jwt_verify token JWT_SECRET clock = Throw TokenExpiredError
     ∧ authOptional JWT_SECRET (Some ("Bearer " +:+ token)) clock = None
     ∧ authRequired JWT_SECRET (Some ("Bearer " +:+ token)) clock
       = Respond TokenExpired).
Proof.
  intros token. split.
  - intros Hlt.
    pose proof (jwt_verify_sign u n JWT_SECRET expiresIn issued clock Hlt)
      as Hv.
    pose proof (jwt_sign_truthy u n JWT_SECRET expiresIn issued) as Ht.
    fold token in Hv, Ht. split; [exact Hv |]. split.
    + unfold authOptional. rewrite bearer_token_Bearer, Ht, Hv. reflexivity.
    + intros Hnz.
      rewrite (authRequired_Return _ clock _ _ (bearer_token_Bearer _)
                 (proj1 (truthy_nonempty _) Ht) Hv Hnz).
      reflexivity.
  - intros Hle.
    pose proof (jwt_verify_expired u n JWT_SECRET expiresIn issued clock Hle)
      as Hv.
    pose proof (jwt_sign_truthy u n JWT_SECRET expiresIn issued) as Ht.
    fold token in Hv, Ht. split; [exact Hv |]. split.
    + unfold authOptional. rewrite bearer_token_Bearer, Ht, Hv. reflexivity.
    + rewrite (authRequired_throw _ clock _ TokenExpiredError
                 (bearer_token_Bearer _));
        [reflexivity | by apply truthy_nonempty | exact Hv].
Qed.

End AuthProperties.

(** ** Sockets and rooms *)

Lemma user_room_inj (a b : Z) : user_room a = user_room b → a = b.
Proof.
  unfold user_room. cbv [append]. intros [= Heq].
  by apply (inj pretty).
Qed.

Lemma receive_all_rooms emits s : sock_rooms (receive_all emits s) = sock_rooms s.
Proof.
  unfold receive_all. revert s.
  induction emits as [| e emits IH]; intros s; simpl; [reflexivity |].
  rewrite IH. by case_bool_decide.
Qed.

Lemma receive_all_connected emits s :
  sock_connected (receive_all emits s) = sock_connected s.
Proof.
  unfold receive_all. revert s.
  induction emits as [| e emits IH]; intros s; simpl; [reflexivity |].
  rewrite IH. by case_bool_decide.
Qed.

Lemma receive_all_received emits s :
  sock_received (receive_all emits s)
  = sock_received s
    ++ map em_message (filter (λ e, to_room e ∈ sock_rooms s) emits).
Proof.
  unfold receive_all. revert s.
  induction emits as [| e emits IH]; intros s; simpl.
  - by rewrite app_nil_r.
  - rewrite IH. rewrite filter_cons.
    case_bool_decide as Hin; simpl.
    + destruct (decide (to_room e ∈ sock_rooms s)); [| done].
      simpl. by rewrite <- app_assoc.
    + destruct (decide (to_room e ∈ sock_rooms s)); done.
Qed.

Lemma lookup_deliver emits sockets sid :
  deliver emits sockets !! sid = receive_all emits <$> sockets !! sid.
Proof.
  unfold deliver, receive_all. revert sockets.
  induction emits as [| e emits IH]; intros sockets; simpl.
  - by destruct (sockets !! sid).
  - rewrite IH. unfold io_to_emit. rewrite lookup_fmap.
    by destruct (sockets !! sid).
Qed.

Lemma lookup_on_connection_Some sid sid' sockets s :
  sockets !! sid = Some s → on_connection sid' sockets !! sid = Some s.
Proof.
  intros Hs. unfold on_connection.
  destruct (sockets !! sid') eqn:Hsid'; [done |].
  rewrite lookup_insert_ne; [done | congruence].
Qed.

Section ServerProperties.
Context {jwt : Jsonwebtoken} {bcrypt : Bcryptjs} {pg : Postgres}.
Variable JWT_SECRET : string.


(** A handler publishes nothing, or one task event into the room of the
    identity its middleware attached. *)
Lemma handle_emits r salt clock db :
  out_emits (handle JWT_SECRET r salt clock db) = []
  ∨ ∃ user m,
      request_user JWT_SECRET r clock = Some user
      ∧ is_task_event m
      ∧ out_emits (handle JWT_SECRET r salt clock db)
        = [Emission (user_room (user_id user)) m].
Proof.
  destruct r; simpl;
    unfold post_auth_register, post_auth_login, get_auth_verify,
      post_auth_reset_password, get_tasks, post_tasks, put_tasks_id,
      delete_tasks_id, post_tasks_clear_completed, post_tasks_mark_all_done,
      with_authRequired;
    repeat match goal with
           | |- context [match ?x with _ => _ end] => destruct x eqn:?
           end; simpl; auto;
    right; eexists _, _; (split; [reflexivity |]); (split; [| reflexivity]);
    unfold is_task_event, task_events; simpl; set_solver.
Qed.

Lemma run_app tr1 tr2 srv :
  run JWT_SECRET (tr1 ++ tr2) srv = run JWT_SECRET tr2 (run JWT_SECRET tr1 srv).
Proof. unfold run. apply fold_left_app. Qed.

Lemma lookup_on_authenticate_ne sid sid' token clock sockets :
  sid ≠ sid' →
  on_authenticate JWT_SECRET sid' token clock sockets !! sid = sockets !! sid.
Proof.
  intros Hne. unfold on_authenticate, socket_emit, socket_join.
  destruct (jwt_verify token JWT_SECRET clock);
    by rewrite ?lookup_alter_ne.
Qed.

Lemma lookup_on_authenticate_Throw sid token clock sockets e :
  jwt_verify token JWT_SECRET clock = Throw e →
  on_authenticate JWT_SECRET sid token clock sockets !! sid
  = receive (Message "auth_error" (JObj [("error", JStr "Invalid token")]))
    <$> sockets !! sid.
Proof.
  intros Hv. unfold on_authenticate, socket_emit. rewrite Hv.
  by rewrite lookup_alter_eq.
Qed.

Lemma lookup_on_authenticate_Return sid token clock sockets payload :
  jwt_verify token JWT_SECRET clock = Return payload →
  on_authenticate JWT_SECRET sid token clock sockets !! sid
  = (λ s, Socket (sock_connected s)
            ({[user_room (p_userId payload)]} ∪ sock_rooms s)
            (sock_received s
             ++ [Message "authenticated" (JObj [("ok", JBool true)])]))
    <$> sockets !! sid.
Proof.
  intros Hv. unfold on_authenticate, socket_emit, socket_join. rewrite Hv.
  rewrite !lookup_alter_eq. by destruct (sockets !! sid).
Qed.

(** C8.  A rejected [authenticate]: when the token of an open
    connection fails verification, the server sends [auth_error] with
    [{error: "Invalid token"}] to that connection and changes nothing
    else: the connection stays open and in the rooms it was in, every
    other connection is as before (it receives nothing), and the store
    is untouched.  The connection may try again: a later [authenticate]
    whose token verifies joins it to that user's room and is
    acknowledged with [authenticated]. *)
Theorem auth_error_keeps_connection (srv : server) (c : nat) (s : socket)
  (token salt : string) (clock : Z) (e : js_error) :
  srv_sockets srv !! c = Some s →
  sock_connected s = true →
  jwt_verify token JWT_SECRET clock = Throw e →
  let srv' :=
    step JWT_SECRET (Occurrence clock salt (Authenticate c token)) srv in
  let rejected :=
    Socket true (sock_rooms s)
      (sock_received s
       ++ [Message "auth_error" (JObj [("error", JStr "Invalid token")])]) in
  srv_db srv' = srv_db srv
  ∧ srv_sockets srv' !! c = Some rejected
  ∧ (∀ sid, sid ≠ c → srv_sockets srv' !! sid = srv_sockets srv !! sid)
  ∧ ∀ token' salt' clock' payload,
      jwt_verify token' JWT_SECRET clock' = Return payload →
      srv_sockets
        (step JWT_SECRET (Occurrence clock' salt' (Authenticate c token')) srv')
        !! c
      = Some (Socket true
                ({[user_room (p_userId payload)]} ∪ sock_rooms s)
                (sock_received rejected
                 ++ [Message "authenticated" (JObj [("ok", JBool true)])])).
Proof.
  intros Hs Hopen Hv srv' rejected.
  assert (Hstep :
    srv' = Server (srv_db srv)
             (on_authenticate JWT_SECRET c token clock (srv_sockets srv))).
  { unfold srv', step, is_connected. simpl. by rewrite Hs, Hopen. }
  assert (Hc : srv_sockets srv' !! c = Some rejected).
  { rewrite Hstep. simpl.
    rewrite (lookup_on_authenticate_Throw _ _ _ _ _ Hv), Hs. simpl.
    unfold receive, rejected. by rewrite Hopen. }
  split; [by rewrite Hstep |]. split; [exact Hc |]. split.
  - intros sid Hne. rewrite Hstep. simpl.
    by apply lookup_on_authenticate_ne.
  - intros token' salt' clock' payload Hv'.
    unfold step, is_connected. simpl. rewrite Hc. simpl.
    by rewrite (lookup_on_authenticate_Return _ _ _ _ _ Hv'), Hc.
Qed.

(** How one turn changes the rooms of a connection: it keeps them, it
    leaves them all (a disconnect, or a fresh connection), or a verified
    [authenticate] of this connection adds the room of the token's
    user. *)
Lemma step_rooms o srv c s' :
  srv_sockets (step JWT_SECRET o srv) !! c = Some s' →
  sock_rooms s' = ∅
  ∨ ∃ s, srv_sockets srv !! c = Some s
         ∧ (sock_rooms s' = sock_rooms s
            ∨ ∃ token payload,
                what o = Authenticate c token
                ∧ jwt_verify token JWT_SECRET (at_clock o) = Return payload
                ∧ sock_rooms s'
                  = {[user_room (p_userId payload)]} ∪ sock_rooms s).
Proof.
  unfold step. destruct (what o) as [sid | sid token | sid | r] eqn:Hwhat; simpl.
  - unfold on_connection. destruct (srv_sockets srv !! sid) eqn:Hsid.
    + intros Hc. right. eauto.
    + destruct (decide (sid = c)) as [-> | Hne].
      * rewrite lookup_insert_eq. intros [= <-]. by left.
      * rewrite lookup_insert_ne by done. intros Hc. right. eauto.
  - destruct (is_connected sid (srv_sockets srv)); [| intros Hc; right; eauto].
    simpl. destruct (decide (sid = c)) as [-> | Hne].
    + destruct (jwt_verify token JWT_SECRET (at_clock o)) as [payload | e] eqn:Hv.
      * rewrite (lookup_on_authenticate_Return _ _ _ _ _ Hv).
        destruct (srv_sockets srv !! c) as [s |]; [| discriminate].
        intros [= <-]. right. exists s. split; [done |]. right.
        by exists token, payload.
      * rewrite (lookup_on_authenticate_Throw _ _ _ _ _ Hv).
        destruct (srv_sockets srv !! c) as [s |]; [| discriminate].
        intros [= <-]. right. exists s. auto.
    + rewrite lookup_on_authenticate_ne by done. intros Hc. right. eauto.
  - unfold on_disconnect. destruct (decide (sid = c)) as [-> | Hne].
    + rewrite lookup_alter_eq.
      destruct (srv_sockets srv !! c) as [s |]; [| discriminate].
      intros [= <-]. by left.
    + rewrite lookup_alter_ne by done. intros Hc. right. eauto.
  - rewrite lookup_deliver.
    destruct (srv_sockets srv !! c) as [s |]; [| discriminate].
    intros [= <-]. right. exists s. split; [done |]. left.
    apply receive_all_rooms.
Qed.

Lemma subset_singleton_at_most_one (u : Z) (s : socket) :
  sock_rooms s ⊆ {[user_room u]} → at_most_one_channel s.
Proof.
  intros Hsub a b Ha Hb.
  apply Hsub, elem_of_singleton, user_room_inj in Ha.
  apply Hsub, elem_of_singleton, user_room_inj in Hb. congruence.
Qed.

(** C7, as the code has it.  [authenticate] only ever joins: along any
    run in which every token that verifies on connection [c] carries the
    same user id [u] (in particular a run with a single [authenticate]
    on [c]), a connection that started in no room other than [u]'s is
    in no room other than [u]'s, hence in at most one user channel. *)
Theorem one_channel_per_identity (u : Z) (c : nat) (tr : list occurrence)
  (srv : server) :
  (∀ s, srv_sockets srv !! c = Some s → sock_rooms s ⊆ {[user_room u]}) →
  Forall (authenticates_as JWT_SECRET u c) tr →
  ∀ s', srv_sockets (run JWT_SECRET tr srv) !! c = Some s' →
        sock_rooms s' ⊆ {[user_room u]} ∧ at_most_one_channel s'.
Proof.
  intros Hinit Htr s' Hs'.
  assert (Hsub : sock_rooms s' ⊆ {[user_room u]});
    [| split; [done | by eapply subset_singleton_at_most_one]].
  revert srv Hinit s' Hs'.
  induction Htr as [| o tr Ho Htr IH]; intros srv Hinit s' Hs'.
  - by apply Hinit.
  - apply (IH (step JWT_SECRET o srv)); [| exact Hs'].
    intros s1 Hs1.
    destruct (step_rooms _ _ _ _ Hs1)
      as [-> | (s & Hs & [-> | (token & payload & Hwhat & Hv & ->)])].
    + apply empty_subseteq.
    + by apply Hinit.
    + unfold authenticates_as in Ho. rewrite Hwhat in Ho.
      specialize (Ho eq_refl). rewrite Hv in Ho. subst u.
      apply union_least; [done | by apply Hinit].
Qed.

Lemma ack_not_task_event (data : json) :
  ¬ is_task_event (Message "authenticated" data)
  ∧ ¬ is_task_event (Message "auth_error" data).
Proof.
  unfold is_task_event, task_events. simpl.
  split; rewrite !elem_of_cons, elem_of_nil; intros [| [| [|]]]; done.
Qed.

Lemma filter_task_event_app (l : list message) (m : message) :
  ¬ is_task_event m →
  filter is_task_event (l ++ [m]) = filter is_task_event l.
Proof.
  intros Hm. rewrite filter_app, filter_cons_False by done.
  by rewrite filter_nil, app_nil_r.
Qed.

(** What connection [c] gets out of the emissions of one request when it
    is in the room of [A] and in no other. *)
Lemma receive_all_member A s r salt clock db :
  sock_rooms s = {[user_room A]} →
  sock_received (receive_all (out_emits (handle JWT_SECRET r salt clock db)) s)
  = sock_received s
    ++ (if bool_decide (user_id <$> request_user JWT_SECRET r clock = Some A)
        then map em_message (out_emits (handle JWT_SECRET r salt clock db))
        else [])
  ∧ Forall is_task_event
      (map em_message (out_emits (handle JWT_SECRET r salt clock db))).
Proof.
  intros Hrooms. rewrite receive_all_received, Hrooms.
  destruct (handle_emits r salt clock db) as [-> | (user & m & Huser & Hm & ->)].
  - split; [| constructor]. by case_bool_decide.
  - rewrite Huser. simpl. split; [| by constructor].
    rewrite filter_cons, filter_nil. simpl.
    destruct (decide (user_room (user_id user) ∈ ({[user_room A]} : gset string)))
      as [Hin | Hout].
    + apply elem_of_singleton, user_room_inj in Hin.
      rewrite bool_decide_eq_true_2; [done | by rewrite Hin].
    + rewrite bool_decide_eq_false_2; [done |].
      intros [= Heq]. apply Hout. rewrite Heq. by apply elem_of_singleton.
Qed.

Lemma filter_Forall_id {A} (P : A → Prop) `{!∀ x, Decision (P x)} (l : list A) :
  Forall P l → filter P l = l.
Proof.
  induction 1 as [| x l Hx Hl IH]; [done |].
  by rewrite filter_cons_True, IH.
Qed.

(** One turn, seen from a connection of user [A]. *)
Lemma step_member A c s o srv :
  srv_sockets srv !! c = Some s →
  sock_connected s = true →
  sock_rooms s = {[user_room A]} →
  presents_only JWT_SECRET A c o →
  ∃ s', srv_sockets (step JWT_SECRET o srv) !! c = Some s'
        ∧ sock_connected s' = true
        ∧ sock_rooms s' = {[user_room A]}
        ∧ filter is_task_event (sock_received s')
          = filter is_task_event (sock_received s)
            ++ emitted_for JWT_SECRET A [o] srv.
Proof.
  intros Hs Hopen Hrooms [Hauth Hstay].
  unfold authenticates_as, stays_open in *. unfold step. simpl.
  destruct (what o) as [sid | sid token | sid | r] eqn:Hwhat; simpl.
  - exists s. rewrite app_nil_r. eauto using lookup_on_connection_Some.
  - rewrite app_nil_r.
    destruct (is_connected sid (srv_sockets srv)); [| by exists s].
    simpl. destruct (decide (sid = c)) as [-> | Hne].
    + specialize (Hauth eq_refl).
      destruct (jwt_verify token JWT_SECRET (at_clock o)) as [payload | e] eqn:Hv.
      * rewrite (lookup_on_authenticate_Return _ _ _ _ _ Hv), Hs. simpl.
        eexists. split; [reflexivity |]. simpl. rewrite Hauth, Hrooms.
        split; [done |]. split; [by rewrite union_idemp_L |].
        apply filter_task_event_app, ack_not_task_event.
      * rewrite (lookup_on_authenticate_Throw _ _ _ _ _ Hv), Hs. simpl.
        eexists. split; [reflexivity |]. simpl.
        split; [done |]. split; [done |].
        apply filter_task_event_app, ack_not_task_event.
    + rewrite lookup_on_authenticate_ne by done. by exists s.
  - rewrite app_nil_r. unfold on_disconnect.
    rewrite lookup_alter_ne by congruence. by exists s.
  - rewrite lookup_deliver, Hs. simpl. eexists. split; [reflexivity |].
    rewrite receive_all_connected, receive_all_rooms.
    split; [done |]. split; [done |].
    destruct (receive_all_member A s r (with_salt o) (at_clock o) (srv_db srv)
                Hrooms) as [-> Hall].
    rewrite filter_app, app_nil_r. f_equal.
    case_bool_decide; [by apply filter_Forall_id | done].
Qed.

Lemma emitted_for_cons A o tr srv :
  emitted_for JWT_SECRET A (o :: tr) srv
  = emitted_for JWT_SECRET A [o] srv
    ++ emitted_for JWT_SECRET A tr (step JWT_SECRET o srv).
Proof. simpl. by rewrite app_nil_r. Qed.

(** A run, seen from a connection of user [A]. *)
Lemma run_member A c tr : ∀ s srv,
  srv_sockets srv !! c = Some s →
  sock_connected s = true →
  sock_rooms s = {[user_room A]} →
  Forall (presents_only JWT_SECRET A c) tr →
  ∃ s', srv_sockets (run JWT_SECRET tr srv) !! c = Some s'
        ∧ sock_connected s' = true
        ∧ sock_rooms s' = {[user_room A]}
        ∧ filter is_task_event (sock_received s')
          = filter is_task_event (sock_received s)
            ++ emitted_for JWT_SECRET A tr srv.
Proof.
  induction tr as [| o tr IH]; intros s srv Hs Hopen Hrooms Htr.
  - exists s. simpl. by rewrite app_nil_r.
  - apply Forall_cons in Htr as [Ho Htr].
    destruct (step_member A c s o srv Hs Hopen Hrooms Ho)
      as (s1 & Hs1 & Hopen1 & Hrooms1 & Hrecv1).
    destruct (IH s1 (step JWT_SECRET o srv) Hs1 Hopen1 Hrooms1 Htr)
      as (s' & Hs' & Hopen' & Hrooms' & Hrecv').
    exists s'. split; [exact Hs' |]. split; [done |]. split; [done |].
    rewrite Hrecv', Hrecv1, (emitted_for_cons A o tr srv).
    by rewrite app_assoc.
Qed.

(** C1.  Channel isolation.  Let [A] and [B] be distinct users and [c]
    an open connection that authenticated with [A]'s token and is in
    [A]'s room (and in no other).  Along every run of the server (HTTP
    requests of any user, connections, authentications and
    disconnections of other sockets) during which [c] stays open and
    presents no token of another user, the task events [c] receives are
    exactly, and in order, the events the handlers publish for the
    requests made with [A]'s identity; and a request made with [B]'s
    identity delivers nothing to [c]: it leaves [c]'s socket as it
    was. *)
Theorem channel_isolation (A B : Z) (c : nat) (s : socket) (srv : server)
  (tr : list occurrence) :
  A ≠ B →
  srv_sockets srv !! c = Some s →
  sock_connected s = true →
  sock_rooms s = {[user_room A]} →
  Forall (presents_only JWT_SECRET A c) tr →
  task_events_received c (run JWT_SECRET tr srv)
  = task_events_received c srv ++ emitted_for JWT_SECRET A tr srv
  ∧ ∀ tr1 o tr2 r user,
      tr = tr1 ++ o :: tr2 →
      what o = Http r →
      request_user JWT_SECRET r (at_clock o) = Some user →
      user_id user = B →
      srv_sockets (run JWT_SECRET (tr1 ++ [o]) srv) !! c
      = srv_sockets (run JWT_SECRET tr1 srv) !! c.
Proof.
  intros HAB Hs Hopen Hrooms Htr. split.
  - destruct (run_member A c tr s srv Hs Hopen Hrooms Htr)
      as (s' & Hs' & _ & _ & Hrecv).
    unfold task_events_received. by rewrite Hs', Hs.
  - intros tr1 o tr2 r user -> Hwhat Huser HB.
    apply Forall_app in Htr as [Htr1 _].
    destruct (run_member A c tr1 s srv Hs Hopen Hrooms Htr1)
      as (s1 & Hs1 & _ & Hrooms1 & _).
    rewrite run_app. simpl. unfold step at 1. rewrite Hwhat. simpl.
    rewrite lookup_deliver, Hs1. simpl. f_equal.
    destruct (handle_emits r (with_salt o) (at_clock o)
                (srv_db (run JWT_SECRET tr1 srv)))
      as [-> | (user' & m & Huser' & _ & ->)]; [done |].
    rewrite Huser in Huser'. injection Huser' as <-.
    unfold receive_all. simpl. rewrite Hrooms1, HB.
    rewrite bool_decide_eq_false_2; [done |].
    intros Hin. apply elem_of_singleton, user_room_inj in Hin. congruence.
Qed.

(** The three requests on a single task: a 200 response comes with one
    emission of the corresponding event into the caller's room; any
    other response comes with none. *)
Lemma mutation_emits r ev salt clock db :
  mutation_event r = Some ev →
  let out := handle JWT_SECRET r salt clock db in
  (status (out_response out) = 200
   ∧ ∃ user data,
       request_user JWT_SECRET r clock = Some user
       ∧ out_emits out
         = [Emission (user_room (user_id user)) (Message ev data)]
       ∧ data = match r with
                | DELETE_tasks_id _ id => JObj [("id", json_opt JNum (Number id))]
                | _ => body (out_response out)
                end)
  ∨ (status (out_response out) ≠ 200 ∧ out_emits out = []).
Proof.
  destruct r; simpl; try discriminate; intros [= <-];
    unfold post_tasks, put_tasks_id, delete_tasks_id, with_authRequired;
    (destruct (authRequired JWT_SECRET authorization clock)
       as [resp | user] eqn:Hauth;
     [ right; simpl; split; [| reflexivity];
       rewrite (authRequired_Respond_401 _ _ _ _ Hauth); discriminate |]);
    repeat match goal with
           | |- context [match ?x with _ => _ end] => destruct x eqn:?
           end; simpl;
    try (right; split; [discriminate | reflexivity]);
    left; (split; [reflexivity |]); eexists _, _; done.
Qed.

(** The single-task handlers publish once.  For [POST /tasks], [PUT
    /tasks/:id] and
    [DELETE /tasks/:id]: when the request succeeds (status 200: the row
    was inserted, updated or deleted), the handler publishes exactly
    one event, [task_created], [task_updated] or [task_deleted]
    respectively, into the room of the acting user; every socket in
    that room receives it once, and every other socket receives
    nothing.  When the request does not succeed nothing is published
    and no socket changes. *)
Theorem task_mutation_publishes_once (r : request) (ev salt : string)
  (clock : Z) (srv : server) :
  mutation_event r = Some ev →
  let out := handle JWT_SECRET r salt clock (srv_db srv) in
  let srv' := step JWT_SECRET (Occurrence clock salt (Http r)) srv in
  (status (out_response out) = 200 →
   ∃ user data,
     request_user JWT_SECRET r clock = Some user
     ∧ out_emits out = [Emission (user_room (user_id user)) (Message ev data)]
     ∧ data = match r with
              | DELETE_tasks_id _ id => JObj [("id", json_opt JNum (Number id))]
              | _ => body (out_response out)
              end
     ∧ ∀ sid s,
         srv_sockets srv !! sid = Some s →
         srv_sockets srv' !! sid
         = Some (if bool_decide (user_room (user_id user) ∈ sock_rooms s)
                 then receive (Message ev data) s else s))
  ∧ (status (out_response out) ≠ 200 →
     out_emits out = [] ∧ srv_sockets srv' = srv_sockets srv).
Proof.
  intros Hev out srv'.
  assert (Hsock : srv_sockets srv' = deliver (out_emits out) (srv_sockets srv))
    by reflexivity.
  destruct (mutation_emits r ev salt clock (srv_db srv) Hev)
    as [(H200 & user & data & Huser & Hemits & Hdata) | (Hn200 & Hemits)];
    fold out in H200 || fold out in Hn200; fold out in Hemits.
  - split; [| done]. intros _. exists user, data.
    split; [done |]. split; [done |]. split; [done |].
    intros sid s Hs. by rewrite Hsock, lookup_deliver, Hs, Hemits.
  - split; [done |]. intros _. split; [done |]. by rewrite Hsock, Hemits.
Qed.

End ServerProperties.

(** ** The auth endpoints *)

Lemma unique_violation_is_conflict :
  includes "duplicate key" (err_message (unique_violation "users_username_key"))
  && includes "users_username_key"
       (err_message (unique_violation "users_username_key")) = true.
Proof. vm_compute. reflexivity. Qed.

Lemma insert_user_fresh `{pg : Postgres} db username hash clock :
  valid_text username = true →
  users_id_seq db ≤ 2147483647 →
  index_fits username = true →
  ¬ Exists (λ u, u_username u = username) (users db) →
  insert_user db username hash clock
  = (with_users db
       (users db ++ [UserRow (users_id_seq db) username hash clock
                       None None None None (Some true)])
       (users_id_seq db + 1),
     Return (UserRow (users_id_seq db) username hash clock
               None None None None (Some true))).
Proof.
  intros Htext Hseq Hfits Hfresh. unfold insert_user.
  rewrite Htext, Hfits. simpl.
  destruct (Z.ltb_spec 2147483647 (users_id_seq db)); [lia |].
  by rewrite bool_decide_eq_false_2.
Qed.

Lemma insert_user_taken `{pg : Postgres} db username hash clock :
  valid_text username = true →
  users_id_seq db ≤ 2147483647 →
  Exists (λ u, u_username u = username) (users db) →
  insert_user db username hash clock
  = (with_users db (users db) (users_id_seq db + 1),
     Throw (unique_violation "users_username_key")).
Proof.
  intros Htext Hseq Htaken. unfold insert_user. rewrite Htext. simpl.
  destruct (Z.ltb_spec 2147483647 (users_id_seq db)); [lia |].
  by rewrite bool_decide_eq_true_2.
Qed.

(** What [insert_user] can leave behind. *)
Lemma insert_user_cases `{pg : Postgres} db username hash clock :
  let row := UserRow (users_id_seq db) username hash clock
               None None None None (Some true) in
  (∃ e, insert_user db username hash clock = (db, Throw e))
  ∨ (∃ e, insert_user db username hash clock
          = (with_users db (users db) (users_id_seq db + 1), Throw e))
  ∨ insert_user db username hash clock
    = (with_users db (users db ++ [row]) (users_id_seq db + 1), Return row).
Proof.
  unfold insert_user. repeat case_match; eauto.
Qed.

Lemma length_truthy (s : string) (n : nat) :
  (S n ≤ String.length s)%nat → truthy s = true.
Proof. destruct s; simpl; [lia | reflexivity]. Qed.

Lemma filter_Exists_cons {A} (P : A → Prop) `{!∀ x, Decision (P x)}
  (l : list A) :
  Exists P l → ∃ x l', filter P l = x :: l'.
Proof.
  intros Hex. apply Exists_exists in Hex as (x & Hin & HP).
  destruct (filter P l) as [| y l'] eqn:Hf; [| eauto].
  assert (x ∈ filter P l) as Hmem by (by apply list_elem_of_filter).
  rewrite Hf in Hmem. by apply elem_of_nil in Hmem.
Qed.

(** A stored username is found, whatever it holds. *)
Lemma select_users_by_username_Exists db username :
  Exists (λ u, u_username u = username) (users db) →
  ∃ u us,
    filter (λ u, u_username u = username) (users db) = u :: us
    ∧ select_users_by_username db username = Return (u :: us).
Proof.
  intros Hex. destruct (filter_Exists_cons _ _ Hex) as (u & us & Hf).
  exists u, us. split; [exact Hf |].
  unfold select_users_by_username. by rewrite Hf.
Qed.

Lemma select_users_by_username_None db username :
  ¬ Exists (λ u, u_username u = username) (users db) →
  select_users_by_username db username
  = if valid_text username then Return [] else Throw invalid_byte_sequence.
Proof.
  intros Hnone. unfold select_users_by_username.
  destruct (filter (λ u, u_username u = username) (users db))
    as [| u us] eqn:Hf; [done |].
  exfalso. apply Hnone. apply Exists_exists. exists u.
  assert (u ∈ filter (λ u, u_username u = username) (users db)) as Hmem
    by (rewrite Hf; constructor).
  apply list_elem_of_filter in Hmem as [Hname Hin]. by split.
Qed.

Lemma filter_username_update db hash username :
  filter (λ u, u_username u = username)
    (users (update_password_by_username db hash username))
  = map (set_password_hash hash)
      (filter (λ u, u_username u = username) (users db)).
Proof.
  unfold update_password_by_username. simpl.
  induction (users db) as [| u us IH]; [reflexivity |].
  simpl. destruct (decide (u_username u = username)) as [Hu | Hu].
  - rewrite bool_decide_eq_true_2 by done.
    rewrite (filter_cons_True _ (set_password_hash hash u)) by exact Hu.
    rewrite (filter_cons_True _ u) by exact Hu.
    simpl. by rewrite IH.
  - rewrite bool_decide_eq_false_2 by done.
    rewrite !(filter_cons_False _ u) by exact Hu. exact IH.
Qed.

Section AuthEndpoints.
Context {jwt : Jsonwebtoken} {bcrypt : Bcryptjs} {pg : Postgres}.
Variable JWT_SECRET : string.

(** C6, as the code has it.  Registration succeeds once.  For a
    username of at least 3 code units that holds no U+0000 and fits an
    entry of the unique index, and a password of at least 6, when no
    user has that username and the id sequence has two values left
    (the second registration draws one too), [POST /auth/register]
    answers 200
    with [success], a token minted for the new row with a validity of
    604800 seconds and the created user [{id, username}], and stores
    that row; after that, registering the same username again (with
    any password that passes validation) answers 409 [Username already
    exists] and stores nothing. *)
Theorem register_once (db : database) (username password salt : string)
  (clock : Z) :
  (3 ≤ String.length username)%nat →
  (6 ≤ String.length password)%nat →
  valid_text username = true →
  index_fits username = true →
  users_id_seq db < 2147483647 →
  ¬ Exists (λ u, u_username u = username) (users db) →
  let out :=
    post_auth_register JWT_SECRET (Some username) (Some password) salt clock db in
  let id := users_id_seq db in
  out_response out
  = Response 200
      (JObj [("success", JBool true);
             ("message", JStr "Registration successful");
             ("token", JStr (jwt_sign id username JWT_SECRET 604800 clock));
             ("user", JObj [("id", JNum id); ("username", JStr username)])])
  ∧ users (out_db out)
    = users db
      ++ [UserRow id username (bcrypt_hash password 10 salt) clock
            None None None None (Some true)]
  ∧ ∀ password' salt' clock',
      (6 ≤ String.length password')%nat →
      let again :=
        post_auth_register JWT_SECRET (Some username) (Some password') salt'
          clock' (out_db out) in
      out_response again = Response 409 (error_body "Username already exists")
      ∧ users (out_db again) = users (out_db out).
Proof.
  intros Hu Hp Htext Hfits Hseq Hfresh out id.
  assert (Hvalid : ∀ p, (6 ≤ String.length p)%nat →
            negb (truthy username) || negb (truthy p) = false
            ∧ (String.length username <? 3)%nat = false
            ∧ (String.length p <? 6)%nat = false).
  { intros p Hlen. rewrite (length_truthy username 2), (length_truthy p 5) by done.
    split; [done |]. split; by apply Nat.ltb_ge. }
  assert (Hout : out = Outcome
            (with_users db
               (users db ++ [UserRow id username (bcrypt_hash password 10 salt)
                               clock None None None None (Some true)])
               (id + 1)) []
            (res_json (JObj [("success", JBool true);
                             ("message", JStr "Registration successful");
                             ("token", JStr (jwt_sign id username JWT_SECRET
                                               expiresIn_7d clock));
                             ("user", user_json id username)]))).
  { unfold out, post_auth_register.
    destruct (Hvalid password Hp) as (-> & -> & ->).
    rewrite insert_user_fresh by (done || lia). done. }
  rewrite Hout. cbn [out_response out_db users with_users].
  split; [done |]. split; [done |].
  intros password' salt' clock' Hp'. unfold post_auth_register.
  destruct (Hvalid password' Hp') as (-> & -> & ->).
  rewrite insert_user_taken.
  - cbv beta iota zeta. by rewrite unique_violation_is_conflict.
  - done.
  - cbn [users_id_seq with_users]. unfold id. lia.
  - cbn [users with_users]. apply Exists_app. right. by constructor.
Qed.

(** C9.  Password reset needs no credential.  [POST
    /auth/reset-password] is declared without a middleware and its
    handler reads only [username] and [newPassword] from the body: for
    the username of an existing user and a new password of at least 6
    characters it answers 200 with [success], and replaces the password
    hash of that user's row by the hash of the new password, leaving
    every other column, every other user and the tasks as they were;
    the new password then logs in. *)
Theorem reset_password_unauthenticated (db : database)
  (username newPassword salt : string) :
  usernames_nonempty db →
  Exists (λ u, u_username u = username) (users db) →
  (6 ≤ String.length newPassword)%nat →
  let out :=
    post_auth_reset_password (Some username) (Some newPassword) salt db in
  let hash := bcrypt_hash newPassword 10 salt in
  (r_auth <$> find_route "POST" "/auth/reset-password") = Some NoMiddleware
  ∧ (∀ clock,
       handle JWT_SECRET
         (POST_auth_reset_password (Some username) (Some newPassword))
         salt clock db = out)
  ∧ out_response out
    = Response 200
        (JObj [("success", JBool true);
               ("message", JStr "Password updated successfully")])
  ∧ users (out_db out)
    = map (λ u, if bool_decide (u_username u = username)
                then set_password_hash hash u else u) (users db)
  ∧ (∀ u, u ∈ users (out_db out) → u_username u = username →
          u_password_hash u = hash)
  ∧ tasks (out_db out) = tasks db
  ∧ ∀ clock,
      status (out_response
                (post_auth_login JWT_SECRET (Some username) (Some newPassword)
                   clock (out_db out))) = 200.
Proof.
  intros Hne Hex Hlen out hash.
  assert (Hu : truthy username = true).
  { apply Exists_exists in Hex as (u & Hin & <-).
    unfold usernames_nonempty in Hne. rewrite Forall_forall in Hne. auto. }
  pose proof (length_truthy newPassword 5 Hlen) as Hp.
  destruct (select_users_by_username_Exists db username Hex)
    as (u0 & us & Hf & Hsel).
  assert (Hout :
    out = Outcome (update_password_by_username db hash username) []
            (res_json (JObj [("success", JBool true);
                             ("message", JStr "Password updated successfully")]))).
  { unfold out, post_auth_reset_password. rewrite Hu, Hp. simpl.
    apply Nat.ltb_ge in Hlen. rewrite Hlen. by rewrite Hsel. }
  split; [reflexivity |]. split; [reflexivity |].
  rewrite Hout. simpl. split; [done |]. split; [done |]. split; [| split; [done |]].
  - intros u Hin Hname. apply list_elem_of_fmap in Hin as (u' & -> & _).
    case_bool_decide as Hu'; [reflexivity |]. done.
  - intros clock. unfold post_auth_login. rewrite Hu, Hp. simpl.
    unfold select_users_by_username.
    rewrite filter_username_update, Hf. simpl.
    unfold hash. by rewrite bcrypt_compare_hash.
Qed.

End AuthEndpoints.

(** ** The task endpoints and tenant isolation *)

Lemma push_if_no_user_id v (c : string → cond) :
  (∀ s, ¬ is_user_id_cond (c s)) →
  Forall (λ c, ¬ is_user_id_cond c) (push_if v c).
Proof.
  intros Hc. unfold push_if. destruct v as [s |]; [| constructor].
  destruct (truthy s); repeat constructor. apply Hc.
Qed.

(** Without an identity, [where] holds no [user_id] condition. *)
Lemma tasks_where_None_no_user_id q :
  Forall (λ c, ¬ is_user_id_cond c) (tasks_where None q).
Proof.
  unfold tasks_where. repeat apply Forall_app_2;
    try (apply push_if_no_user_id; intros s []);
    repeat match goal with
           | |- context [match ?x with _ => _ end] => destruct x
           end;
    repeat constructor; intros [].
Qed.

Lemma filter_filter_implied {A} (P Q : A → Prop)
  `{!∀ x, Decision (P x)} `{!∀ x, Decision (Q x)} (l : list A) :
  (∀ x, P x → Q x) → filter P (filter Q l) = filter P l.
Proof.
  intros HPQ. induction l as [| x l IH]; [reflexivity |].
  rewrite (filter_cons Q). destruct (decide (Q x)) as [HQ | HQ].
  - rewrite !filter_cons. destruct (decide (P x)); by rewrite IH.
  - rewrite IH. rewrite filter_cons_False; [done | auto].
Qed.

Lemma filter_map_outside {A} (P Q : A → Prop) (f : A → A)
  `{!∀ x, Decision (P x)} `{!∀ x, Decision (Q x)} (l : list A) :
  (∀ x, Q x → ¬ P x ∧ ¬ P (f x)) →
  filter P (map (λ x, if bool_decide (Q x) then f x else x) l) = filter P l.
Proof.
  intros HQ. induction l as [| x l IH]; [reflexivity |].
  simpl. case_bool_decide as Hx.
  - destruct (HQ x Hx) as [Hx1 Hx2].
    by rewrite !filter_cons_False, IH.
  - rewrite !filter_cons. destruct (decide (P x)); by rewrite IH.
Qed.

Section TaskEndpoints.
Context {jwt : Jsonwebtoken} {bcrypt : Bcryptjs} {pg : Postgres}.
Variable JWT_SECRET : string.

(** With an identity, [where] starts with its [user_id] condition. *)
Lemma tasks_where_Some_owned user q t :
  where_holds (tasks_where (Some user) q) t → owned_by (user_id user) t.
Proof.
  unfold where_holds, tasks_where. simpl.
  intros Hall. apply andb_prop in Hall as [Hu _].
  by apply bool_decide_eq_true in Hu.
Qed.

(** What the three statements on a single task can leave behind. *)
Lemma insert_task_cases db title st description pr due_date due_time cat ty
  project_id important assigned_to uid clock :
  let id := tasks_id_seq db in
  let out := insert_task db title st description pr due_date due_time cat ty
               project_id important assigned_to uid clock in
  (∃ e, out = (db, Throw e))
  ∨ (∃ e, out = (with_tasks db (tasks db) (id + 1), Throw e))
  ∨ (∃ date time,
       out = (with_tasks db
                (tasks db
                 ++ [TaskRow id title st description (Some pr) date
                       (Some clock) (Some clock) (Some cat) time (Some uid)
                       (Some ty) project_id (Some important) assigned_to])
                (id + 1),
              Return (TaskRow id title st description (Some pr) date
                        (Some clock) (Some clock) (Some cat) time (Some uid)
                        (Some ty) project_id (Some important) assigned_to))
       ∧ id ≤ 2147483647).
Proof.
  intros id out. unfold out, insert_task. fold id.
  repeat case_match; eauto.
  right. right. eexists _, _. split; [reflexivity |].
  match goal with H : (_ <? _) = false |- _ => apply Z.ltb_ge in H end. done.
Qed.

Lemma update_task_cases db b id uid clock :
  (∃ c, update_task db b id uid clock = (db, c)
        ∧ (c = Return [] ∨ ∃ e, c = Throw e))
  ∨ (∃ n due_date due_time row rows,
       int4in id = Some n
       ∧ filter (task_is n uid) (tasks db) = row :: rows
       ∧ update_task db b id uid clock
         = (with_tasks db
              (map (λ t, if bool_decide (task_is n uid t)
                         then set_fields b due_date due_time clock t else t)
                 (tasks db))
              (tasks_id_seq db),
            Return (map (set_fields b due_date due_time clock) (row :: rows)))).
Proof.
  unfold update_task. repeat case_match; eauto 10.
Qed.

Lemma delete_task_cases db id uid :
  (∃ e, delete_task db id uid = (db, Throw e))
  ∨ (∃ n, int4in id = Some n
          ∧ delete_task db id uid
            = (with_tasks db (filter (λ t, ¬ task_is n uid t) (tasks db))
                 (tasks_id_seq db),
               Return (List.length (filter (task_is n uid) (tasks db))))).
Proof. unfold delete_task. case_match; eauto. Qed.

(** C10, as the code has it.  [GET /tasks] without an identity.  When
    the request carries no bearer token, or one that fails
    verification, [authOptional] attaches no identity and the [where]
    array of the query holds no [user_id] condition.  When the server
    takes every parameter of the query, the request succeeds with
    status 200 and the rows returned are, up to the order [ORDER BY]
    gives them, all the tasks of the store that satisfy the other
    filters of the query string, whoever owns them (every task of every
    user when the query string has no filter), each written with its
    id, its title and the id of its owner; when the server refuses a
    parameter, the answer is 500 [Failed to fetch tasks].  The store is
    unchanged. *)
Theorem get_tasks_unauthenticated (authorization : option string)
  (q : tasks_query) (clock : Z) (db : database) :
  (bearer_token authorization = None
   ∨ bearer_token authorization = Some EmptyString
   ∨ ∃ token e, bearer_token authorization = Some token
                ∧ jwt_verify token JWT_SECRET clock = Throw e) →
  let out := get_tasks JWT_SECRET authorization q clock db in
  Forall (λ c, ¬ is_user_id_cond c) (tasks_where None q)
  ∧ out_db out = db
  ∧ (where_binds (tasks_where None q) = false →
     out_response out = Response 500 (error_body "Failed to fetch tasks"))
  ∧ (where_binds (tasks_where None q) = true →
     ∃ rows,
       out_response out = Response 200 (JArr (map task_json rows))
       ∧ rows ≡ₚ filter (where_holds (tasks_where None q)) (tasks db)
       ∧ (∀ t, t ∈ tasks db → where_holds (tasks_where None q) t → t ∈ rows)
       ∧ (tasks_where None q = [] → rows ≡ₚ tasks db)
       ∧ ∀ t, json_field "id" (task_json t) = Some (JNum (t_id t))
              ∧ json_field "title" (task_json t) = Some (JStr (t_title t))
              ∧ json_field "user_id" (task_json t)
                = Some (json_opt JNum (t_user_id t))).
Proof.
  intros Hanon out.
  assert (Hout : out = match select_tasks db (tasks_where None q)
                               (tasks_sortBy q) (tasks_sortOrder_desc q) with
                       | Return rows =>
                           Outcome db [] (res_json (JArr (map task_json rows)))
                       | Throw _ =>
                           Outcome db []
                             (Response 500 (error_body "Failed to fetch tasks"))
                       end).
  { unfold out, get_tasks. by rewrite (authOptional_None _ _ _ Hanon). }
  split; [apply tasks_where_None_no_user_id |].
  rewrite Hout. unfold select_tasks.
  split; [by destruct (where_binds _) |].
  split; [by intros -> |]. intros ->.
  eexists. split; [reflexivity |].
  assert (Hperm : order_by (tasks_sortBy q) (tasks_sortOrder_desc q)
                    (filter (where_holds (tasks_where None q)) (tasks db))
                  ≡ₚ filter (where_holds (tasks_where None q)) (tasks db))
    by apply order_by_perm.
  split; [exact Hperm |]. split; [| split; [| done]].
  - intros t Hin Hholds. rewrite Hperm. by apply list_elem_of_filter.
  - intros Hnil. rewrite Hperm, Hnil.
    clear. induction (tasks db) as [| t ts IH]; [done |].
    rewrite filter_cons_True by done. by rewrite IH.
Qed.

(** A task request under [authRequired] leaves the users and the rows
    of the other users as they were. *)
Lemma task_write_isolated r salt clock db user :
  task_write r →
  request_user JWT_SECRET r clock = Some user →
  let out := handle JWT_SECRET r salt clock db in
  users (out_db out) = users db
  ∧ filter (λ t, ¬ owned_by (user_id user) t) (tasks (out_db out))
    = filter (λ t, ¬ owned_by (user_id user) t) (tasks db).
Proof.
  destruct r; simpl; try done; intros _;
    unfold post_tasks, put_tasks_id, delete_tasks_id,
      post_tasks_clear_completed, post_tasks_mark_all_done, with_authRequired;
    destruct (authRequired JWT_SECRET authorization clock) as [resp | user']
      eqn:Hauth; try discriminate; intros [= ->].
  - (* POST /tasks *)
    destruct (b_title b) as [| | title]; try done.
    destruct (negb (truthy title) || negb (truthy (trim title))); [done |].
    match goal with
    | |- context [insert_task ?db ?a1 ?a2 ?a3 ?a4 ?a5 ?a6 ?a7 ?a8 ?a9 ?a10
                    ?a11 ?a12 ?a13] =>
        destruct (insert_task_cases db a1 a2 a3 a4 a5 a6 a7 a8 a9 a10 a11
                    a12 a13)
          as [[e ->] | [[e ->] | (date & time & -> & _)]]
    end; simpl; try done.
    split; [done |].
    rewrite filter_app, filter_cons_False, filter_nil, app_nil_r; [done |].
    intros Hn. by apply Hn.
  - (* PUT /tasks/:id *)
    destruct (nothing_to_update b); [done |].
    destruct (update_task_cases db b id (user_id user) clock)
      as [(c & -> & [-> | [e ->]]) | (n & dd & dt & row & rows & _ & _ & ->)];
      simpl; try done.
    split; [done |]. apply filter_map_outside.
    intros row' [_ Hrow]. split; intros Hn; by apply Hn.
  - (* DELETE /tasks/:id *)
    destruct (delete_task_cases db id (user_id user))
      as [[e ->] | (n & _ & ->)]; [done |].
    destruct (length (filter (task_is n (user_id user)) (tasks db)));
      simpl; (split; [done |]);
      apply filter_filter_implied; intros row Hn [_ Hrow]; by apply Hn.
  - (* POST /tasks/clear-completed *)
    simpl. split; [done |].
    apply filter_filter_implied. intros row Hn [_ Hrow]. by apply Hn.
  - (* POST /tasks/mark-all-done *)
    simpl. split; [done |].
    apply filter_map_outside.
    intros row [_ Hrow]. split; intros Hn; by apply Hn.
Qed.

End TaskEndpoints.

(** ** The invariant of the users table *)

Section UsersInvariant.
Context {jwt : Jsonwebtoken} {bcrypt : Bcryptjs} {pg : Postgres}.
Variable JWT_SECRET : string.

Lemma usernames_nonempty_map_hash (P : user_row → Prop)
  `{!∀ u, Decision (P u)} hash us :
  Forall (λ u, truthy (u_username u) = true) us →
  Forall (λ u, truthy (u_username u) = true)
    (map (λ u, if bool_decide (P u) then set_password_hash hash u else u) us).
Proof.
  induction 1 as [| u us Hu Hus IH]; simpl; constructor; [| done].
  by case_bool_decide.
Qed.

Lemma users_insert_task db title st description pr due_date due_time cat ty
  project_id important assigned_to uid clock db' c :
  insert_task db title st description pr due_date due_time cat ty
    project_id important assigned_to uid clock = (db', c) →
  users db' = users db.
Proof. unfold insert_task. repeat case_match; by intros [= <- _]. Qed.

Lemma users_update_task db b id uid clock db' c :
  update_task db b id uid clock = (db', c) → users db' = users db.
Proof. unfold update_task. repeat case_match; by intros [= <- _]. Qed.

(** No request stores an empty username. *)
Lemma handle_usernames_nonempty r salt clock db :
  usernames_nonempty db →
  usernames_nonempty (out_db (handle JWT_SECRET r salt clock db)).
Proof.
  unfold usernames_nonempty. intros Hdb. destruct r; simpl.
  - unfold post_auth_register.
    destruct username as [u |], password as [p |]; try done.
    destruct (negb (truthy u) || negb (truthy p)) eqn:Ht; [done |].
    do 2 (case_match; [done |]).
    destruct (insert_user_cases db u (bcrypt_hash p 10 salt) clock)
      as [[e ->] | [[e ->] | ->]]; simpl; try (by case_match).
    apply Forall_app. split; [done |]. constructor; [| constructor].
    simpl. apply orb_false_elim in Ht as [Ht _].
    by apply negb_false_iff.
  - unfold post_auth_login. by repeat case_match.
  - unfold get_auth_verify, with_authRequired. by case_match.
  - unfold post_auth_reset_password. repeat case_match; try done.
    simpl. by apply usernames_nonempty_map_hash.
  - unfold get_tasks. by case_match.
  - unfold post_tasks, with_authRequired. repeat case_match; try done.
    all: match goal with
         | E : insert_task _ _ _ _ _ _ _ _ _ _ _ _ _ _ = _ |- _ =>
             apply users_insert_task in E; simpl; by rewrite E
         end.
  - unfold put_tasks_id, with_authRequired. repeat case_match; try done.
    all: match goal with
         | E : update_task _ _ _ _ _ = _ |- _ =>
             apply users_update_task in E; simpl; by rewrite E
         end.
  - unfold delete_tasks_id, with_authRequired, delete_task.
    by repeat case_match; simplify_eq.
  - unfold post_tasks_clear_completed, with_authRequired. by case_match.
  - unfold post_tasks_mark_all_done, with_authRequired. by case_match.
Qed.

Lemma run_usernames_nonempty tr srv :
  usernames_nonempty (srv_db srv) →
  usernames_nonempty (srv_db (run JWT_SECRET tr srv)).
Proof.
  revert srv. induction tr as [| o tr IH]; intros srv Hsrv; [done |].
  apply IH. unfold step. destruct (what o); simpl; try done.
  - by destruct (is_connected _ _).
  - by apply handle_usernames_nonempty.
Qed.

End UsersInvariant.

(** ** Headers and the two policies *)

Lemma prefix_slice (p s : string) :
  String.prefix p s = true → s = p +:+ slice (String.length p) s.
Proof.
  revert s. induction p as [| a p IH]; intros s Hp; [reflexivity |].
  destruct s as [| b s]; [discriminate |]. simpl in Hp.
  destruct (ascii_dec a b) as [-> | _]; [| discriminate].
  change (String b s = String b (p +:+ slice (String.length p) s)).
  f_equal. by apply IH.
Qed.

(** The bearer token of a request: a header yields a token exactly when
    it is ["Bearer "], with this capitalisation and one space, followed
    by the token; any other header, and a missing one, yields none. *)
Theorem bearer_token_spec (authorization : option string) (token : string) :
  bearer_token authorization = Some token
  ↔ authorization = Some ("Bearer " +:+ token).
Proof.
  split; [| intros ->; apply bearer_token_Bearer].
  unfold bearer_token. destruct authorization as [auth |]; simpl.
  - destruct (String.prefix "Bearer " auth) eqn:Hp; [| discriminate].
    intros [= <-]. f_equal. by apply prefix_slice in Hp.
  - discriminate.
Qed.

Section Policies.
Context {jwt : Jsonwebtoken}.
Variable JWT_SECRET : string.

(** The two middlewares agree except on the user id 0: whenever
    [authRequired] attaches an identity, [authOptional] attaches the
    same one; an identity [authOptional] attaches is attached by
    [authRequired] too unless its id is 0, which [authRequired] rejects
    as an invalid payload; and when [authOptional] attaches nothing,
    [authRequired] answers 401. *)
Theorem auth_policies_agree (authorization : option string) (clock : Z) :
  (∀ user,
     authRequired JWT_SECRET authorization clock = Next user →
     authOptional JWT_SECRET authorization clock = Some user)
  ∧ (∀ user,
       authOptional JWT_SECRET authorization clock = Some user →
       authRequired JWT_SECRET authorization clock
       = if user_id user =? 0
         then Respond (InvalidToken "Token payload is invalid")
         else Next user)
  ∧ (authOptional JWT_SECRET authorization clock = None →
     ∃ r, authRequired JWT_SECRET authorization clock = Respond r
          ∧ status r = 401).
Proof.
  unfold authRequired, authOptional.
  destruct (bearer_token authorization) as [token |];
    [destruct (truthy token);
     [destruct (jwt_verify token JWT_SECRET clock) as [payload | e] |] |].
  - split; [| split].
    + intros user. by destruct (p_userId payload =? 0); intros [= <-].
    + intros user [= <-]. simpl. by destruct (p_userId payload =? 0).
    + discriminate.
  - split; [| split]; [| discriminate |].
    + intros user.
      by repeat case_match.
    + intros _. repeat case_match; eauto.
  - split; [discriminate |]. split; [discriminate | eauto].
  - split; [discriminate |]. split; [discriminate | eauto].
Qed.

End Policies.

(** ** Sessions: register, login, verify *)

Lemma filter_not_Exists {A} (P : A → Prop) `{!∀ x, Decision (P x)}
  (l : list A) :
  ¬ Exists P l → filter P l = [].
Proof.
  induction l as [| x l IH]; [done |]. intros Hnot.
  rewrite filter_cons_False; [apply IH |]; intros Hx; apply Hnot;
    by constructor.
Qed.

Section Sessions.
Context {jwt : Jsonwebtoken} {bcrypt : Bcryptjs} {pg : Postgres}.
Variable JWT_SECRET : string.

Lemma get_auth_verify_token (uid : Z) (uname : string) (issued clock : Z) db :
  uid ≠ 0 →
  let token := jwt_sign uid uname JWT_SECRET expiresIn_7d issued in
  get_auth_verify JWT_SECRET (Some ("Bearer " +:+ token)) clock db
  = Outcome db []
      (if clock <? issued + expiresIn_7d
       then res_json (JObj [("valid", JBool true);
                            ("user", user_json uid uname)])
       else TokenExpired).
Proof.
  intros Hnz token. subst token. unfold get_auth_verify, with_authRequired.
  pose proof (jwt_sign_truthy uid uname JWT_SECRET expiresIn_7d issued) as Ht.
  apply truthy_nonempty in Ht.
  destruct (Z.ltb_spec clock (issued + expiresIn_7d)) as [Hlt | Hge].
  - rewrite (authRequired_Return JWT_SECRET _ clock _ _ (bearer_token_Bearer _)
               Ht (jwt_verify_sign _ _ _ _ _ _ Hlt) Hnz).
    reflexivity.
  - rewrite (authRequired_throw JWT_SECRET _ clock _ TokenExpiredError
               (bearer_token_Bearer _) Ht (jwt_verify_expired _ _ _ _ _ _ Hge)).
    reflexivity.
Qed.

(** C4.  Token round trip.  The token in a 200 answer of [POST
    /auth/register] or [POST /auth/login] given at [issued] is the one
    [jwt.sign] mints for the pair [(u, n)] the answer names as its
    user, with a life of 604800 seconds (seven days).  Such a token
    verifies to the payload [{userId: u, username: n}] (stamped with
    its issue and expiry times) whenever the clock is before [issued]
    plus 604800, and both middlewares then attach the identity [{id: u,
    username: n}] ([authRequired] for the non-zero ids the [SERIAL]
    column gives); once 604800 seconds have elapsed, verification
    throws [TokenExpiredError], [authRequired] answers [Token expired]
    and [authOptional] attaches nothing. *)
Theorem token_round_trip (issued clock : Z) :
  let round_trip (u : Z) (n token : string) :=
    (clock < issued + 604800 →
     jwt_verify token JWT_SECRET clock
     = Return (JwtPayload u n issued (issued + 604800))
     ∧ authOptional JWT_SECRET (Some ("Bearer " +:+ token)) clock
       = Some (Identity u n)
     ∧ (u ≠ 0 →
        authRequired JWT_SECRET (Some ("Bearer " +:+ token)) clock
        = Next (Identity u n)))
    ∧ (issued + 604800 ≤ clock →
       jwt_verify token JWT_SECRET clock = Throw TokenExpiredError
       ∧ authOptional JWT_SECRET (Some ("Bearer " +:+ token)) clock = None
       ∧ authRequired JWT_SECRET (Some ("Bearer " +:+ token)) clock
         = Respond (Response 401
                      (JObj [("error", JStr "Token expired");
                             ("message", JStr "Please login again")]))) in
  (∀ u n, round_trip u n (jwt_sign u n JWT_SECRET 604800 issued))
  ∧ ∀ db username password salt body,
      out_response
        (post_auth_register JWT_SECRET username password salt issued db)
      = Response 200 body
      ∨ out_response (post_auth_login JWT_SECRET username password issued db)
        = Response 200 body →
      ∃ u n token,
        username = Some n
        ∧ json_field "token" body = Some (JStr token)
        ∧ json_field "user" body
          = Some (JObj [("id", JNum u); ("username", JStr n)])
        ∧ round_trip u n token.
Proof.
  intros round_trip.
  assert (Hsigned : ∀ u n,
            round_trip u n (jwt_sign u n JWT_SECRET 604800 issued)).
  { intros u n. exact (sign_then_verify JWT_SECRET u n 604800 issued clock). }
  split; [exact Hsigned |].
  intros db username password salt body Hanswer.
  assert (Hissued : ∃ u n,
            username = Some n
            ∧ json_field "token" body
              = Some (JStr (jwt_sign u n JWT_SECRET 604800 issued))
            ∧ json_field "user" body
              = Some (JObj [("id", JNum u); ("username", JStr n)])).
  { revert Hanswer.
    intros [Hregister | Hlogin].
    - unfold post_auth_register in Hregister.
      destruct username as [username |], password as [password |];
        try discriminate Hregister.
      destruct (negb (truthy username) || negb (truthy password));
        [discriminate Hregister |].
      destruct (String.length username <? 3)%nat; [discriminate Hregister |].
      destruct (String.length password <? 6)%nat; [discriminate Hregister |].
      destruct (insert_user_cases db username (bcrypt_hash password 10 salt)
                  issued) as [[e He] | [[e He] | He]];
        rewrite He in Hregister.
      + by destruct (includes _ _ && includes _ _).
      + by destruct (includes _ _ && includes _ _).
      + injection Hregister as <-. by exists (users_id_seq db), username.
    - unfold post_auth_login in Hlogin.
      destruct username as [username |], password as [password |];
        try discriminate Hlogin.
      destruct (negb (truthy username) || negb (truthy password));
        [discriminate Hlogin |].
      unfold select_users_by_username in Hlogin.
      destruct (filter (λ u, u_username u = username) (users db))
        as [| user rest] eqn:Hf.
      + by destruct (valid_text username).
      + assert (user ∈ filter (λ u, u_username u = username) (users db)) as Hmem
          by (rewrite Hf; constructor).
        apply list_elem_of_filter in Hmem as [Hname _].
        destruct (bcrypt_compare password (u_password_hash user));
          [| discriminate Hlogin].
        injection Hlogin as <-. exists (u_id user), username.
        by rewrite Hname.
  }
  destruct Hissued as (u & n & Hname & Htoken & Huser).
  exists u, n, (jwt_sign u n JWT_SECRET 604800 issued).
  repeat split; try done; by apply Hsigned.
Qed.

(** Register, log in, verify.  After a successful registration (a
    username without U+0000 that fits an entry of the unique index, an
    id left in the sequence) the same
    credentials log in at any later time: [POST /auth/login] answers
    200 with a fresh token and the user [{id, username}] and leaves the
    store as it is.  Either token, that of the registration or that of
    the login, makes [GET /auth/verify] answer [{valid: true, user}]
    for 604800 seconds (seven days) from its issue, and 401 [Token
    expired] from then on. *)
Theorem session_round_trip (db : database) (username password salt : string)
  (registered loggedIn clock : Z) :
  (3 ≤ String.length username)%nat →
  (6 ≤ String.length password)%nat →
  valid_text username = true →
  index_fits username = true →
  0 < users_id_seq db ≤ 2147483647 →
  ¬ Exists (λ u, u_username u = username) (users db) →
  let id := users_id_seq db in
  let db' := out_db (post_auth_register JWT_SECRET (Some username)
                       (Some password) salt registered db) in
  let login := post_auth_login JWT_SECRET (Some username) (Some password)
                 loggedIn db' in
  let user := JObj [("id", JNum id); ("username", JStr username)] in
  login
  = Outcome db' []
      (Response 200
         (JObj [("token", JStr (jwt_sign id username JWT_SECRET 604800
                                  loggedIn));
                ("user", user)]))
  ∧ (∀ issued, issued = registered ∨ issued = loggedIn →
       get_auth_verify JWT_SECRET
         (Some ("Bearer " +:+ jwt_sign id username JWT_SECRET 604800 issued))
         clock db'
       = Outcome db' []
           (if clock <? issued + 604800
            then Response 200 (JObj [("valid", JBool true); ("user", user)])
            else Response 401 (JObj [("error", JStr "Token expired");
                                     ("message", JStr "Please login again")]))).
Proof.
  intros Hu Hp Htext Hfits Hseq Hfresh id db' login user.
  assert (Hdb' : db' = with_users db
            (users db ++ [UserRow id username (bcrypt_hash password 10 salt)
                            registered None None None None (Some true)])
            (id + 1)).
  { unfold db', post_auth_register.
    rewrite (length_truthy username 2), (length_truthy password 5) by done.
    simpl. apply Nat.ltb_ge in Hu, Hp. rewrite Hu, Hp.
    rewrite insert_user_fresh by (done || lia). done. }
  change 604800 with expiresIn_7d. split.
  - unfold login, post_auth_login.
    rewrite (length_truthy username 2), (length_truthy password 5) by done.
    simpl. rewrite Hdb' at 1. unfold select_users_by_username.
    cbn [users with_users].
    rewrite filter_app, (filter_not_Exists _ _ Hfresh).
    rewrite filter_cons_True by done. simpl.
    by rewrite bcrypt_compare_hash.
  - intros issued _. apply get_auth_verify_token. unfold id. lia.
Qed.

(** Failed logins look alike.  For a non-empty password and a
    non-empty username without U+0000, [POST /auth/login] gives the
    same answer, 401 [invalid credentials], whether no user has that
    username or the password does not match the stored hash; a username
    with U+0000 that no user has is refused by the server and answered
    500 [Failed to login].  Nothing changes either way. *)
Theorem login_failures_look_alike (db : database) (username password : string)
  (clock : Z) :
  truthy username = true →
  truthy password = true →
  (¬ Exists (λ u, u_username u = username) (users db)
   ∨ ∃ row rest,
       filter (λ u, u_username u = username) (users db) = row :: rest
       ∧ bcrypt_compare password (u_password_hash row) = false) →
  let out := post_auth_login JWT_SECRET (Some username) (Some password) clock
               db in
  (valid_text username = true →
   out = Outcome db [] (Response 401 (error_body "invalid credentials")))
  ∧ (valid_text username = false →
     ¬ Exists (λ u, u_username u = username) (users db) →
     out = Outcome db [] (Response 500 (error_body "Failed to login"))).
Proof.
  intros Hu Hp Hfail out. unfold out, post_auth_login. rewrite Hu, Hp. simpl.
  split.
  - intros Htext. destruct Hfail as [Hnone | (row & rest & Hf & Hcmp)].
    + by rewrite (select_users_by_username_None _ _ Hnone), Htext.
    + unfold select_users_by_username. by rewrite Hf, Hcmp.
  - intros Htext Hnone.
    by rewrite (select_users_by_username_None _ _ Hnone), Htext.
Qed.

(** Validation comes first in [POST /auth/register]: the answer is 400
    exactly when the username or the password is missing, empty, or
    shorter than 3, respectively 6, characters; a 400 leaves the store,
    its sequence included, as it was. *)
Theorem register_validation (db : database) (username password : option string)
  (salt : string) (clock : Z) :
  let out := post_auth_register JWT_SECRET username password salt clock db in
  (status (out_response out) = 400 ↔ ¬ valid_registration username password)
  ∧ (status (out_response out) = 400 → out_db out = db).
Proof.
  unfold valid_registration, post_auth_register.
  destruct username as [u |], password as [p |]; simpl;
    try (split; [split; [intros _ (? & ? & _); discriminate | done] | done]).
  destruct (truthy u) eqn:Hu, (truthy p) eqn:Hp; simpl;
    try (split; [split; [intros _ (? & ? & _); discriminate | done] | done]).
  destruct (Nat.ltb_spec (String.length u) 3) as [Hlu | Hlu]; simpl;
    [split; [split; [intros _ (_ & _ & ? & _); lia | done] | done] |].
  destruct (Nat.ltb_spec (String.length p) 6) as [Hlp | Hlp]; simpl;
    [split; [split; [intros _ (_ & _ & _ & ?); lia | done] | done] |].
  destruct (insert_user db u (bcrypt_hash p 10 salt) clock)
    as [db' [user | err]]; [| case_match]; simpl;
    (split; [split; [discriminate | intros Hinvalid; by destruct Hinvalid]
            | discriminate]).
Qed.

End Sessions.
(** ** Passwords: change and demo account *)


Section Passwords.
Context {jwt : Jsonwebtoken} {bcrypt : Bcryptjs}.
Variable JWT_SECRET : string.

(** [POST /auth/change-password] with the right current password.  For
    a caller whose row exists and whose current password matches, any
    non-empty new password is accepted (no minimum length is checked
    here, unlike at registration and reset): the answer is 200, the
    rows with the caller's id now hold a hash of the new password, and
    the other rows and all usernames are as before. *)
Theorem change_password_accepts_any_new (db : database)
  (authorization : option string) (currentPassword newPassword salt : string)
  (clock : Z) (user : identity) (row : user_row) (rest : list user_row) :
  authRequired JWT_SECRET authorization clock = Next user →
  select_users_by_id db (user_id user) = row :: rest →
  truthy currentPassword = true →
  truthy newPassword = true →
  bcrypt_compare currentPassword (u_password_hash row) = true →
  let out := post_auth_change_password JWT_SECRET authorization
               (Some currentPassword) (Some newPassword) salt clock db in
  out_response out
  = Response 200 (JObj [("success", JBool true);
                        ("message", JStr "Password changed successfully")])
  ∧ (∀ u, u ∈ users (out_db out) → u_id u = user_id user →
          bcrypt_compare newPassword (u_password_hash u) = true)
  ∧ (∀ u, u ∈ users db → u_id u ≠ user_id user → u ∈ users (out_db out))
  ∧ map u_username (users (out_db out)) = map u_username (users db)
  ∧ tasks (out_db out) = tasks db.
Proof.
  intros Hauth Hsel Hcur Hnew Hcmp out.
  assert (Hout : out = Outcome
            (update_password_by_id db (bcrypt_hash newPassword 10 salt)
               (user_id user)) []
            (res_json (JObj [("success", JBool true);
                             ("message", JStr "Password changed successfully")]))).
  { unfold out, post_auth_change_password, with_authRequired.
    by rewrite Hauth, Hcur, Hnew, Hsel, Hcmp. }
  rewrite Hout. simpl. split; [done |]. split; [| split; [| split; [| done]]].
  - intros u Hin Hid. apply list_elem_of_fmap in Hin as (u' & -> & _).
    case_bool_decide as Hu'; [apply bcrypt_compare_hash | done].
  - intros u Hin Hid. apply list_elem_of_fmap. exists u.
    by rewrite bool_decide_eq_false_2.
  - rewrite map_map. apply map_ext. intros u. by case_bool_decide.
Qed.

(** [POST /auth/change-password] is guarded: it answers 200 only to a
    request whose token verifies and whose current password matches the
    hash of the caller's row, and every other answer leaves the store
    as it was. *)
Theorem change_password_guarded (db : database) (authorization : option string)
  (currentPassword newPassword : option string) (salt : string) (clock : Z) :
  let out := post_auth_change_password JWT_SECRET authorization
               currentPassword newPassword salt clock db in
  (status (out_response out) = 200 →
   ∃ user current row rest,
     authRequired JWT_SECRET authorization clock = Next user
     ∧ currentPassword = Some current
     ∧ select_users_by_id db (user_id user) = row :: rest
     ∧ bcrypt_compare current (u_password_hash row) = true)
  ∧ (status (out_response out) ≠ 200 → out_db out = db ∧ out_emits out = []).
Proof.
  unfold post_auth_change_password, with_authRequired.
  destruct (authRequired JWT_SECRET authorization clock) as [resp | user]
    eqn:Hauth; simpl.
  { split; [| done].
    rewrite (authRequired_Respond_401 _ _ _ _ Hauth). discriminate. }
  destruct currentPassword as [current |], newPassword as [new |]; simpl;
    try (split; [discriminate | done]).
  destruct (negb (truthy current) || negb (truthy new)); simpl;
    [split; [discriminate | done] |].
  destruct (select_users_by_id db (user_id user)) as [| row rest] eqn:Hsel;
    simpl; [split; [discriminate | done] |].
  destruct (bcrypt_compare current (u_password_hash row)) eqn:Hcmp; simpl;
    [| split; [discriminate | done]].
  split; [| done]. intros _. by exists user, current, row, rest.
Qed.


End Passwords.

(** ** Tasks: create, read, update, delete *)

Lemma with_tasks_same (db : database) :
  with_tasks db (tasks db) (tasks_id_seq db) = db.
Proof. by destruct db. Qed.

Lemma trim_truthy (s : string) : truthy (trim s) = true → truthy s = true.
Proof. by destruct s. Qed.

Lemma filter_none {A} (P : A → Prop) `{!∀ x, Decision (P x)} (l : list A) :
  ¬ Exists P l → filter (λ x, ¬ P x) l = l.
Proof.
  induction l as [| x l IH]; [done |]. intros Hnot.
  rewrite filter_cons_True; [f_equal; apply IH |]; intros Hx; apply Hnot;
    by constructor.
Qed.

Lemma map_t_id_update (P : task_row → Prop) `{!∀ t, Decision (P t)}
  (f : task_row → task_row) (l : list task_row) :
  (∀ t, t_id (f t) = t_id t) →
  map t_id (map (λ t, if bool_decide (P t) then f t else t) l) = map t_id l.
Proof.
  intros Hf. rewrite map_map. apply map_ext. intros t.
  by case_bool_decide.
Qed.

(** Digits are neither white space nor a sign nor the mark of a base. *)
Lemma digit_char (c : ascii) (d : N) :
  digit_value 10 c = Some d →
  is_space c = false
  ∧ Ascii.eqb c "-" = false ∧ Ascii.eqb c "+" = false
  ∧ Ascii.eqb c "x" = false ∧ Ascii.eqb c "X" = false
  ∧ Ascii.eqb c "o" = false ∧ Ascii.eqb c "O" = false
  ∧ Ascii.eqb c "b" = false ∧ Ascii.eqb c "B" = false.
Proof.
  destruct c as [[] [] [] [] [] [] [] []]; vm_compute; intros Hd;
    first [discriminate Hd | repeat split].
Qed.

Lemma trim_digits (acc : N) (s : string) (n : N) :
  digits_from 10 acc s = Some n → trim_start s = s ∧ trim_end s = s.
Proof.
  revert acc. induction s as [| c s IH]; intros acc Hs; [done |].
  cbn [digits_from] in Hs.
  destruct (digit_value 10 c) as [d |] eqn:Hd; [| discriminate Hs].
  destruct (digit_char c d Hd) as (Hsp & _).
  destruct (IH _ Hs) as [_ Hend].
  cbn [trim_start trim_end]. by rewrite Hsp, Hend.
Qed.

Lemma trim_cons (c : ascii) (s : string) :
  is_space c = false → trim_end s = s → trim (String c s) = String c s.
Proof.
  intros Hc Hs. unfold trim. cbn [trim_start]. rewrite Hc.
  cbn [trim_end]. by rewrite Hc, Hs.
Qed.

(** [Number] reads the decimal numeral of an [INTEGER] back. *)
Lemma Number_pretty (z : Z) : int4 z → Number (pretty z) = Some z.
Proof.
  intros Hz. unfold int4 in Hz.
  assert (Hnum : integer_numeral (pretty z) = Some z).
  { unfold integer_numeral. destruct z as [| q | q].
    - reflexivity.
    - change (pretty (Z.pos q)) with (pretty (N.pos q)).
      pose proof (digits_pretty (N.pos q)) as Hd.
      destruct (pretty (N.pos q)) as [| c ds] eqn:Hs; [discriminate Hd |].
      destruct (trim_digits 0 (String c ds) (N.pos q) Hd) as [Hstart Hend].
      unfold trim. rewrite Hstart, Hend. cbv zeta beta iota.
      pose proof Hd as Hc. cbn [digits digits_from] in Hc.
      destruct (digit_value 10 c) as [d |] eqn:Hdc; [| discriminate Hc].
      destruct (digit_char c d Hdc) as (_ & -> & -> & _).
      destruct ds as [| r ds']; [by rewrite Hd |].
      cbn [digits_from] in Hc.
      destruct (digit_value 10 r) as [d' |] eqn:Hdr; [| discriminate Hc].
      destruct (digit_char r d' Hdr)
        as (_ & _ & _ & -> & -> & -> & -> & -> & ->).
      rewrite !andb_false_r. by rewrite Hd.
    - change (pretty (Z.neg q)) with (String "-" (pretty (N.pos q))).
      pose proof (digits_pretty (N.pos q)) as Hd.
      assert (Hfrom : digits_from 10 0 (pretty (N.pos q)) = Some (N.pos q)).
      { destruct (pretty (N.pos q)); [discriminate Hd | exact Hd]. }
      destruct (trim_digits 0 _ _ Hfrom) as [_ Hend].
      rewrite (trim_cons "-" _ eq_refl Hend).
      cbv zeta beta iota. rewrite Ascii.eqb_refl. by rewrite Hd. }
  unfold Number. rewrite Hnum.
  destruct (Z.leb_spec (Z.abs z) 9007199254740992); [done | lia].
Qed.

Lemma valid_text_trim (s : string) :
  valid_text s = true → valid_text (trim s) = true.
Proof.
  assert (Hstart : ∀ s, valid_text s = true → valid_text (trim_start s) = true).
  { intros s'. induction s' as [| c s' IH]; [done |]. intros Hs.
    cbn [trim_start]. destruct (is_space c); [| done].
    apply IH. simpl in Hs. by apply andb_prop in Hs as [_ ?]. }
  assert (Hend : ∀ s, valid_text s = true → valid_text (trim_end s) = true).
  { intros s'. induction s' as [| c s' IH]; [done |]. intros Hs.
    cbn [trim_end]. simpl in Hs. apply andb_prop in Hs as [Hc Hs].
    destruct (is_space c && negb (truthy (trim_end s'))); [done |].
    simpl. by rewrite Hc, IH. }
  intros Hs. unfold trim. by apply Hend, Hstart.
Qed.

Lemma read_or_null (input : string → option string) (x y : field string) :
  read_field input x = Some y → read input (or_null x) = Some (or_null y).
Proof.
  destruct x as [| | a]; simpl; try (by intros [= <-]).
  destruct (input a); simpl; [by intros [= <-] | discriminate].
Qed.

Lemma binds_nullish (x : field string) (d : string) :
  valid_text d = true →
  binds valid_text (or_null x) = true → valid_text (nullish x d) = true.
Proof. by destruct x. Qed.

Section Tasks.
Context {jwt : Jsonwebtoken} {bcrypt : Bcryptjs} {pg : Postgres}.
Variable JWT_SECRET : string.

(** What [POST /tasks] stores for an accepted request. *)
Lemma post_tasks_accepted authorization b title date time clock db user :
  authRequired JWT_SECRET authorization clock = Next user →
  b_title b = Val title →
  truthy (trim title) = true →
  body_taken b date time →
  tasks_id_seq db ≤ 2147483647 →
  Exists (λ u, u_id u = user_id user) (users db) →
  post_tasks JWT_SECRET authorization b clock db
  = let task :=
      TaskRow (tasks_id_seq db) (trim title) (nullish (b_status b) "pending")
        (or_null (b_description b)) (Some (nullish (b_priority b) "medium"))
        (or_null date) (Some clock) (Some clock)
        (Some (nullish (b_category b) "own")) (or_null time)
        (Some (user_id user)) (Some (nullish (b_type b) "work"))
        (or_null (b_project_id b)) (Some (Boolean (b_important b)))
        (or_null (b_assigned_to b)) in
    Outcome (with_tasks db (tasks db ++ [task]) (tasks_id_seq db + 1))
      [Emission (user_room (user_id user))
         (Message "task_created" (task_json task))]
      (res_json (task_json task)).
Proof.
  intros Hauth Htitle Htrim (Hbinds & Hdate & Htime) Hseq Hfk.
  unfold post_tasks, with_authRequired. rewrite Hauth, Htitle.
  rewrite (trim_truthy _ Htrim), Htrim. simpl.
  unfold body_binds in Hbinds. rewrite Htitle in Hbinds.
  repeat (apply andb_prop in Hbinds as [Hbinds ?]). simpl in Hbinds.
  unfold insert_task.
  rewrite (valid_text_trim _ Hbinds), !binds_nullish by done.
  repeat match goal with H : binds _ _ = true |- _ => rewrite H; clear H end.
  simpl. rewrite (read_or_null _ _ _ Hdate), (read_or_null _ _ _ Htime).
  destruct (Z.ltb_spec 2147483647 (tasks_id_seq db)); [lia |].
  by rewrite bool_decide_eq_true_2.
Qed.

(** The three fields of a task every reader can check. *)
Lemma task_json_fields (t : task_row) :
  json_field "id" (task_json t) = Some (JNum (t_id t))
  ∧ json_field "title" (task_json t) = Some (JStr (t_title t))
  ∧ json_field "user_id" (task_json t) = Some (json_opt JNum (t_user_id t)).
Proof. done. Qed.

(** Create, then list.  For a body the server takes, a non-blank title
    and an id left in the sequence, a task created through [POST
    /tasks] is owned by the caller whatever the body says, carries the
    trimmed title and the next id of the sequence, and takes the
    defaults [pending], [medium], [own], [work] for a status, priority,
    category or type that is missing or [null]; the response writes its
    id, title and owner.  [GET /tasks] without filters then lists it
    for a request made with the creator's identity, and for no other
    identity. *)
Theorem created_task_is_listed (db : database) (authorization : option string)
  (b : task_body) (title : string) (date time : field string) (clock : Z)
  (user : identity) :
  authRequired JWT_SECRET authorization clock = Next user →
  b_title b = Val title →
  truthy (trim title) = true →
  body_taken b date time →
  tasks_id_seq db ≤ 2147483647 →
  Exists (λ u, u_id u = user_id user) (users db) →
  let out := post_tasks JWT_SECRET authorization b clock db in
  ∃ task,
    out_response out = Response 200 (task_json task)
    ∧ tasks (out_db out) = tasks db ++ [task]
    ∧ t_id task = tasks_id_seq db
    ∧ t_user_id task = Some (user_id user)
    ∧ t_title task = trim title
    ∧ t_status task = nullish (b_status b) "pending"
    ∧ t_priority task = Some (nullish (b_priority b) "medium")
    ∧ t_category task = Some (nullish (b_category b) "own")
    ∧ t_type task = Some (nullish (b_type b) "work")
    ∧ t_due_date task = or_null date
    ∧ t_due_time task = or_null time
    ∧ json_field "id" (body (out_response out)) = Some (JNum (tasks_id_seq db))
    ∧ json_field "title" (body (out_response out)) = Some (JStr (trim title))
    ∧ json_field "user_id" (body (out_response out))
      = Some (JNum (user_id user))
    ∧ ∀ authorization' clock' reader,
        authOptional JWT_SECRET authorization' clock' = Some reader →
        ∃ rows,
          out_response
            (get_tasks JWT_SECRET authorization' no_filter clock' (out_db out))
          = Response 200 (JArr (map task_json rows))
          ∧ (task ∈ rows ↔ user_id reader = user_id user).
Proof.
  intros Hauth Htitle Htrim Htaken Hseq Hfk out. unfold out.
  rewrite (post_tasks_accepted _ _ _ _ _ _ _ _ Hauth Htitle Htrim Htaken
             Hseq Hfk).
  cbv zeta. eexists. split; [reflexivity |]. split; [reflexivity |].
  do 12 (split; [reflexivity |]).
  intros authorization' clock' reader Hreader.
  unfold get_tasks, select_tasks. rewrite Hreader.
  cbn [tasks_where no_filter q_status q_priority q_category
    q_type q_project_id q_important q_q push_if app where_binds forallb
    cond_binds andb].
  eexists. split; [reflexivity |].
  rewrite order_by_perm.
  rewrite list_elem_of_filter. cbn [out_db tasks with_tasks].
  unfold where_holds. cbn [forallb cond_holds t_user_id].
  rewrite andb_true_r, bool_decide_eq_true. split.
  - by intros [[= ->] _].
  - intros ->. split; [done |]. apply elem_of_app. right. by constructor.
Qed.

(** A task of another user is "not found".  When the id of the path is
    read as an integer and no row has that id and the caller as its
    owner, be it that the id is unknown or that the task belongs to
    someone else, [PUT /tasks/:id] (with something to update, in a body
    the server takes) and [DELETE /tasks/:id] answer 404 [Task not
    found]; when the id is not read as an integer (no numeral, or out
    of range) they answer 500.  Either way nothing changes and nothing
    is published. *)
Theorem foreign_task_not_found (db : database) (authorization : option string)
  (id : string) (b : task_body) (clock : Z) (user : identity) :
  authRequired JWT_SECRET authorization clock = Next user →
  nothing_to_update b = false →
  (∀ n date time,
     int4in id = Some n →
     ¬ Exists (task_is n (user_id user)) (tasks db) →
     (body_taken b date time →
      put_tasks_id JWT_SECRET authorization id b clock db
      = Outcome db [] (Response 404 (error_body "Task not found")))
     ∧ delete_tasks_id JWT_SECRET authorization id clock db
       = Outcome db [] (Response 404 (error_body "Task not found")))
  ∧ (int4in id = None →
     put_tasks_id JWT_SECRET authorization id b clock db
     = Outcome db [] (Response 500 (error_body "Failed to update task"))
     ∧ delete_tasks_id JWT_SECRET authorization id clock db
       = Outcome db [] (Response 500 (error_body "Failed to delete task"))).
Proof.
  intros Hauth Hb.
  unfold put_tasks_id, delete_tasks_id, with_authRequired.
  rewrite Hauth, Hb. unfold update_task, delete_task. split.
  - intros n date time Hid Hnone. rewrite Hid. split.
    + intros (-> & -> & ->). simpl.
      by rewrite (filter_not_Exists _ _ Hnone).
    + rewrite (filter_not_Exists _ _ Hnone), (filter_none _ _ Hnone).
      by rewrite with_tasks_same.
  - intros ->. split; [| done].
    destruct (negb (body_binds b)); [done |].
    by destruct (read_field date_in (b_due_date b)),
      (read_field time_in (b_due_time b)).
Qed.

(** [PUT /tasks/:id] never moves a task: whatever the request, the ids,
    the owners and the creation times of the rows, their number and
    order, the sequence and the users are as before. *)
Theorem put_keeps_identity (db : database) (authorization : option string)
  (id : string) (b : task_body) (clock : Z) :
  let db' := out_db (put_tasks_id JWT_SECRET authorization id b clock db) in
  map t_id (tasks db') = map t_id (tasks db)
  ∧ map t_user_id (tasks db') = map t_user_id (tasks db)
  ∧ map t_created_at (tasks db') = map t_created_at (tasks db)
  ∧ tasks_id_seq db' = tasks_id_seq db
  ∧ users db' = users db.
Proof.
  unfold put_tasks_id, with_authRequired.
  destruct (authRequired JWT_SECRET authorization clock); [done |].
  destruct (nothing_to_update b); [done |].
  destruct (update_task_cases db b id (user_id a) clock)
    as [(c & -> & [-> | [e ->]]) | (n & dd & dt & row & rows & _ & _ & ->)];
    simpl; try done.
  repeat split; rewrite map_map; apply map_ext; intros ?;
    by case_bool_decide.
Qed.

(** [PUT /tasks/:id] does not validate the title.  [POST /tasks]
    rejects a title that is empty or blank with 400, but [PUT], for a
    body the server takes, stores any title it is given, the empty one
    included, untrimmed, on the caller's task, and stamps
    [updated_at]. *)
Theorem put_title_unvalidated (db : database) (authorization : option string)
  (id : string) (n : Z) (b : task_body) (title : string)
  (date time : field string) (clock : Z) (user : identity) :
  authRequired JWT_SECRET authorization clock = Next user →
  int4in id = Some n →
  Exists (task_is n (user_id user)) (tasks db) →
  b_title b = Val title →
  is_null (b_status b) = false →
  body_taken b date time →
  (truthy (trim title) = false →
   out_response (post_tasks JWT_SECRET authorization b clock db)
   = Response 400 (error_body "Title is required"))
  ∧ status (out_response (put_tasks_id JWT_SECRET authorization id b clock db))
    = 200
  ∧ ∀ t, t ∈ tasks (out_db (put_tasks_id JWT_SECRET authorization id b clock db)) →
         task_is n (user_id user) t →
         t_title t = title ∧ t_updated_at t = Some clock.
Proof.
  intros Hauth Hid Hex Htitle Hstatus (Hbinds & Hdate & Htime).
  assert (Hsome : nothing_to_update b = false).
  { unfold nothing_to_update. rewrite Htitle. simpl. by rewrite andb_false_r. }
  split.
  { intros Hblank. unfold post_tasks, with_authRequired.
    rewrite Hauth, Htitle, Hblank. simpl. by rewrite orb_true_r. }
  unfold put_tasks_id, with_authRequired, update_task.
  rewrite Hauth, Hsome, Hbinds, Hdate, Htime, Hid, Htitle, Hstatus. simpl.
  destruct (filter_Exists_cons _ _ Hex) as (hit & hits & ->).
  simpl. split; [done |]. intros t Hin Ht.
  apply list_elem_of_fmap in Hin as (t0 & -> & Hin0).
  case_bool_decide as Ht0.
  - unfold set_fields. simpl. by rewrite Htitle.
  - destruct Ht as [Hid' Hown]. by destruct Ht0.
Qed.

End Tasks.

(** ** Task ids and bulk actions *)

Lemma task_ids_fresh_sublist (db db' : database) :
  map t_id (tasks db') `sublist_of` map t_id (tasks db) →
  tasks_id_seq db ≤ tasks_id_seq db' →
  task_ids_fresh db → task_ids_fresh db'.
Proof.
  intros Hsub Hseq [Hlt Hnodup]. split.
  - apply Forall_forall. intros t Ht.
    assert (Hin : t_id t ∈ map t_id (tasks db)).
    { eapply elem_of_sublist; [| exact Hsub].
      apply list_elem_of_fmap. by exists t. }
    apply list_elem_of_fmap in Hin as (t0 & Hid & Hin0).
    rewrite Forall_forall in Hlt. specialize (Hlt _ Hin0). lia.
  - by eapply sublist_NoDup.
Qed.

Lemma task_ids_fresh_append (db : database) (t : task_row) :
  t_id t = tasks_id_seq db →
  task_ids_fresh db →
  task_ids_fresh (with_tasks db (tasks db ++ [t]) (tasks_id_seq db + 1)).
Proof.
  intros Hid [Hlt Hnodup]. split; simpl.
  - apply Forall_app. split; [| repeat constructor; lia].
    eapply Forall_impl; [exact Hlt |]. simpl. intros row Hrow. lia.
  - rewrite map_app. apply NoDup_app. split; [done |]. split.
    + intros i Hi. simpl. rewrite list_elem_of_singleton. intros ->.
      apply list_elem_of_fmap in Hi as (row & Hrow & Hin).
      rewrite Forall_forall in Hlt. specialize (Hlt _ Hin). lia.
    + apply NoDup_singleton.
Qed.

Lemma fresh_not_Exists (db : database) (uid : Z) :
  task_ids_fresh db → ¬ Exists (task_is (tasks_id_seq db) uid) (tasks db).
Proof.
  intros [Hlt _] Hex. apply Exists_exists in Hex as (t & Hin & Hid & _).
  rewrite Forall_forall in Hlt. specialize (Hlt _ Hin). lia.
Qed.

Section TaskIds.
Context {jwt : Jsonwebtoken} {bcrypt : Bcryptjs} {pg : Postgres}.
Variable JWT_SECRET : string.

Lemma handle_task_ids_fresh r salt clock db :
  task_ids_fresh db →
  task_ids_fresh (out_db (handle JWT_SECRET r salt clock db))
  ∧ tasks_id_seq db ≤ tasks_id_seq (out_db (handle JWT_SECRET r salt clock db)).
Proof.
  intros Hdb.
  assert (Hsame : ∀ db', tasks db' = tasks db →
                         tasks_id_seq db' = tasks_id_seq db →
                         task_ids_fresh db'
                         ∧ tasks_id_seq db ≤ tasks_id_seq db').
  { intros db' Ht Hs. split; [| lia].
    apply (task_ids_fresh_sublist db); [by rewrite Ht | lia | done]. }
  assert (Hsub : ∀ ts, map t_id ts `sublist_of` map t_id (tasks db) →
                       task_ids_fresh (with_tasks db ts (tasks_id_seq db))
                       ∧ tasks_id_seq db
                         ≤ tasks_id_seq (with_tasks db ts (tasks_id_seq db))).
  { intros ts Hts. split; [| simpl; lia].
    apply (task_ids_fresh_sublist db); [done | simpl; lia | done]. }
  destruct r; simpl.
  - unfold post_auth_register, insert_user.
    repeat case_match; simplify_eq; by apply Hsame.
  - unfold post_auth_login. repeat case_match; by apply Hsame.
  - unfold get_auth_verify, with_authRequired. case_match; by apply Hsame.
  - unfold post_auth_reset_password. repeat case_match; by apply Hsame.
  - unfold get_tasks. case_match; by apply Hsame.
  - unfold post_tasks, with_authRequired.
    destruct (authRequired JWT_SECRET authorization clock) as [resp | user];
      [by apply Hsame |].
    destruct (b_title b) as [| | title]; try by apply Hsame.
    destruct (negb (truthy title) || negb (truthy (trim title)));
      [by apply Hsame |].
    match goal with
    | |- context [insert_task ?db ?a1 ?a2 ?a3 ?a4 ?a5 ?a6 ?a7 ?a8 ?a9 ?a10
                    ?a11 ?a12 ?a13] =>
        destruct (insert_task_cases db a1 a2 a3 a4 a5 a6 a7 a8 a9 a10 a11
                    a12 a13)
          as [[e ->] | [[e ->] | (date & time & -> & _)]]
    end; simpl.
    + by apply Hsame.
    + split; [| simpl; lia].
      apply (task_ids_fresh_sublist db); [done | simpl; lia | done].
    + split; [by apply task_ids_fresh_append | simpl; lia].
  - unfold put_tasks_id, with_authRequired.
    destruct (authRequired JWT_SECRET authorization clock) as [resp | user];
      [by apply Hsame |].
    destruct (nothing_to_update b); [by apply Hsame |].
    destruct (update_task_cases db b id (user_id user) clock)
      as [(c & -> & [-> | [e ->]]) | (n & dd & dt & row & rows & _ & _ & ->)];
      simpl; try by apply Hsame.
    apply Hsub. by rewrite map_t_id_update.
  - unfold delete_tasks_id, with_authRequired.
    destruct (authRequired JWT_SECRET authorization clock) as [resp | user];
      [by apply Hsame |].
    destruct (delete_task_cases db id (user_id user))
      as [[e ->] | (n & _ & ->)]; [by apply Hsame |].
    destruct (length (filter (task_is n (user_id user)) (tasks db))); simpl;
      apply Hsub, fmap_sublist, sublist_filter.
  - unfold post_tasks_clear_completed, with_authRequired, delete_done_tasks.
    case_match; simpl; [by apply Hsame |].
    apply Hsub, fmap_sublist, sublist_filter.
  - unfold post_tasks_mark_all_done, with_authRequired, mark_tasks_done.
    case_match; simpl; [by apply Hsame |].
    apply Hsub. by rewrite map_t_id_update.
Qed.

(** Task ids are unique and never reused.  If every task id is below
    the sequence and no two rows share an id, the same holds after any
    run of the server, and the sequence never decreases: an id freed by
    a deletion is not given out again. *)
Theorem task_ids_stay_fresh (tr : list occurrence) (srv : server) :
  task_ids_fresh (srv_db srv) →
  task_ids_fresh (srv_db (run JWT_SECRET tr srv))
  ∧ tasks_id_seq (srv_db srv) ≤ tasks_id_seq (srv_db (run JWT_SECRET tr srv)).
Proof.
  revert srv. induction tr as [| o tr IH]; intros srv Hsrv;
    [split; [done | simpl; lia] |].
  assert (Hstep : task_ids_fresh (srv_db (step JWT_SECRET o srv))
                  ∧ tasks_id_seq (srv_db srv)
                    ≤ tasks_id_seq (srv_db (step JWT_SECRET o srv))).
  { unfold step. destruct (what o); simpl; try (split; [done | lia]).
    - destruct (is_connected _ _); split; done || lia.
    - by apply handle_task_ids_fresh. }
  destruct Hstep as [Hfresh Hle].
  destruct (IH _ Hfresh) as [Hfresh' Hle']. split; [exact Hfresh' |].
  simpl in *. lia.
Qed.

(** Create, then delete.  On a store with fresh task ids, for a body
    the server takes and an id left in the sequence, deleting the task
    just created (by its creator, under the decimal numeral of its id)
    answers 200, publishes [task_deleted] with that id into the
    creator's room and restores the list of tasks exactly; deleting it
    once more answers 404. *)
Theorem create_then_delete (db : database) (authorization : option string)
  (b : task_body) (title : string) (date time : field string)
  (created deleted : Z) (user : identity) :
  task_ids_fresh db →
  authRequired JWT_SECRET authorization created = Next user →
  authRequired JWT_SECRET authorization deleted = Next user →
  b_title b = Val title →
  truthy (trim title) = true →
  body_taken b date time →
  int4 (tasks_id_seq db) →
  Exists (λ u, u_id u = user_id user) (users db) →
  let id := tasks_id_seq db in
  let db1 := out_db (post_tasks JWT_SECRET authorization b created db) in
  let out := delete_tasks_id JWT_SECRET authorization (pretty id) deleted db1 in
  out_response out = Response 200 (JObj [("success", JBool true)])
  ∧ out_emits out
    = [Emission (user_room (user_id user))
         (Message "task_deleted" (JObj [("id", JNum id)]))]
  ∧ tasks (out_db out) = tasks db
  ∧ out_response
      (delete_tasks_id JWT_SECRET authorization (pretty id) deleted (out_db out))
    = Response 404 (error_body "Task not found").
Proof.
  intros Hfresh Hc Hd Htitle Htrim Htaken Hid Hfk id db1 out.
  pose proof (fresh_not_Exists db (user_id user) Hfresh) as Hnone.
  pose proof Hid as [_ Hmax].
  unfold out, db1, id. clear out db1 id.
  rewrite (post_tasks_accepted _ _ _ _ _ _ _ _ _ Hc Htitle Htrim Htaken
             Hmax Hfk).
  cbv zeta. unfold delete_tasks_id, with_authRequired. rewrite Hd.
  unfold delete_task. rewrite (int4in_decimal _ Hid), (Number_pretty _ Hid).
  cbn [out_db tasks with_tasks tasks_id_seq].
  rewrite !filter_app, (filter_not_Exists _ _ Hnone), (filter_none _ _ Hnone).
  rewrite filter_cons_True by (by split).
  rewrite filter_cons_False by (intros Hn; by apply Hn).
  rewrite !filter_nil, app_nil_r. cbn [app length out_response out_emits out_db
    tasks with_tasks tasks_id_seq json_opt].
  split; [done |]. split; [done |]. split; [done |].
  rewrite (filter_not_Exists _ _ Hnone). reflexivity.
Qed.

Lemma clear_after_mark (uid clock : Z) (l : list task_row) :
  filter (λ t, ¬ (t_status t = "done" ∧ owned_by uid t))
    (map (λ t, if bool_decide (t_status t ≠ "done" ∧ owned_by uid t)
               then set_done clock t else t) l)
  = filter (λ t, ¬ owned_by uid t) l.
Proof.
  induction l as [| t l IH]; [reflexivity |]. simpl.
  destruct (decide (owned_by uid t)) as [Hown | Hown].
  - rewrite (filter_cons_False _ t) by (intros Hn; by apply Hn).
    rewrite filter_cons_False; [exact IH |].
    intros Hn. apply Hn. case_bool_decide as Hd; simpl; [done |].
    split; [| done]. destruct (decide (t_status t = "done")); [done |].
    by destruct Hd.
  - rewrite bool_decide_eq_false_2 by (by intros [_ ?]).
    rewrite !(filter_cons_True _ t); [by rewrite IH | done | by intros [_ ?]].
Qed.

(** Mark all done, then clear completed.  After [POST
    /tasks/mark-all-done] every task of the caller has status [done]
    and no row is added or removed; marking again changes no status;
    and [POST /tasks/clear-completed] then removes all of the caller's
    tasks and leaves the tasks of the other users, in their order. *)
Theorem mark_then_clear (db : database) (authorization : option string)
  (marked cleared : Z) (user : identity) :
  authRequired JWT_SECRET authorization marked = Next user →
  authRequired JWT_SECRET authorization cleared = Next user →
  let db1 := out_db (post_tasks_mark_all_done JWT_SECRET authorization
                       marked db) in
  let db2 := out_db (post_tasks_clear_completed JWT_SECRET authorization
                       cleared db1) in
  Forall (λ t, owned_by (user_id user) t → t_status t = "done") (tasks db1)
  ∧ map t_id (tasks db1) = map t_id (tasks db)
  ∧ tasks (out_db (post_tasks_mark_all_done JWT_SECRET authorization
                     cleared db1)) = tasks db1
  ∧ tasks db2 = filter (λ t, ¬ owned_by (user_id user) t) (tasks db).
Proof.
  intros Hm Hc db1 db2. unfold db2, db1.
  unfold post_tasks_mark_all_done, post_tasks_clear_completed,
    with_authRequired. rewrite Hm, Hc.
  cbn [out_db tasks with_tasks mark_tasks_done delete_done_tasks].
  split; [| split; [| split]].
  - apply Forall_fmap, Forall_forall. intros t _. simpl.
    case_bool_decide as Hd; [done |]. intros Hown.
    destruct (decide (t_status t = "done")); [done |]. by destruct Hd.
  - by apply map_t_id_update.
  - rewrite map_map. apply map_ext. intros t. simpl.
    destruct (decide (t_status t ≠ "done" ∧ owned_by (user_id user) t))
      as [Hd | Hd].
    + rewrite (bool_decide_eq_true_2 _ Hd).
      rewrite bool_decide_eq_false_2; [done |]. by intros [? _].
    + rewrite (bool_decide_eq_false_2 _ Hd).
      by rewrite (bool_decide_eq_false_2 _ Hd).
  - apply clear_after_mark.
Qed.

End TaskIds.

(** ** Connections without an identity, and connections that stay *)

Lemma filter_in_no_room (rooms : gset string) (emits : list emission) :
  rooms = ∅ → filter (λ e, to_room e ∈ rooms) emits = [].
Proof.
  intros ->. induction emits as [| e emits IH]; [done |].
  rewrite filter_cons_False; [done | apply not_elem_of_empty].
Qed.

Section Connections.
Context {jwt : Jsonwebtoken} {bcrypt : Bcryptjs} {pg : Postgres}.
Variable JWT_SECRET : string.

(** The sockets after one turn, input by input. *)
Lemma step_sockets o srv :
  srv_sockets (step JWT_SECRET o srv)
  = match what o with
    | Connection sid => on_connection sid (srv_sockets srv)
    | Authenticate sid token =>
        if is_connected sid (srv_sockets srv)
        then on_authenticate JWT_SECRET sid token (at_clock o) (srv_sockets srv)
        else srv_sockets srv
    | Disconnect sid => on_disconnect sid (srv_sockets srv)
    | Http r =>
        deliver
          (out_emits (handle JWT_SECRET r (with_salt o) (at_clock o) (srv_db srv)))
          (srv_sockets srv)
    end.
Proof. unfold step. destruct (what o); [done | | done | done]. by case_match. Qed.

Lemma step_no_rooms c o srv :
  (∀ s, srv_sockets srv !! c = Some s → sock_rooms s = ∅) →
  never_verifies JWT_SECRET c o →
  (∀ s', srv_sockets (step JWT_SECRET o srv) !! c = Some s' →
         sock_rooms s' = ∅)
  ∧ task_events_received c (step JWT_SECRET o srv)
    = task_events_received c srv.
Proof.
  intros Hnone Hnever. unfold task_events_received, never_verifies in *.
  rewrite step_sockets.
  destruct (what o) as [sid | sid token | sid | r].
  - unfold on_connection.
    destruct (srv_sockets srv !! sid) eqn:Hsid; [by split |].
    destruct (decide (sid = c)) as [-> | Hne].
    + rewrite lookup_insert_eq, Hsid. split; [by intros s' [= <-] | done].
    + by rewrite lookup_insert_ne.
  - destruct (is_connected sid (srv_sockets srv)); [| by split].
    destruct (decide (sid = c)) as [-> | Hne].
    + destruct (Hnever eq_refl) as [e Hv].
      rewrite (lookup_on_authenticate_Throw _ _ _ _ _ _ Hv).
      destruct (srv_sockets srv !! c) as [s |] eqn:Hs; simpl; [| by split].
      split; [intros s' [= <-]; simpl; by apply Hnone |].
      apply filter_task_event_app, ack_not_task_event.
    + by rewrite lookup_on_authenticate_ne.
  - unfold on_disconnect. destruct (decide (sid = c)) as [-> | Hne].
    + rewrite lookup_alter_eq.
      destruct (srv_sockets srv !! c) as [s |]; simpl; [| by split].
      split; [by intros s' [= <-] | done].
    + by rewrite lookup_alter_ne.
  - rewrite lookup_deliver.
    destruct (srv_sockets srv !! c) as [s |] eqn:Hs; simpl; [| by split].
    split.
    + intros s' [= <-]. rewrite receive_all_rooms. by apply Hnone.
    + rewrite receive_all_received.
      rewrite (filter_in_no_room _ _ (Hnone s eq_refl)). simpl.
      by rewrite app_nil_r.
Qed.

(** A connection without an identity receives no task event.  Along any
    run in which no token presented on connection [c] verifies, [c]
    joins no room and receives no [task_created], [task_updated] or
    [task_deleted], whatever the users do meanwhile; the same holds of
    a connection that is not open yet. *)
Theorem unauthenticated_receives_nothing (c : nat) (tr : list occurrence)
  (srv : server) :
  (∀ s, srv_sockets srv !! c = Some s → sock_rooms s = ∅) →
  Forall (never_verifies JWT_SECRET c) tr →
  (∀ s', srv_sockets (run JWT_SECRET tr srv) !! c = Some s' →
         sock_rooms s' = ∅)
  ∧ task_events_received c (run JWT_SECRET tr srv)
    = task_events_received c srv.
Proof.
  intros Hnone Htr. revert srv Hnone.
  induction Htr as [| o tr Ho Htr IH]; intros srv Hnone; [by split |].
  destruct (step_no_rooms c o srv Hnone Ho) as [Hnone' Hsame].
  destruct (IH _ Hnone') as [Hrooms Hrecv].
  split; [exact Hrooms |]. simpl. by rewrite Hrecv.
Qed.

Lemma step_keeps_membership c s o srv :
  srv_sockets srv !! c = Some s →
  stays_open c o →
  ∃ s', srv_sockets (step JWT_SECRET o srv) !! c = Some s'
        ∧ sock_rooms s ⊆ sock_rooms s'
        ∧ sock_connected s' = sock_connected s
        ∧ sock_received s `prefix_of` sock_received s'.
Proof.
  intros Hs Hstay. unfold stays_open in Hstay. rewrite step_sockets.
  destruct (what o) as [sid | sid token | sid | r].
  - exists s. by rewrite (lookup_on_connection_Some _ _ _ _ Hs).
  - destruct (is_connected sid (srv_sockets srv)); [| by exists s].
    destruct (decide (sid = c)) as [-> | Hne].
    + destruct (jwt_verify token JWT_SECRET (at_clock o)) as [payload | e]
        eqn:Hv.
      * rewrite (lookup_on_authenticate_Return _ _ _ _ _ _ Hv), Hs. simpl.
        eexists. split; [reflexivity |]. simpl.
        split; [apply union_subseteq_r |]. split; [done |].
        by apply prefix_app_r.
      * rewrite (lookup_on_authenticate_Throw _ _ _ _ _ _ Hv), Hs. simpl.
        eexists. split; [reflexivity |]. simpl.
        split; [done |]. split; [done |]. by apply prefix_app_r.
    + rewrite lookup_on_authenticate_ne by done. by exists s.
  - unfold on_disconnect. rewrite lookup_alter_ne by congruence. by exists s.
  - rewrite lookup_deliver, Hs. simpl. eexists. split; [reflexivity |].
    rewrite receive_all_rooms, receive_all_connected, receive_all_received.
    split; [done |]. split; [done |]. by apply prefix_app_r.
Qed.

(** Membership lasts as long as the connection.  Along any run that
    does not disconnect [c], at whatever times its inputs occur, [c]
    stays in every room it was in, stays open, and keeps what it has
    received: nothing in the server re-verifies a connection or removes
    it from a room when its token expires. *)
Theorem membership_persists (c : nat) (s : socket) (tr : list occurrence)
  (srv : server) :
  srv_sockets srv !! c = Some s →
  Forall (stays_open c) tr →
  ∃ s', srv_sockets (run JWT_SECRET tr srv) !! c = Some s'
        ∧ sock_rooms s ⊆ sock_rooms s'
        ∧ sock_connected s' = sock_connected s
        ∧ sock_received s `prefix_of` sock_received s'.
Proof.
  intros Hs Htr. revert srv s Hs.
  induction Htr as [| o tr Ho Htr IH]; intros srv s Hs; [by exists s |].
  destruct (step_keeps_membership c s o srv Hs Ho)
    as (s1 & Hs1 & Hrooms1 & Hopen1 & Hrecv1).
  destruct (IH _ _ Hs1) as (s' & Hs' & Hrooms' & Hopen' & Hrecv').
  exists s'. split; [exact Hs' |]. split; [by etrans |].
  split; [congruence | by etrans].
Qed.

End Connections.

(** ** The dynamic statements *)

Lemma push_set_built col v sb l :
  built sb l → built (push_set col v sb) (l ++ assignment col v).
Proof.
  intros (Hcl & Hval & Hidx). destruct v as [p |]; simpl;
    [| by rewrite app_nil_r].
  unfold built, push_set. simpl.
  rewrite imap_app, fmap_app, length_app, Hcl, Hval, Hidx. simpl.
  rewrite Nat.add_0_r, Nat.add_1_r. done.
Qed.

Lemma put_tasks_fields_built b :
  built (put_tasks_fields b) (put_tasks_assignments b).
Proof.
  unfold put_tasks_fields, put_tasks_assignments. cbv zeta.
  rewrite !app_assoc. repeat apply push_set_built.
  apply (push_set_built _ _ new_builder []). done.
Qed.

(** The placeholders of [PUT /tasks/:id] line up with its values.  For
    every body, the text sets the columns the body defines, in the
    order of the handler, the [k]-th as [col=$k], and the value bound
    to [$k] is the one the body gives that column; the two placeholders
    of the [WHERE] part follow, [id] first, and are bound to the id of
    the path, as the request wrote it, and to the caller's user id, the
    last two values. *)
Theorem put_tasks_sql_binds (b : task_body) (id : string) (uid : Z) :
  let sets := put_tasks_assignments b in
  (put_tasks_sql b id uid).1
  = "UPDATE tasks SET "
    +:+ join ", " (imap (λ k a, a.1 +:+ "=" +:+ placeholder (S k)) sets
                   ++ ["updated_at=NOW()"])
    +:+ " WHERE id=" +:+ placeholder (length sets + 1)
    +:+ " AND user_id=" +:+ placeholder (length sets + 2)
    +:+ " RETURNING *"
  ∧ (put_tasks_sql b id uid).2 = sets.*2 ++ [PText id; PInt uid]
  ∧ (put_tasks_sql b id uid).2 !! length sets = Some (PText id)
  ∧ (put_tasks_sql b id uid).2 !! S (length sets) = Some (PInt uid).
Proof.
  intros sets. unfold sets. clear sets.
  destruct (put_tasks_fields_built b) as (Hcl & Hval & Hidx).
  assert (Hvalues : (put_tasks_sql b id uid).2
                    = (put_tasks_assignments b).*2 ++ [PText id; PInt uid]).
  { unfold put_tasks_sql. cbv zeta. cbn [snd]. by rewrite Hval. }
  split.
  - unfold put_tasks_sql. cbv zeta. cbn [fst]. rewrite Hcl, Hidx.
    by rewrite Nat.add_1_r, (Nat.add_comm _ 2).
  - split; [exact Hvalues |]. rewrite Hvalues.
    rewrite !lookup_app_r by (rewrite length_fmap; lia).
    rewrite length_fmap.
    replace (length (put_tasks_assignments b)
             - length (put_tasks_assignments b))%nat with 0%nat by lia.
    by replace (S (length (put_tasks_assignments b))
                - length (put_tasks_assignments b))%nat with 1%nat by lia.
Qed.

Lemma push_set_same_text col v v' sb sb' :
  (v = None ↔ v' = None) →
  same_text sb sb' → same_text (push_set col v sb) (push_set col v' sb').
Proof.
  intros Hv [Hcl Hidx]. unfold same_text, push_set.
  destruct v as [p |], v' as [p' |]; simpl.
  - by rewrite Hcl, Hidx.
  - discriminate (proj2 Hv eq_refl).
  - discriminate (proj1 Hv eq_refl).
  - done.
Qed.

Lemma bound_None {A} (f : A → sql_param) (x x' : field A) :
  defined x = defined x' → (bound f x = None ↔ bound f x' = None).
Proof. by destruct x, x'. Qed.

(** The text of [PUT /tasks/:id] holds nothing of the request.  Two
    requests whose bodies define the same fields send the same query
    text, whatever the values of the fields, the id of the path and the
    caller: the values travel in the [values] array only. *)
Theorem put_tasks_sql_text_fixed (b b' : task_body) (id id' : string)
  (uid uid' : Z) :
  defined_fields b = defined_fields b' →
  (put_tasks_sql b id uid).1 = (put_tasks_sql b' id' uid').1.
Proof.
  unfold defined_fields. intros Hdef.
  injection Hdef as H1 H2 H3 H4 H5 H6 H7 H8 H9 H10 H11.
  assert (Hsame : same_text (put_tasks_fields b) (put_tasks_fields b')).
  { unfold put_tasks_fields. cbv zeta.
    repeat (apply push_set_same_text;
            [first [by apply bound_None
                   | rewrite H10; by destruct (defined (b_important b'))] |]).
    done. }
  destruct Hsame as [Hcl Hidx]. unfold put_tasks_sql. cbv zeta. cbn [fst].
  by rewrite Hcl, Hidx.
Qed.

Lemma where_sql_app i conds c :
  where_sql i (conds ++ [c])
  = where_sql i conds ++ [cond_sql c (i + length (omap cond_param conds))].
Proof.
  revert i. induction conds as [| c0 conds IH]; intros i; simpl.
  - by rewrite Nat.add_0_r.
  - rewrite IH. destruct (cond_param c0); simpl; [| done].
    by rewrite Nat.add_succ_r.
Qed.

Lemma tracks_push_where (clause : nat → string) c p sb conds :
  cond_param c = Some p →
  (∀ i, clause i = cond_sql c i) →
  tracks sb conds → tracks (push_where clause p sb) (conds ++ [c]).
Proof.
  intros Hc Hclause (Hcl & Hval & Hidx). unfold tracks, push_where. simpl.
  rewrite where_sql_app, omap_app, Hcl, Hval, Hclause, Hidx, Hval. simpl.
  rewrite Hc. simpl. rewrite length_app. simpl.
  split; [done |]. split; [done |]. lia.
Qed.

Lemma tracks_push_literal clause c sb conds :
  cond_param c = None →
  (∀ i, clause = cond_sql c i) →
  tracks sb conds → tracks (push_literal clause sb) (conds ++ [c]).
Proof.
  intros Hc Hclause (Hcl & Hval & Hidx). unfold tracks, push_literal. simpl.
  rewrite where_sql_app, omap_app, Hcl, Hval. simpl. rewrite Hc. simpl.
  rewrite app_nil_r, <- (Hclause (1 + length (omap cond_param conds)))%nat.
  split; [done |]. split; [done |]. by rewrite Hidx, Hval.
Qed.

Lemma tracks_nil_r sb conds : tracks sb conds → tracks sb (conds ++ []).
Proof. by rewrite app_nil_r. Qed.

Lemma tracks_push_eq col v (c : string → cond) sb conds :
  (∀ s, cond_param (c s) = Some (PText s)) →
  (∀ s i, col +:+ " = " +:+ placeholder i = cond_sql (c s) i) →
  tracks sb conds → tracks (push_eq col v sb) (conds ++ push_if v c).
Proof.
  intros Hc Hclause Htr. unfold push_eq, push_if.
  destruct v as [s |]; [| by apply tracks_nil_r].
  destruct (truthy s); [| by apply tracks_nil_r].
  by apply tracks_push_where.
Qed.

(** The text and the values of [GET /tasks] line up with its
    conditions.  For every caller and query, the [WHERE] part of the
    text is the conditions of the [where] array joined by [AND], the
    placeholders numbered in their order ([important] has none); the
    values are those of the conditions that have a placeholder, in the
    same order, as the request wrote them; and the column the text
    names after [ORDER BY] is one of the allowed ones, whatever [sort]
    holds, followed by [ASC] or [DESC]. *)
Theorem get_tasks_sql_binds (user : option identity) (q : tasks_query) :
  let clauses := where_sql 1 (tasks_where user q) in
  (get_tasks_sql user q).1
  = "SELECT * FROM tasks "
    +:+ (match clauses with
         | [] => EmptyString
         | _ :: _ => "WHERE " +:+ join " AND " clauses
         end)
    +:+ " ORDER BY " +:+ tasks_sortBy q +:+ " "
    +:+ (if tasks_sortOrder_desc q then "DESC" else "ASC")
  ∧ tasks_sortBy q ∈ allowedSort
  ∧ (get_tasks_sql user q).2 = omap cond_param (tasks_where user q).
Proof.
  intros clauses.
  assert (Htr : tracks (get_tasks_where user q) (tasks_where user q)).
  { unfold get_tasks_where, tasks_where. cbv zeta.
    rewrite !app_assoc.
    assert (H0 : tracks
      (match user with
       | Some u => push_where (λ i, "user_id = " +:+ placeholder i)
                     (PInt (user_id u)) new_builder
       | None => new_builder
       end)
      (match user with Some u => [UserIdEq (user_id u)] | None => [] end)).
    { destruct user as [u |]; [| by repeat split].
      by apply (tracks_push_where _ (UserIdEq (user_id u)) _ new_builder []). }
    set (sb0 := match user with Some _ => _ | None => _ end) in *.
    set (c0 := match user with Some _ => _ | None => _ end) in *.
    clearbody sb0 c0.
    pose proof (tracks_push_eq "status" (q_status q) StatusEq _ _
                  (λ _, eq_refl) (λ _ _, eq_refl) H0) as H1.
    pose proof (tracks_push_eq "priority" (q_priority q) PriorityEq _ _
                  (λ _, eq_refl) (λ _ _, eq_refl) H1) as H2.
    pose proof (tracks_push_eq "category" (q_category q) CategoryEq _ _
                  (λ _, eq_refl) (λ _ _, eq_refl) H2) as H3.
    pose proof (tracks_push_eq "type" (q_type q) TypeEq _ _
                  (λ _, eq_refl) (λ _ _, eq_refl) H3) as H4.
    pose proof (tracks_push_eq "project_id" (q_project_id q) ProjectIdEq _ _
                  (λ _, eq_refl) (λ _ _, eq_refl) H4) as H5.
    clear H0 H1 H2 H3 H4.
    set (sb5 := push_eq "project_id" _ _) in *.
    set (c5 := (_ ++ push_if (q_project_id q) ProjectIdEq)) in *.
    clearbody sb5 c5.
    assert (H6 : tracks
      (match q_important q with
       | Some important =>
           if String.eqb (toLowerCase important) "true"
              || String.eqb (toLowerCase important) "1"
           then push_literal "important = TRUE" sb5
           else if String.eqb (toLowerCase important) "false"
                   || String.eqb (toLowerCase important) "0"
                then push_literal "important = FALSE" sb5
                else sb5
       | None => sb5
       end)
      (c5 ++ match q_important q with
             | Some important =>
                 if String.eqb (toLowerCase important) "true"
                    || String.eqb (toLowerCase important) "1"
                 then [ImportantIs true]
                 else if String.eqb (toLowerCase important) "false"
                         || String.eqb (toLowerCase important) "0"
                      then [ImportantIs false]
                      else []
             | None => []
             end)).
    { destruct (q_important q) as [important |]; [| by apply tracks_nil_r].
      destruct (_ || _); [by apply tracks_push_literal |].
      destruct (_ || _); [by apply tracks_push_literal |].
      by apply tracks_nil_r. }
    clear H5.
    set (sb6 := match q_important q with Some _ => _ | None => _ end) in *.
    set (c6 := (c5 ++ _)) in *.
    clearbody sb6 c6.
    unfold push_if.
    destruct (q_q q) as [s |]; [| by apply tracks_nil_r].
    destruct (truthy s); [| by apply tracks_nil_r].
    by apply tracks_push_where. }
  destruct Htr as (Hcl & Hval & Hidx).
  split; [| split].
  - unfold get_tasks_sql. cbv zeta. cbn [fst]. by rewrite Hcl.
  - unfold tasks_sortBy. cbv zeta. case_bool_decide as Hin; [exact Hin |].
    by apply list_elem_of_here.
  - unfold get_tasks_sql. cbv zeta. cbn [snd]. exact Hval.
Qed.

(** ** Tenant isolation under [authRequired] *)

Lemma filter_map_preserved {A} (P : A → Prop) `{!∀ x, Decision (P x)}
  (f : A → A) (l : list A) :
  (∀ x, P (f x) ↔ P x) → filter P (map f l) = map f (filter P l).
Proof.
  intros Hf. induction l as [| x l IH]; [reflexivity |].
  simpl. rewrite !filter_cons.
  destruct (decide (P (f x))) as [Hx | Hx], (decide (P x)) as [Hx' | Hx'];
    simpl; rewrite ?IH; try done; exfalso.
  - by apply Hx', Hf.
  - by apply Hx, Hf.
Qed.

Lemma filter_swap {A} (P Q : A → Prop) `{!∀ x, Decision (P x)}
  `{!∀ x, Decision (Q x)} (l : list A) :
  filter P (filter Q l) = filter Q (filter P l).
Proof.
  induction l as [| x l IH]; [reflexivity |].
  rewrite (filter_cons Q), (filter_cons P).
  destruct (decide (Q x)), (decide (P x));
    rewrite ?filter_cons_True, ?filter_cons_False by done; by rewrite IH.
Qed.

Lemma Exists_filter_same {A} (P : A → Prop) `{!∀ x, Decision (P x)}
  (l : list A) :
  Exists P (filter P l) ↔ Exists P l.
Proof.
  rewrite !Exists_exists. split; intros (x & Hin & Hx); exists x.
  - apply list_elem_of_filter in Hin. tauto.
  - split; [by apply list_elem_of_filter | done].
Qed.

Lemma filter_not_self {A} (P : A → Prop) `{!∀ x, Decision (P x)} (l : list A) :
  filter (λ x, ¬ P x) (filter P l) = [].
Proof.
  induction l as [| x l IH]; [reflexivity |].
  rewrite (filter_cons P). destruct (decide (P x)); [| done].
  rewrite filter_cons_False; [done | tauto].
Qed.

Lemma filter_filter_in {A} (P Q : A → Prop) `{!∀ x, Decision (P x)}
  `{!∀ x, Decision (Q x)} (l : list A) :
  (∀ x, x ∈ l → P x → Q x) → filter P (filter Q l) = filter P l.
Proof.
  induction l as [| x l IH]; [reflexivity |]. intros HPQ.
  assert (Hl : ∀ y, y ∈ l → P y → Q y)
    by (intros y Hy; apply HPQ; by apply list_elem_of_further).
  rewrite (filter_cons Q). destruct (decide (Q x)) as [HQ | HQ].
  - rewrite !filter_cons. destruct (decide (P x)); by rewrite IH.
  - rewrite IH by done. rewrite filter_cons_False; [done |].
    intros HP. apply HQ, HPQ; [apply list_elem_of_here | done].
Qed.

Lemma Forall_filter_keep {A} (P Q : A → Prop) `{!∀ x, Decision (Q x)}
  (l : list A) :
  Forall P l → Forall P (filter Q l).
Proof.
  rewrite !Forall_forall. intros Hl x Hx.
  apply list_elem_of_filter in Hx as [_ Hx]. by apply Hl.
Qed.

Lemma NoDup_fmap_eq {A B} (f : A → B) (l : list A) (x y : A) :
  NoDup (f <$> l) → x ∈ l → y ∈ l → f x = f y → x = y.
Proof.
  induction l as [| z l IH]; intros Hdup Hx Hy Heq; [by inversion Hx |].
  rewrite fmap_cons in Hdup. apply NoDup_cons in Hdup as [Hnotin Hdup].
  apply elem_of_cons in Hx as [-> | Hx], Hy as [-> | Hy]; [done | | |].
  - exfalso. apply Hnotin. rewrite Heq. by apply list_elem_of_fmap_2.
  - exfalso. apply Hnotin. rewrite <- Heq. by apply list_elem_of_fmap_2.
  - by apply IH.
Qed.

Section Restriction.
Context {pg : Postgres}.
Variable uid : Z.

Lemma lookup_only db name :
  tables (only uid db) !! name = own_table uid <$> tables db !! name.
Proof. apply lookup_fmap. Qed.

Lemma only_with_table db name t :
  only uid (with_table db name t)
  = with_table (only uid db) name (own_table uid t).
Proof. unfold only, with_table. simpl. by rewrite fmap_insert. Qed.

Lemma owns_filter_implied (P : item → Prop) `{!∀ i, Decision (P i)}
  (l : list item) :
  (∀ i, P i → owns uid i) → filter P (filter (owns uid) l) = filter P l.
Proof. apply filter_filter_implied. Qed.

Lemma select_items_only db name conds order :
  select_items (only uid db) name uid conds order
  = select_items db name uid conds order.
Proof.
  unfold select_items. rewrite lookup_only.
  destruct (tables db !! name) as [t |]; simpl; [| done].
  destruct (pg_binds name conds); [| done].
  rewrite owns_filter_implied; [done | tauto].
Qed.

Lemma find_items_only db name id :
  find_items (only uid db) name id uid = find_items db name id uid.
Proof.
  unfold find_items. rewrite lookup_only.
  destruct (tables db !! name) as [t |], (int4in id); simpl; try done.
  rewrite owns_filter_implied; [done |]. by intros i [_ Hi].
Qed.

Lemma select_files_only db id :
  select_files (only uid db) id uid = select_files db id uid.
Proof.
  unfold select_files. rewrite lookup_only.
  destruct (tables db !! "files") as [t |], (int4in id); simpl; try done.
  rewrite owns_filter_implied; [done | tauto].
Qed.

Lemma insert_item_only db name note_id values clock :
  insert_item (only uid db) name uid note_id values clock
  = (only uid (insert_item db name uid note_id values clock).1,
     (insert_item db name uid note_id values clock).2).
Proof.
  unfold insert_item. rewrite lookup_only.
  destruct (tables db !! name) as [t |]; simpl; [| done].
  destruct (negb (pg_binds name values)); [done |].
  destruct (2147483647 <? items_id_seq t); [done |].
  rewrite (bool_decide_ext _ _ (Exists_filter_same (λ u, u_id u = uid)
                                  (users db))).
  destruct (bool_decide (Exists _ (users db)));
    [destruct (pg_row name values (items_id_seq t) uid clock) |];
    simpl; rewrite only_with_table; unfold own_table; simpl; [| done..].
  by rewrite filter_app, filter_cons_True, filter_nil.
Qed.

Lemma owns_set_item name values clock n i :
  owns uid (if bool_decide (item_is n uid i)
            then default i (set_item name values clock i) else i)
  ↔ owns uid i.
Proof.
  case_bool_decide; [| done]. unfold set_item.
  by destruct (pg_set name values clock (item_object i)).
Qed.

Lemma update_items_only db name id values clock :
  update_items (only uid db) name id uid values clock
  = (only uid (update_items db name id uid values clock).1,
     (update_items db name id uid values clock).2).
Proof.
  unfold update_items. rewrite lookup_only.
  destruct (tables db !! name) as [t |], (int4in id) as [n |]; simpl;
    try done.
  destruct (pg_binds name values); [| done].
  rewrite owns_filter_implied by (by intros i [_ Hi]).
  destruct (mapM _ _); simpl; [| done].
  rewrite only_with_table. unfold own_table. simpl.
  rewrite filter_map_preserved; [done |].
  intros i. apply owns_set_item.
Qed.

Lemma cascade_only name removed db :
  cascade name removed (only uid db) = only uid (cascade name removed db).
Proof.
  unfold cascade. destruct (String.eqb name "notes"); [| done].
  rewrite lookup_only.
  destruct (tables db !! "files") as [files |]; simpl; [| done].
  rewrite only_with_table. unfold own_table. simpl.
  by rewrite filter_swap.
Qed.

Lemma delete_items_only db name id :
  delete_items (only uid db) name id uid
  = (only uid (delete_items db name id uid).1,
     (delete_items db name id uid).2).
Proof.
  unfold delete_items. rewrite lookup_only.
  destruct (tables db !! name) as [t |], (int4in id) as [n |]; simpl;
    try done.
  rewrite owns_filter_implied by (by intros i [_ Hi]).
  rewrite <- cascade_only, only_with_table. unfold own_table. simpl.
  by rewrite filter_swap.
Qed.

Lemma create_table_only db name :
  create_table_if_not_exists (only uid db) name
  = only uid (create_table_if_not_exists db name).
Proof.
  unfold create_table_if_not_exists. rewrite lookup_only.
  destruct (tables db !! name); simpl; [done |].
  by rewrite only_with_table.
Qed.

Lemma select_users_by_id_only db :
  select_users_by_id (only uid db) uid = select_users_by_id db uid.
Proof.
  unfold select_users_by_id. simpl. by apply filter_filter_implied.
Qed.

Lemma update_profile_only db full_name email profile_photo :
  update_profile (only uid db) full_name email profile_photo uid
  = (only uid (update_profile db full_name email profile_photo uid).1,
     (update_profile db full_name email profile_photo uid).2).
Proof.
  unfold update_profile.
  destruct (text_param full_name), (text_param email),
    (text_param profile_photo); try done.
  simpl. f_equal.
  - unfold only, with_users. simpl. f_equal.
    symmetry. apply filter_map_preserved. intros u. by case_bool_decide.
  - by rewrite (filter_filter_implied (λ u, u_id u = uid)).
Qed.

Lemma update_password_by_id_only db hash :
  update_password_by_id (only uid db) hash uid
  = only uid (update_password_by_id db hash uid).
Proof.
  unfold update_password_by_id, only, with_users. simpl. f_equal.
  symmetry. apply filter_map_preserved. intros u. by case_bool_decide.
Qed.

Lemma insert_task_only db title st description pr due_date due_time cat ty
  project_id important assigned_to clock :
  insert_task (only uid db) title st description pr due_date due_time cat ty
    project_id important assigned_to uid clock
  = (only uid (insert_task db title st description pr due_date due_time cat
                 ty project_id important assigned_to uid clock).1,
     (insert_task db title st description pr due_date due_time cat ty
        project_id important assigned_to uid clock).2).
Proof.
  unfold insert_task. simpl.
  destruct (negb _); [done |]. destruct (negb _); [done |].
  destruct (read date_in due_date), (read time_in due_time); try done.
  destruct (2147483647 <? tasks_id_seq db); [done |].
  rewrite (bool_decide_ext _ _ (Exists_filter_same (λ u, u_id u = uid)
                                  (users db))).
  destruct (bool_decide (Exists _ (users db))); simpl; [| done].
  unfold only, with_tasks. simpl.
  by rewrite filter_app, filter_cons_True, filter_nil.
Qed.

Lemma update_task_only db b id clock :
  update_task (only uid db) b id uid clock
  = (only uid (update_task db b id uid clock).1,
     (update_task db b id uid clock).2).
Proof.
  unfold update_task. destruct (negb (body_binds b)); [done |].
  destruct (read_field date_in (b_due_date b)) as [due_date |],
    (read_field time_in (b_due_time b)) as [due_time |],
    (int4in id) as [n |]; try done.
  simpl. rewrite (filter_filter_implied (task_is n uid))
    by (by intros t [_ Ht]).
  destruct (filter (task_is n uid) (tasks db)) as [| row rows]; [done |].
  destruct (is_null (b_title b)); [done |].
  destruct (is_null (b_status b)); [done |].
  simpl. unfold only, with_tasks. simpl. f_equal. f_equal.
  symmetry. apply filter_map_preserved. intros t. by case_bool_decide.
Qed.

Lemma delete_task_only db id :
  delete_task (only uid db) id uid
  = (only uid (delete_task db id uid).1, (delete_task db id uid).2).
Proof.
  unfold delete_task. destruct (int4in id) as [n |]; [| done].
  simpl. rewrite (filter_filter_implied (task_is n uid))
    by (by intros t [_ Ht]).
  unfold only, with_tasks. simpl. by rewrite filter_swap.
Qed.

Lemma delete_done_tasks_only db :
  delete_done_tasks (only uid db) uid = only uid (delete_done_tasks db uid).
Proof.
  unfold delete_done_tasks, only, with_tasks. simpl. by rewrite filter_swap.
Qed.

Lemma mark_tasks_done_only db clock :
  mark_tasks_done (only uid db) uid clock
  = only uid (mark_tasks_done db uid clock).
Proof.
  unfold mark_tasks_done, only, with_tasks. simpl. f_equal.
  symmetry. apply filter_map_preserved. intros t. by case_bool_decide.
Qed.

End Restriction.

Section Untouched.
Context {pg : Postgres}.
Variable uid : Z.

Lemma untouched_refl db : untouched uid db db.
Proof. by repeat split. Qed.

Lemma untouched_trans db1 db2 db3 :
  untouched uid db1 db2 → untouched uid db2 db3 → untouched uid db1 db3.
Proof.
  intros (Hu & Ht & Hi) (Hu' & Ht' & Hi'). repeat split.
  - by rewrite Hu'.
  - by rewrite Ht'.
  - intros name. by rewrite Hi'.
Qed.

Lemma untouched_with_table db name t :
  filter (λ i, ¬ owns uid i) (items t) = foreign_items uid db name →
  untouched uid db (with_table db name t).
Proof.
  intros Ht. repeat split. intros name'. unfold foreign_items at 1. simpl.
  destruct (decide (name' = name)) as [-> | Hne].
  - by rewrite lookup_insert_eq.
  - by rewrite lookup_insert_ne.
Qed.

Lemma untouched_with_tasks db ts seq :
  filter (λ t, ¬ owned_by uid t) ts = filter (λ t, ¬ owned_by uid t) (tasks db) →
  untouched uid db (with_tasks db ts seq).
Proof. intros Ht. by repeat split. Qed.

Lemma untouched_with_users db us seq :
  filter (λ u, u_id u ≠ uid) us = filter (λ u, u_id u ≠ uid) (users db) →
  untouched uid db (with_users db us seq).
Proof. intros Hu. by repeat split. Qed.

Lemma foreign_items_lookup db name t :
  tables db !! name = Some t →
  foreign_items uid db name = filter (λ i, ¬ owns uid i) (items t).
Proof. intros Ht. unfold foreign_items. by rewrite Ht. Qed.

Lemma create_table_untouched db name :
  untouched uid db (create_table_if_not_exists db name).
Proof.
  unfold create_table_if_not_exists.
  destruct (tables db !! name) eqn:Hname; [apply untouched_refl |].
  apply untouched_with_table. unfold foreign_items. by rewrite Hname.
Qed.

Lemma insert_item_untouched db name note_id values clock :
  untouched uid db (insert_item db name uid note_id values clock).1.
Proof.
  unfold insert_item.
  destruct (tables db !! name) as [t |] eqn:Hname; [| apply untouched_refl].
  repeat case_match; simpl; try apply untouched_refl;
    apply untouched_with_table; rewrite (foreign_items_lookup _ _ _ Hname);
    simpl; try done.
  rewrite filter_app, filter_cons_False, filter_nil, app_nil_r; [done |].
  intros Hn. by apply Hn.
Qed.

Lemma update_items_untouched db name id values clock :
  untouched uid db (update_items db name id uid values clock).1.
Proof.
  unfold update_items.
  destruct (tables db !! name) as [t |] eqn:Hname, (int4in id) as [n |];
    try apply untouched_refl.
  repeat case_match; simpl; try apply untouched_refl.
  apply untouched_with_table. rewrite (foreign_items_lookup _ _ _ Hname).
  simpl. apply filter_map_outside.
  intros i [_ Hi]. split; intros Hn; apply Hn; [done |].
  unfold set_item, owns.
  by destruct (pg_set name values clock (item_object i)).
Qed.

Lemma update_profile_untouched db full_name email profile_photo :
  untouched uid db (update_profile db full_name email profile_photo uid).1.
Proof.
  unfold update_profile. repeat case_match; try apply untouched_refl.
  simpl. apply untouched_with_users. apply filter_map_outside.
  intros u Hu. split; intros Hn; by apply Hn.
Qed.

Lemma update_password_by_id_untouched db hash :
  untouched uid db (update_password_by_id db hash uid).
Proof.
  apply untouched_with_users. apply filter_map_outside.
  intros u Hu. split; intros Hn; by apply Hn.
Qed.

(** The files that go with a deleted note are the deleter's. *)
Lemma delete_items_untouched db name id :
  files_follow_notes db →
  untouched uid db (delete_items db name id uid).1.
Proof.
  intros Hfollow. unfold delete_items.
  destruct (tables db !! name) as [t |] eqn:Hname, (int4in id) as [n |];
    try apply untouched_refl.
  simpl.
  assert (Hdeleted : untouched uid db
            (with_table db name
               (Table (filter (λ i, ¬ item_is n uid i) (items t))
                  (items_id_seq t)))).
  { apply untouched_with_table. rewrite (foreign_items_lookup _ _ _ Hname).
    simpl. apply filter_filter_implied. intros i Hn [_ Hi]. by apply Hn. }
  unfold cascade. destruct (String.eqb_spec name "notes") as [-> | Hne];
    [| exact Hdeleted].
  simpl. rewrite lookup_insert_ne by done.
  destruct (tables db !! "files") as [files |] eqn:Hfiles; [| exact Hdeleted].
  eapply untouched_trans; [exact Hdeleted |].
  apply untouched_with_table. unfold foreign_items. simpl.
  rewrite lookup_insert_ne, Hfiles by done.
  destruct (Hfollow files Hfiles) as (notes & Hnotes & Hdup & _ & Hrefs).
  rewrite Hname in Hnotes. injection Hnotes as <-.
  apply filter_filter_in. intros f Hf Hforeign Hrefers. apply Hforeign.
  unfold refers_to in Hrefers.
  destruct (item_note_id f) as [m |] eqn:Hm; [| done].
  apply list_elem_of_fmap_1 in Hrefers as (d & -> & Hd).
  apply list_elem_of_filter in Hd as [[_ Hown] Hd].
  rewrite Forall_forall in Hrefs.
  destruct (Hrefs f Hf _ Hm) as (note & Hnote & Hid & Howner).
  rewrite (NoDup_fmap_eq item_id _ _ _ Hdup Hnote Hd Hid) in Howner.
  unfold owns. by rewrite <- Howner.
Qed.

End Untouched.

Section Consistency.
Context {pg : Postgres}.

Lemma follow_other db name t :
  name ≠ "notes" → name ≠ "files" →
  files_follow_notes db → files_follow_notes (with_table db name t).
Proof.
  intros Hnotes Hfiles Hfollow files. simpl.
  rewrite !lookup_insert_ne by done. apply Hfollow.
Qed.

Lemma follow_same_tables db db' :
  tables db' = tables db → files_follow_notes db → files_follow_notes db'.
Proof. unfold files_follow_notes. by intros ->. Qed.

Lemma follow_files db files files' :
  tables db !! "files" = Some files →
  (∀ notes, tables db !! "notes" = Some notes →
            Forall (has_note (items notes)) (items files) →
            Forall (has_note (items notes)) (items files')) →
  files_follow_notes db → files_follow_notes (with_table db "files" files').
Proof.
  intros Hfiles Hkeep Hfollow files''. simpl.
  rewrite lookup_insert_eq, lookup_insert_ne by done. intros [= <-].
  destruct (Hfollow files Hfiles) as (notes & Hnotes & Hdup & Hseq & Hrefs).
  exists notes. repeat split; try done. by apply Hkeep.
Qed.

Lemma follow_notes db notes notes' :
  tables db !! "notes" = Some notes →
  (NoDup (item_id <$> items notes) →
   Forall (λ i, item_id i < items_id_seq notes) (items notes) →
   NoDup (item_id <$> items notes')
   ∧ Forall (λ i, item_id i < items_id_seq notes') (items notes')) →
  (∀ note, note ∈ items notes →
           ∃ note', note' ∈ items notes' ∧ item_id note' = item_id note
                    ∧ item_user_id note' = item_user_id note) →
  files_follow_notes db → files_follow_notes (with_table db "notes" notes').
Proof.
  intros Hnotes Hkeys Hkeep Hfollow files. simpl.
  rewrite lookup_insert_ne, lookup_insert_eq by done. intros Hfiles.
  destruct (Hfollow files Hfiles) as (notes0 & Hnotes0 & Hdup & Hseq & Hrefs).
  rewrite Hnotes in Hnotes0. injection Hnotes0 as <-.
  destruct (Hkeys Hdup Hseq) as [Hdup' Hseq'].
  exists notes'. repeat split; try done.
  eapply Forall_impl; [exact Hrefs |]. intros f Hf n Hn.
  destruct (Hf n Hn) as (note & Hnote & Hid & Howner).
  destruct (Hkeep note Hnote) as (note' & Hnote' & Hid' & Howner').
  exists note'. repeat split; [done | congruence | congruence].
Qed.

Lemma create_table_consistent db name :
  name ≠ "notes" → name ≠ "files" →
  files_follow_notes db →
  files_follow_notes (create_table_if_not_exists db name).
Proof.
  intros Hnotes Hfiles Hfollow. unfold create_table_if_not_exists.
  destruct (tables db !! name); [done |]. by apply follow_other.
Qed.

Lemma fresh_id_NoDup (l : list item) (seq : Z) (i : item) :
  NoDup (item_id <$> l) → Forall (λ i, item_id i < seq) l →
  item_id i = seq →
  NoDup (item_id <$> (l ++ [i]))
  ∧ Forall (λ i, item_id i < seq + 1) (l ++ [i]).
Proof.
  intros Hdup Hseq Hi. split.
  - rewrite fmap_app. apply NoDup_app. split; [done |]. split.
    + intros n Hn Hin. simpl in Hin. apply list_elem_of_singleton in Hin.
      apply list_elem_of_fmap_1 in Hn as (j & -> & Hj).
      rewrite Forall_forall in Hseq. specialize (Hseq j Hj). lia.
    + simpl. apply NoDup_singleton.
  - apply Forall_app. split.
    + eapply Forall_impl; [exact Hseq |]. simpl. intros. lia.
    + constructor; [lia | constructor].
Qed.

Lemma insert_item_consistent db name uid note_id values clock :
  files_follow_notes db →
  (name = "files" →
   ∀ n, note_id = Some n →
        ∃ notes note, tables db !! "notes" = Some notes
                      ∧ note ∈ items notes ∧ item_id note = n
                      ∧ item_user_id note = Some uid) →
  files_follow_notes (insert_item db name uid note_id values clock).1.
Proof.
  intros Hfollow Hnote. unfold insert_item.
  destruct (tables db !! name) as [t |] eqn:Hname; [| done].
  destruct (negb (pg_binds name values)); [done |].
  destruct (2147483647 <? items_id_seq t); [done |].
  destruct (decide (name = "notes")) as [-> | Hnotes].
  { repeat case_match; simpl; (eapply follow_notes; [done | | | done]);
      simpl; intros; try (split; [done |]); eauto.
    - apply fresh_id_NoDup; done.
    - eexists. split; [apply elem_of_app; by left | done].
    - eapply Forall_impl; [done |]. simpl. intros. lia.
    - eapply Forall_impl; [done |]. simpl. intros. lia. }
  destruct (decide (name = "files")) as [-> | Hfiles].
  { repeat case_match; simpl; (eapply follow_files; [done | | done]);
      simpl; intros notes Hnotes' Hrefs; try done.
    apply Forall_app. split; [done |]. constructor; [| constructor].
    intros n Hn. simpl in Hn.
    destruct (Hnote eq_refl n Hn) as (notes0 & note & Hnotes0 & Hin & Hid & Hown).
    rewrite Hnotes' in Hnotes0. injection Hnotes0 as <-.
    by exists note. }
  repeat case_match; simpl; by apply follow_other.
Qed.

Lemma update_items_consistent db name id uid values clock :
  files_follow_notes db →
  files_follow_notes (update_items db name id uid values clock).1.
Proof.
  intros Hfollow. unfold update_items.
  destruct (tables db !! name) as [t |] eqn:Hname, (int4in id) as [n |];
    try done.
  destruct (pg_binds name values); [| done].
  destruct (mapM _ _); [| done]. simpl.
  set (g := λ i : item, if bool_decide (item_is n uid i)
                        then default i (set_item name values clock i) else i).
  assert (Hg : ∀ i, item_id (g i) = item_id i
                    ∧ item_user_id (g i) = item_user_id i
                    ∧ item_note_id (g i) = item_note_id i).
  { intros i. unfold g, set_item. case_bool_decide; [| done].
    by destruct (pg_set name values clock (item_object i)). }
  destruct (decide (name = "notes")) as [-> | Hnotes].
  { eapply follow_notes; [done | | | done]; simpl.
    - intros Hdup Hseq. split.
      + rewrite <- list_fmap_compose.
        erewrite list_fmap_ext; [exact Hdup |]. intros ? i _. apply Hg.
      + apply Forall_fmap. eapply Forall_impl; [exact Hseq |].
        intros i Hi. simpl. by rewrite (proj1 (Hg i)).
    - intros note Hin. exists (g note).
      split; [by apply list_elem_of_fmap_2 |]. split; apply Hg. }
  destruct (decide (name = "files")) as [-> | Hfiles].
  { eapply follow_files; [done | | done]. simpl. intros notes _ Hrefs.
    apply Forall_fmap. eapply Forall_impl; [exact Hrefs |].
    intros f Hf m Hm. simpl in Hm.
    rewrite (proj2 (proj2 (Hg f))) in Hm.
    destruct (Hf m Hm) as (note & ? & ? & ?). exists note.
    repeat split; try done. by rewrite (proj1 (proj2 (Hg f))). }
  by apply follow_other.
Qed.

Lemma delete_items_consistent db name id uid :
  files_follow_notes db →
  files_follow_notes (delete_items db name id uid).1.
Proof.
  intros Hfollow. unfold delete_items.
  destruct (tables db !! name) as [t |] eqn:Hname, (int4in id) as [n |];
    try done.
  simpl. unfold cascade.
  destruct (String.eqb_spec name "notes") as [-> | Hnotes].
  - simpl. rewrite lookup_insert_ne by done.
    destruct (tables db !! "files") as [files |] eqn:Hfiles.
    + intros files'. simpl.
      rewrite lookup_insert_eq, lookup_insert_ne, lookup_insert_eq by done.
      intros [= <-]. simpl.
      destruct (Hfollow files Hfiles) as (notes & Hnotes & Hdup & Hseq & Hrefs).
      rewrite Hname in Hnotes. injection Hnotes as <-.
      eexists. split; [reflexivity |]. simpl. repeat split.
      * eapply sublist_NoDup; [exact Hdup |].
        apply fmap_sublist, sublist_filter.
      * by apply Forall_filter_keep.
      * apply Forall_forall. intros f Hf m Hm.
        apply list_elem_of_filter in Hf as [Hkeep Hf].
        rewrite Forall_forall in Hrefs.
        destruct (Hrefs f Hf m Hm) as (note & Hnote & Hid & Howner).
        exists note. repeat split; try done.
        apply list_elem_of_filter. split; [| done].
        intros Hgone. apply Hkeep. unfold refers_to. rewrite Hm, <- Hid.
        apply list_elem_of_fmap_2. by apply list_elem_of_filter.
    + intros files'. simpl. rewrite lookup_insert_ne by done.
      by rewrite Hfiles.
  - destruct (decide (name = "files")) as [-> | Hfiles].
    + eapply follow_files; [done | | done]. simpl. intros notes _ Hrefs.
      by apply Forall_filter_keep.
    + by apply follow_other.
Qed.

End Consistency.

Section TaskRows.
Context {pg : Postgres}.
Variable uid : Z.

Lemma insert_task_untouched db title st description pr due_date due_time cat ty
  project_id important assigned_to clock :
  let db' := (insert_task db title st description pr due_date due_time cat ty
                project_id important assigned_to uid clock).1 in
  untouched uid db db' ∧ tables db' = tables db.
Proof.
  destruct (insert_task_cases db title st description pr due_date due_time cat
              ty project_id important assigned_to uid clock)
    as [[e ->] | [[e ->] | (date & time & -> & _)]]; simpl;
    (split; [| done]); try apply untouched_refl.
  - by apply untouched_with_tasks.
  - apply untouched_with_tasks.
    rewrite filter_app, filter_cons_False, filter_nil, app_nil_r; [done |].
    intros Hn. by apply Hn.
Qed.

Lemma update_task_untouched db b id clock :
  let db' := (update_task db b id uid clock).1 in
  untouched uid db db' ∧ tables db' = tables db.
Proof.
  destruct (update_task_cases db b id uid clock)
    as [(c & -> & _) | (n & dd & dt & row & rows & _ & _ & ->)]; simpl;
    (split; [| done]); [apply untouched_refl |].
  apply untouched_with_tasks, filter_map_outside.
  intros row' [_ Hrow]. split; intros Hn; by apply Hn.
Qed.

Lemma delete_task_untouched db id :
  let db' := (delete_task db id uid).1 in
  untouched uid db db' ∧ tables db' = tables db.
Proof.
  destruct (delete_task_cases db id uid) as [[e ->] | (n & _ & ->)]; simpl;
    (split; [| done]); [apply untouched_refl |].
  apply untouched_with_tasks, filter_filter_implied.
  intros row Hn [_ Hrow]. by apply Hn.
Qed.

Lemma delete_done_tasks_untouched db :
  untouched uid db (delete_done_tasks db uid).
Proof.
  apply untouched_with_tasks, filter_filter_implied.
  intros row Hn [_ Hrow]. by apply Hn.
Qed.

Lemma mark_tasks_done_untouched db clock :
  untouched uid db (mark_tasks_done db uid clock).
Proof.
  apply untouched_with_tasks, filter_map_outside.
  intros row [_ Hrow]. split; intros Hn; by apply Hn.
Qed.

End TaskRows.

Section Isolation.
Context {jwt : Jsonwebtoken} {bcrypt : Bcryptjs} {pg : Postgres} {node : Node}.
Variable JWT_SECRET : string.
Variable uid : Z.

Lemma isolated_same db r :
  isolated uid db (Result db [] r) (Result (only uid db) [] r).
Proof. split; [intros _; apply untouched_refl | by repeat split]. Qed.

Lemma isolated_step db db1 out out' :
  untouched uid db db1 →
  (files_follow_notes db → files_follow_notes db1) →
  isolated uid db1 out out' → isolated uid db out out'.
Proof.
  intros Hdb1 Hfollow (Hw & Hr & He & Hc).
  split; [| split; [done | split; [done | auto]]].
  intros H. eapply untouched_trans; [exact Hdb1 | auto].
Qed.

Lemma restricted_item {A} (f : database * completion A → result) db' c :
  (∀ db' c, res_db (f (db', c)) = db' ∧ res_emits (f (db', c)) = []
            ∧ res_reply (f (only uid db', c)) = res_reply (f (db', c))) →
  f (only uid db', c) = restricted uid (f (db', c)).
Proof.
  intros Hf. destruct (Hf db' c) as (Hdb & Hemits & Hreply).
  destruct (Hf (only uid db') c) as (Hdb' & Hemits' & _).
  unfold restricted. rewrite Hdb, Hemits, <- Hreply.
  destruct (f (only uid db', c)). simpl in *. by subst.
Qed.

Lemma isolated_item {A} (f : database * completion A → result) db o o' :
  o' = (only uid o.1, o.2) →
  untouched uid db o.1 →
  (files_follow_notes db → files_follow_notes o.1) →
  (∀ db' c, res_db (f (db', c)) = db' ∧ res_emits (f (db', c)) = []
            ∧ res_reply (f (only uid db', c)) = res_reply (f (db', c))) →
  isolated uid db (f o) (f o').
Proof.
  intros -> Hw Hc Hf. destruct o as [db' c]. simpl in *.
  destruct (Hf db' c) as (Hdb & Hemits & Hreply).
  split; [| split; [| split]].
  - by rewrite Hdb.
  - by apply restricted_item.
  - by rewrite Hemits.
  - by rewrite Hdb.
Qed.

Lemma created_shape shape status error db' (c : completion item) :
  res_db (created_as shape status error (db', c)) = db'
  ∧ res_emits (created_as shape status error (db', c)) = []
  ∧ res_reply (created_as shape status error (only uid db', c))
    = res_reply (created_as shape status error (db', c)).
Proof. by destruct c. Qed.

Lemma updated_shape missing error db' (c : completion (list item)) :
  res_db (updated missing error (db', c)) = db'
  ∧ res_emits (updated missing error (db', c)) = []
  ∧ res_reply (updated missing error (only uid db', c))
    = res_reply (updated missing error (db', c)).
Proof. by destruct c as [[| ? ?] |]. Qed.

Lemma deleted_shape missing error ok db' (c : completion (list item)) :
  res_db (deleted missing error ok (db', c)) = db'
  ∧ res_emits (deleted missing error ok (db', c)) = []
  ∧ res_reply (deleted missing error ok (only uid db', c))
    = res_reply (deleted missing error ok (db', c)).
Proof. by destruct c as [[| ? ?] |]. Qed.

Lemma noted_shape missing error db' (c : completion (list item)) :
  res_db (noted missing error (db', c)) = db'
  ∧ res_emits (noted missing error (db', c)) = []
  ∧ res_reply (noted missing error (only uid db', c))
    = res_reply (noted missing error (db', c)).
Proof.
  destruct c as [[| row ?] |]; simpl; try done.
  by destruct (with_attachments (item_object row)).
Qed.

Lemma created_isolated shape status error db name note_id values clock :
  (name = "files" →
   ∀ n, note_id = Some n →
        ∃ notes note, tables db !! "notes" = Some notes
                      ∧ note ∈ items notes ∧ item_id note = n
                      ∧ item_user_id note = Some uid) →
  isolated uid db
    (created_as shape status error
       (insert_item db name uid note_id values clock))
    (created_as shape status error
       (insert_item (only uid db) name uid note_id values clock)).
Proof.
  intros Hnote. apply isolated_item.
  - apply insert_item_only.
  - apply insert_item_untouched.
  - intros H. by apply insert_item_consistent.
  - apply created_shape.
Qed.

Lemma updated_isolated missing error db name id values clock :
  isolated uid db
    (updated missing error (update_items db name id uid values clock))
    (updated missing error
       (update_items (only uid db) name id uid values clock)).
Proof.
  apply isolated_item.
  - apply update_items_only.
  - apply update_items_untouched.
  - apply update_items_consistent.
  - apply updated_shape.
Qed.

Lemma noted_isolated missing error db name id values clock :
  isolated uid db
    (noted missing error (update_items db name id uid values clock))
    (noted missing error
       (update_items (only uid db) name id uid values clock)).
Proof.
  apply isolated_item.
  - apply update_items_only.
  - apply update_items_untouched.
  - apply update_items_consistent.
  - apply noted_shape.
Qed.

Lemma isolated_weaken db out out' :
  (files_follow_notes db → isolated uid db out out') →
  out' = restricted uid out →
  Forall (λ e, to_room e = user_room uid) (res_emits out) →
  isolated uid db out out'.
Proof.
  intros H Hr He.
  split; [| split; [done | split; [done |]]]; intros Hf; by apply (H Hf).
Qed.

Lemma deleted_isolated missing error ok db name id :
  isolated uid db
    (deleted missing error ok (delete_items db name id uid))
    (deleted missing error ok (delete_items (only uid db) name id uid)).
Proof.
  assert (Hshape := deleted_shape missing error ok).
  apply isolated_weaken.
  - intros Hfollow. apply isolated_item.
    + apply delete_items_only.
    + by apply delete_items_untouched.
    + apply delete_items_consistent.
    + exact Hshape.
  - rewrite delete_items_only.
    destruct (delete_items db name id uid) as [db' c].
    by apply restricted_item.
  - destruct (delete_items db name id uid) as [db' c].
    by rewrite (proj1 (proj2 (Hshape db' c))).
Qed.

Lemma listed_isolated db error shape rows :
  isolated uid db (listed db error shape rows)
    (listed (only uid db) error shape rows).
Proof. unfold listed. repeat case_match; apply isolated_same. Qed.

Lemma isolated_result db db' emits r :
  untouched uid db db' → tables db' = tables db →
  Forall (λ e, to_room e = user_room uid) emits →
  isolated uid db (Result db' emits r) (Result (only uid db') emits r).
Proof.
  intros Hw Ht He. split; [done |]. split; [done |]. split; [done |].
  by apply follow_same_tables.
Qed.

Lemma find_items_found db name id note rest :
  find_items db name id uid = Return (note :: rest) →
  ∃ t, tables db !! name = Some t ∧ note ∈ items t
       ∧ item_user_id note = Some uid.
Proof.
  unfold find_items.
  destruct (tables db !! name) as [t |], (int4in id) as [n |]; try done.
  intros [= Hf]. exists t. split; [done |].
  assert (note ∈ filter (item_is n uid) (items t)) as Hin
    by (rewrite Hf; apply list_elem_of_here).
  apply list_elem_of_filter in Hin as [[_ Hown] Hin]. done.
Qed.

Lemma update_profile_tables db full_name email profile_photo :
  tables (update_profile db full_name email profile_photo uid).1 = tables db.
Proof. unfold update_profile. by repeat case_match. Qed.

Lemma protected_isolated r authorization salt clock now db user :
  authRequired JWT_SECRET authorization clock = Next user →
  user_id user = uid →
  isolated uid db
    (protected_handle JWT_SECRET r authorization salt clock now db)
    (protected_handle JWT_SECRET r authorization salt clock now (only uid db)).
Proof.
  intros Hauth Huid.
  destruct r; simpl;
    unfold get_auth_verify, post_auth_change_password, post_tasks,
      put_tasks_id, delete_tasks_id, post_tasks_clear_completed,
      post_tasks_mark_all_done, get_learning_progress,
      post_learning_progress, put_learning_progress_id,
      delete_learning_progress_id, post_notes_id_files, get_notes_id_files,
      delete_files_id, get_notes, post_notes, put_notes_id, delete_notes_id,
      get_prs, post_prs, put_prs_id, delete_prs_id, get_prs_download,
      get_profile, put_profile, get_projects, post_time_logs,
      get_time_sessions, post_time_sessions, get_dashboard_overview,
      get_daily_goals, post_daily_goals, put_daily_goals_id,
      delete_daily_goals_id, get_study_sessions, post_study_sessions,
      put_study_sessions_id, delete_study_sessions_id, guarded,
      with_authRequired;
    rewrite Hauth, ?Huid; cbv zeta;
    rewrite ?create_table_only, ?select_items_only, ?find_items_only,
      ?select_files_only, ?select_users_by_id_only;
    try (by apply isolated_result);
    try (solve [apply isolated_same | apply listed_isolated
               | apply updated_isolated | apply deleted_isolated
               | apply created_isolated; discriminate]).
  - (* POST /auth/change-password *)
    destruct currentPassword as [currentPassword |],
      newPassword as [newPassword |]; try apply isolated_same.
    destruct (negb _ || negb _); [apply isolated_same |].
    destruct (select_users_by_id db uid) as [| row rows];
      [apply isolated_same |].
    destruct (bcrypt_compare _ _); [| apply isolated_same].
    rewrite update_password_by_id_only.
    by apply isolated_result; [apply update_password_by_id_untouched | |].
  - (* POST /tasks *)
    destruct (b_title b) as [| | title]; try apply isolated_same.
    destruct (negb _ || negb _); [apply isolated_same |].
    rewrite insert_task_only.
    match goal with
    | |- context [insert_task db ?a1 ?a2 ?a3 ?a4 ?a5 ?a6 ?a7 ?a8 ?a9 ?a10
                    ?a11 uid clock] =>
        destruct (insert_task_untouched uid db a1 a2 a3 a4 a5 a6 a7 a8 a9
                    a10 a11 clock) as [Hw Ht];
        destruct (insert_task db a1 a2 a3 a4 a5 a6 a7 a8 a9 a10 a11 uid clock)
          as [db' [task | e]]
    end; simpl in *; apply isolated_result; try done.
    by repeat constructor.
  - (* PUT /tasks/:id *)
    destruct (nothing_to_update b); [apply isolated_same |].
    rewrite update_task_only.
    destruct (update_task_untouched uid db b id clock) as [Hw Ht].
    destruct (update_task db b id uid clock) as [db' [[| row rows] | e]];
      simpl in *; apply isolated_result; try done.
    by repeat constructor.
  - (* DELETE /tasks/:id *)
    rewrite delete_task_only.
    destruct (delete_task_untouched uid db id) as [Hw Ht].
    destruct (delete_task db id uid) as [db' [[| k] | e]];
      simpl in *; apply isolated_result; try done.
    by repeat constructor.
  - (* POST /tasks/clear-completed *)
    rewrite delete_done_tasks_only.
    by apply isolated_result; [apply delete_done_tasks_untouched | |].
  - (* POST /tasks/mark-all-done *)
    rewrite mark_tasks_done_only.
    by apply isolated_result; [apply mark_tasks_done_untouched | |].
  - (* POST /learning/progress *)
    destruct (negb _); [apply isolated_same |].
    apply created_isolated. discriminate.
  - (* POST /notes/:id/files *)
    destruct (negb _ || negb _); [apply isolated_same |].
    destruct (find_items db "notes" id uid) as [[| note rest] | e] eqn:Hfind;
      try apply isolated_same.
    apply created_isolated. intros _ n [= <-].
    destruct (find_items_found _ _ _ _ _ Hfind) as (t & Ht & Hin & Hown).
    by exists t, note.
  - (* GET /notes/:id/files *)
    destruct (find_items db "notes" id uid) as [[| note rest] | e];
      try apply isolated_same.
    apply listed_isolated.
  - (* POST /notes *)
    destruct (_ || _ || _); [apply isolated_same |].
    apply (isolated_item
             (λ o, noted "Note not found" "Failed to create note" (rows_of o))).
    + apply insert_item_only.
    + apply insert_item_untouched.
    + intros Hfollow. by apply insert_item_consistent.
    + intros db' [row | e]; apply noted_shape.
  - (* PUT /notes/:id *)
    apply noted_isolated.
  - (* POST /prs *)
    destruct (negb _); [apply isolated_same |].
    apply created_isolated. discriminate.
  - (* GET /prs/download *)
    destruct (select_items db "prs" uid [] EmptyString) as [rows | e];
      [destruct (length rows <? 10)%nat |]; apply isolated_same.
  - (* PUT /profile *)
    rewrite update_profile_only.
    match goal with
    | |- context [update_profile db ?full_name ?email ?profile_photo uid] =>
        pose proof (update_profile_untouched uid db full_name email
                      profile_photo) as Hw;
        pose proof (update_profile_tables db full_name email profile_photo)
          as Ht
    end.
    destruct (update_profile db _ _ _ uid) as [db' [rows | e]];
      simpl in *; by apply isolated_result.
  - (* POST /time-logs *)
    apply (isolated_step db (create_table_if_not_exists db "time_logs"));
      [apply create_table_untouched
      | intros Hfollow; by apply create_table_consistent |].
    apply created_isolated. discriminate.
  - (* GET /time-sessions *)
    apply (isolated_step db (create_table_if_not_exists db "time_sessions"));
      [apply create_table_untouched
      | intros Hfollow; by apply create_table_consistent |].
    apply listed_isolated.
  - (* POST /time-sessions *)
    destruct (_ || _ || _ || _); [apply isolated_same |].
    apply (isolated_step db (create_table_if_not_exists db "time_sessions"));
      [apply create_table_untouched
      | intros Hfollow; by apply create_table_consistent |].
    apply created_isolated. discriminate.
  - (* GET /dashboard/overview *)
    destruct (date_in (toISOString_date clock)) as [day |];
      [| apply isolated_same].
    destruct (select_items db "time_logs" uid _ _) as [timeLogs | e];
      [| apply isolated_same].
    change (tasks (only uid db)) with (filter (owned_by uid) (tasks db)).
    unfold count.
    rewrite !(filter_filter_implied _ (owned_by uid)) by (by intros t [Ht _]).
    apply isolated_same.
  - (* POST /daily-goals *)
    destruct (negb _ || negb _); [apply isolated_same |].
    apply created_isolated. discriminate.
  - (* POST /study-sessions *)
    destruct (negb _ || negb _); [apply isolated_same |].
    apply created_isolated. discriminate.
Qed.

End Isolation.

Section TenantIsolation.
Context {jwt : Jsonwebtoken} {bcrypt : Bcryptjs} {pg : Postgres} {node : Node}.
Variable JWT_SECRET : string.

Lemma protected_rejected r authorization salt clock now db resp :
  authRequired JWT_SECRET authorization clock = Respond resp →
  protected_handle JWT_SECRET r authorization salt clock now db
  = Result db [] (Json (status resp) (Some (body resp))).
Proof.
  intros Hauth.
  destruct r; simpl;
    unfold get_auth_verify, post_auth_change_password, post_tasks,
      put_tasks_id, delete_tasks_id, post_tasks_clear_completed,
      post_tasks_mark_all_done, get_learning_progress,
      post_learning_progress, put_learning_progress_id,
      delete_learning_progress_id, post_notes_id_files, get_notes_id_files,
      delete_files_id, get_notes, post_notes, put_notes_id, delete_notes_id,
      get_prs, post_prs, put_prs_id, delete_prs_id, get_prs_download,
      get_profile, put_profile, get_projects, post_time_logs,
      get_time_sessions, post_time_sessions, get_dashboard_overview,
      get_daily_goals, post_daily_goals, put_daily_goals_id,
      delete_daily_goals_id, get_study_sessions, post_study_sessions,
      put_study_sessions_id, delete_study_sessions_id, guarded,
      with_authRequired;
    by rewrite Hauth.
Qed.

Lemma route_of_protected r : route_of r ∈ protected_routes.
Proof. destruct r; apply (bool_decide_unpack _); vm_compute; exact I. Qed.

Lemma protected_routes_handled p :
  p ∈ protected_routes → ∃ r, route_of r = p.
Proof.
  pose (b := titled EmptyString Undefined).
  assert (Hall :
    route_of
      <$> [Get_auth_verify; Post_auth_change_password None None; Post_tasks b;
           Put_tasks_id EmptyString b; Delete_tasks_id EmptyString;
           Post_tasks_clear_completed; Post_tasks_mark_all_done;
           Get_learning_progress; Post_learning_progress JNull;
           Put_learning_progress_id EmptyString JNull;
           Delete_learning_progress_id EmptyString;
           Post_notes_id_files EmptyString JNull;
           Get_notes_id_files EmptyString; Delete_files_id EmptyString;
           Get_notes None; Post_notes JNull; Put_notes_id EmptyString JNull;
           Delete_notes_id EmptyString; Get_prs; Post_prs JNull;
           Put_prs_id EmptyString JNull; Delete_prs_id EmptyString;
           Get_prs_download; Get_profile; Put_profile JNull; Get_projects;
           Post_time_logs JNull; Get_time_sessions; Post_time_sessions JNull;
           Get_dashboard_overview; Get_daily_goals None;
           Post_daily_goals JNull; Put_daily_goals_id EmptyString JNull;
           Delete_daily_goals_id EmptyString; Get_study_sessions None;
           Post_study_sessions JNull; Put_study_sessions_id EmptyString JNull;
           Delete_study_sessions_id EmptyString]
    = protected_routes) by reflexivity.
  intros Hp. rewrite <- Hall in Hp.
  apply list_elem_of_fmap_1 in Hp as (r & -> & _). by exists r.
Qed.

Lemma files_follow_notes_empty : files_follow_notes empty_database.
Proof.
  intros files Hfiles. vm_compute in Hfiles. injection Hfiles as <-.
  exists (Table [] 1). split; [vm_compute; reflexivity |].
  repeat split; constructor.
Qed.

Lemma handle_tables r salt clock db :
  tables (out_db (handle JWT_SECRET r salt clock db)) = tables db.
Proof.
  destruct r; simpl;
    unfold post_auth_register, post_auth_login, get_auth_verify,
      post_auth_reset_password, get_tasks, post_tasks, put_tasks_id,
      delete_tasks_id, post_tasks_clear_completed, post_tasks_mark_all_done,
      with_authRequired;
    repeat case_match; simpl; try done;
    repeat match goal with
    | H : insert_user _ _ _ _ = _ |- _ =>
        unfold insert_user in H; repeat case_match; simplify_eq
    | H : insert_task ?db ?a1 ?a2 ?a3 ?a4 ?a5 ?a6 ?a7 ?a8 ?a9 ?a10 ?a11 ?u ?c
          = _ |- _ =>
        pose proof (proj2 (insert_task_untouched u db a1 a2 a3 a4 a5 a6 a7 a8
                             a9 a10 a11 c)) as Ht;
        rewrite H in Ht; clear H
    | H : update_task ?db ?b ?id ?u ?c = _ |- _ =>
        pose proof (proj2 (update_task_untouched u db b id c)) as Ht;
        rewrite H in Ht; clear H
    | H : delete_task ?db ?id ?u = _ |- _ =>
        pose proof (proj2 (delete_task_untouched u db id)) as Ht;
        rewrite H in Ht; clear H
    end; done.
Qed.

Lemma create_demo_user_tables salt clock db :
  tables (out_db (post_admin_create_demo_user salt clock db)) = tables db.
Proof.
  unfold post_admin_create_demo_user, upsert_user.
  by repeat case_match; simplify_eq.
Qed.

Lemma get_tasks_own_rows authorization q clock db user :
  authOptional JWT_SECRET authorization clock = Some user →
  get_tasks JWT_SECRET authorization q clock db
  = Outcome db [] (Response 500 (error_body "Failed to fetch tasks"))
  ∨ ∃ rows,
      get_tasks JWT_SECRET authorization q clock db
      = Outcome db [] (Response 200 (JArr (map task_json rows)))
      ∧ Forall (owned_by (user_id user)) rows.
Proof.
  intros Huser. unfold get_tasks, select_tasks. rewrite Huser.
  destruct (where_binds _); [right | by left].
  eexists. split; [reflexivity |]. rewrite order_by_perm.
  apply Forall_forall. intros t Ht. apply list_elem_of_filter in Ht as [Ht _].
  by eapply tasks_where_Some_owned.
Qed.

(** C2, as the code has it.  The routes declared with [authRequired]
    are the thirty-eight of [protected_routes], each the route of a
    request of [protected_request] and conversely; nine routes are
    declared otherwise, among them [GET /tasks] with [authOptional] and
    [POST /auth/register], [POST /auth/login], [POST
    /auth/reset-password] and [POST /admin/create-demo-user] with no
    middleware.  A request to a route under [authRequired] that the
    middleware rejects leaves the store as it is, publishes nothing and
    gets the middleware's answer.  One to which the middleware attaches
    an identity leaves every row of every other user as it was, in
    [users], in [tasks] and in each of the other tables; it gets the
    same answer, publishes the same events and leaves the same rows of
    the caller when the rows of all other users are taken out of the
    store beforehand; and its events go to the caller's room.  The
    first of these holds in a store where every file has the owner of
    its note (a deleted note takes its files with it): the store
    [initDb] leaves is such a store, and every handler keeps it one.
    [GET /tasks] returns only rows owned by the caller when an identity
    is attached. *)
Theorem tenant_isolation :
  (λ rt, (r_method rt, r_path rt)) <$> filter (λ rt, r_auth rt = Required) routes
  = protected_routes
  ∧ (λ rt, (r_method rt, r_path rt)) <$> filter (λ rt, r_auth rt ≠ Required) routes
    = [("GET", "/"); ("POST", "/auth/register"); ("POST", "/auth/login");
       ("GET", "/tasks"); ("POST", "/auth/reset-password"); ("GET", "/test-db");
       ("GET", "/test-network"); ("POST", "/admin/create-demo-user");
       ("GET", "*")]
  ∧ (r_auth <$> find_route "GET" "/tasks") = Some Optional
  ∧ (∀ r, route_of r ∈ protected_routes)
  ∧ (∀ p, p ∈ protected_routes → ∃ r, route_of r = p)
  ∧ (∀ r authorization salt clock now db,
       let out :=
         protected_handle JWT_SECRET r authorization salt clock now db in
       match authRequired JWT_SECRET authorization clock with
       | Respond resp =>
           out = Result db [] (Json (status resp) (Some (body resp)))
       | Next user =>
           let uid := user_id user in
           (files_follow_notes db → untouched uid db (res_db out))
           ∧ protected_handle JWT_SECRET r authorization salt clock now
               (only uid db)
             = Result (only uid (res_db out)) (res_emits out) (res_reply out)
           ∧ Forall (λ e, to_room e = user_room uid) (res_emits out)
           ∧ (files_follow_notes db → files_follow_notes (res_db out))
       end)
  ∧ files_follow_notes empty_database
  ∧ (∀ r salt clock db,
       files_follow_notes db →
       files_follow_notes (out_db (handle JWT_SECRET r salt clock db))
       ∧ files_follow_notes
           (out_db (post_admin_create_demo_user salt clock db)))
  ∧ (∀ authorization q clock db user,
       authOptional JWT_SECRET authorization clock = Some user →
       get_tasks JWT_SECRET authorization q clock db
       = Outcome db [] (Response 500 (error_body "Failed to fetch tasks"))
       ∨ ∃ rows,
           get_tasks JWT_SECRET authorization q clock db
           = Outcome db [] (Response 200 (JArr (map task_json rows)))
           ∧ Forall (owned_by (user_id user)) rows).
Proof.
  split; [vm_compute; reflexivity |]. split; [vm_compute; reflexivity |].
  split; [reflexivity |]. split; [apply route_of_protected |].
  split; [apply protected_routes_handled |]. split.
  { intros r authorization salt clock now db out.
    destruct (authRequired JWT_SECRET authorization clock) as [resp | user]
      eqn:Hauth.
    - by apply protected_rejected.
    - by apply (protected_isolated JWT_SECRET (user_id user) r authorization
                  salt clock now db user). }
  split; [apply files_follow_notes_empty |]. split.
  { intros r salt clock db Hfollow. split.
    - eapply follow_same_tables; [apply handle_tables | done].
    - eapply follow_same_tables; [apply create_demo_user_tables | done]. }
  apply get_tasks_own_rows.
Qed.

End TenantIsolation.

(** ** The reference instances at work *)

#[local] Existing Instance ref_jsonwebtoken.
#[local] Existing Instance ref_bcryptjs.
#[local] Existing Instance ref_postgres.
#[local] Existing Instance ref_node.

Lemma setup_joined_alice :
  srv_sockets (run secret setup initial_server) !! 7%nat = Some joined_alice.
Proof. vm_compute. reflexivity. Qed.

Lemma activity_presents_only :
  Forall (presents_only secret 1 7) activity.
Proof.
  unfold activity.
  repeat constructor; try discriminate; try exact I; intros _; exact I.
Qed.

(** Alice's connection gets her two events along [activity], and
    nothing of Bob's two. *)
Lemma channel_isolation_witness :
  task_events_received 7 (run secret activity (run secret setup initial_server))
  = task_events_received 7 (run secret setup initial_server)
    ++ emitted_for secret 1 activity (run secret setup initial_server)
  ∧ map msg_event
      (emitted_for secret 1 activity (run secret setup initial_server))
    = ["task_created"; "task_updated"]
  ∧ map msg_event
      (emitted_for secret 2 activity (run secret setup initial_server))
    = ["task_created"; "task_deleted"].
Proof.
  split; [| split; vm_compute; reflexivity].
  apply (channel_isolation secret 1 2 7 joined_alice
           (run secret setup initial_server) activity).
  - lia.
  - apply setup_joined_alice.
  - reflexivity.
  - reflexivity.
  - apply activity_presents_only.
Defined.

(** Registering "alice" twice in the empty store. *)
Lemma register_once_witness :
  let out := post_auth_register secret (Some "alice") (Some "secret1") "salt1"
               0 empty_database in
  status (out_response out) = 200
  ∧ status (out_response
              (post_auth_register secret (Some "alice") (Some "another1")
                 "salt3" 5 (out_db out))) = 409.
Proof.
  destruct (register_once secret empty_database "alice" "secret1" "salt1" 0)
    as (Hfirst & _ & Hagain).
  - simpl. lia.
  - simpl. lia.
  - reflexivity.
  - reflexivity.
  - simpl. lia.
  - simpl. by inversion 1.
  - split.
    + by rewrite Hfirst.
    + destruct (Hagain "another1" "salt3" 5) as [Hconflict _]; [simpl; lia |].
      by rewrite Hconflict.
Defined.

(** One [authenticate] on a fresh connection: one channel. *)
Lemma one_channel_per_identity_witness :
  srv_sockets (run secret setup initial_server) !! 7%nat = Some joined_alice
  ∧ sock_rooms joined_alice ⊆ {[user_room 1]}
  ∧ at_most_one_channel joined_alice.
Proof.
  split; [apply setup_joined_alice |].
  apply (one_channel_per_identity secret 1 7 setup initial_server).
  - intros s Hs. vm_compute in Hs. discriminate.
  - unfold setup.
    repeat (constructor;
            [first [exact I
                   | intros Heq; first [discriminate Heq | vm_compute; reflexivity]]
            |]).
    constructor.
  - apply setup_joined_alice.
Defined.

(** A garbage token on Alice's connection, then her own again. *)
Lemma auth_error_keeps_connection_witness :
  srv_sockets
    (step secret (Occurrence 20 "" (Authenticate 7 "garbage"))
       (run secret setup initial_server)) !! 7%nat
  = Some (Socket true {[user_room 1]}
            [Message "authenticated" (JObj [("ok", JBool true)]);
             Message "auth_error" (JObj [("error", JStr "Invalid token")])])
  ∧ srv_sockets
      (step secret (Occurrence 20 "" (Authenticate 7 "garbage"))
         (run secret setup initial_server)) !! 8%nat
    = srv_sockets (run secret setup initial_server) !! 8%nat.
Proof.
  destruct (auth_error_keeps_connection secret
              (run secret setup initial_server) 7 joined_alice "garbage" "" 20
              (JsonWebTokenError "jwt malformed"))
    as (_ & Hc & Hothers & _).
  - apply setup_joined_alice.
  - reflexivity.
  - reflexivity.
  - split; [exact Hc | by apply Hothers].
Defined.

(** Alice creates a task: one [task_created] into her room. *)
Lemma task_mutation_publishes_once_witness :
  map to_room
    (out_emits
       (handle secret
          (POST_tasks (bearer alice_token) (titled "write the spec" Undefined))
          "" 10 (srv_db (run secret setup initial_server))))
  = [user_room 1].
Proof.
  destruct (task_mutation_publishes_once secret
              (POST_tasks (bearer alice_token) (titled "write the spec" Undefined))
              "task_created" "" 10 (run secret setup initial_server) eq_refl)
    as [Hok _].
  destruct Hok as (user & data & Huser & -> & _); [reflexivity |].
  vm_compute in Huser. by injection Huser as <-.
Defined.

(** Anyone resets Alice's password, and logs in with the new one. *)
Lemma reset_password_unauthenticated_witness :
  let db := srv_db (run secret setup initial_server) in
  let out := post_auth_reset_password (Some "alice") (Some "hunter22") "salt9" db in
  status (out_response out) = 200
  ∧ map u_password_hash (users db) = ["$2a$secret1"; "$2a$secret2"]
  ∧ map u_password_hash (users (out_db out)) = ["$2a$hunter22"; "$2a$secret2"]
  ∧ status (out_response
              (post_auth_login secret (Some "alice") (Some "hunter22") 30
                 (out_db out))) = 200.
Proof.
  destruct (reset_password_unauthenticated secret
              (srv_db (run secret setup initial_server))
              "alice" "hunter22" "salt9")
    as (_ & _ & Hresp & Husers & _ & _ & Hlogin).
  - apply run_usernames_nonempty. constructor.
  - apply (bool_decide_unpack _). vm_compute. reflexivity.
  - simpl. lia.
  - split; [by rewrite Hresp |]. split; [vm_compute; reflexivity |].
    split; [rewrite Husers; vm_compute; reflexivity | apply Hlogin].
Defined.

(** A request without a header lists the tasks of Alice and of Bob. *)
Lemma get_tasks_unauthenticated_witness :
  let db := srv_db (run secret (take 2 activity)
                      (run secret setup initial_server)) in
  map t_user_id (tasks db) = [Some 1; Some 2]
  ∧ ∃ rows,
      out_response (get_tasks secret None no_filter 40 db)
      = Response 200 (JArr (map task_json rows))
      ∧ rows ≡ₚ tasks db.
Proof.
  split; [vm_compute; reflexivity |].
  destruct (get_tasks_unauthenticated secret None no_filter 40
              (srv_db (run secret (take 2 activity)
                         (run secret setup initial_server))))
    as (_ & _ & _ & Hlisted).
  - by left.
  - destruct Hlisted as (rows & Hresp & _ & _ & Hall & _); [reflexivity |].
    exists rows. split; [exact Hresp | by apply Hall].
Defined.

(** C2 fails as stated: [GET /tasks] reads user-scoped rows and is not
    declared with [authRequired]; a request with no [Authorization]
    header, to which no identity is attached, is answered with the
    tasks of Alice and of Bob. *)
Lemma get_tasks_is_not_isolated :
  ¬ Forall (λ r, touches_user_data r → isolates r) routes
  ∧ let db := srv_db (run secret (take 2 activity)
                        (run secret setup initial_server)) in
    request_user secret (GET_tasks None no_filter) 40 = None
    ∧ map t_user_id (tasks db) = [Some 1; Some 2]
    ∧ out_response (handle secret (GET_tasks None no_filter) "" 40 db)
      = Response 200 (JArr (map task_json (tasks db))).
Proof.
  split.
  - apply (bool_decide_eq_false_1 _). vm_compute. reflexivity.
  - repeat split; vm_compute; reflexivity.
Qed.

(** C5, at the bulk endpoints.  [POST /tasks/clear-completed] by Alice
    deletes her completed task and answers 200, and [POST
    /tasks/mark-all-done] by Bob updates his pending task and answers
    200; neither handler publishes an event, and the open connections
    of Alice and of Bob, each a member of its user's channel, are left
    as they were: no [task_deleted] and no [task_updated] reaches
    them, where [DELETE /tasks/:id] and [PUT /tasks/:id] publish one. *)
Lemma bulk_actions_publish_nothing :
  let srv := run secret (take 2 activity) (run secret setup initial_server) in
  let clear := POST_tasks_clear_completed (bearer alice_token) in
  let mark := POST_tasks_mark_all_done (bearer bob_token) in
  let cleared := handle secret clear "" 20 (srv_db srv) in
  let marked := handle secret mark "" 20 (srv_db srv) in
  map t_status (tasks (srv_db srv)) = ["done"; "pending"]
  ∧ map t_status (tasks (out_db cleared)) = ["pending"]
  ∧ map t_status (tasks (out_db marked)) = ["done"; "done"]
  ∧ status (out_response cleared) = 200
  ∧ status (out_response marked) = 200
  ∧ out_emits cleared = []
  ∧ out_emits marked = []
  ∧ srv_sockets srv !! 7%nat
    = Some (Socket true {[user_room 1]}
              [Message "authenticated" (JObj [("ok", JBool true)]);
               Message "task_created"
                 (json_opt task_json (head (tasks (srv_db srv))))])
  ∧ step secret (Occurrence 20 "" (Http clear)) srv
    = Server (out_db cleared) (srv_sockets srv)
  ∧ step secret (Occurrence 20 "" (Http mark)) srv
    = Server (out_db marked) (srv_sockets srv).
Proof. repeat split; vm_compute; reflexivity. Qed.

(** C7 fails as stated: after a second [authenticate], with Bob's
    token, Alice's connection is in the channels of both users. *)
Lemma second_authenticate_joins_second_channel :
  ∃ s,
    srv_sockets
      (run secret [Occurrence 20 "" (Authenticate 7 bob_token)]
         (run secret setup initial_server)) !! 7%nat = Some s
    ∧ user_room 1 ∈ sock_rooms s
    ∧ user_room 2 ∈ sock_rooms s
    ∧ ¬ at_most_one_channel s.
Proof.
  eexists. split; [vm_compute; reflexivity |].
  split; [| split].
  - apply (bool_decide_unpack _). vm_compute. reflexivity.
  - apply (bool_decide_unpack _). vm_compute. reflexivity.
  - intros Hone.
    assert (Heq : (1 : Z) = 2); [| discriminate Heq].
    apply Hone; apply (bool_decide_unpack _); vm_compute; reflexivity.
Qed.

(** Alice writes a note and attaches a file to it.  Bob's [DELETE] of
    the note finds nothing and leaves the store as it is; Alice's
    deletes the note, and the file with it. *)
Lemma notes_at_work :
  let db := srv_db (run secret setup initial_server) in
  let written :=
    protected_handle secret
      (Post_notes (JObj [("type", JStr "learning"); ("title", JStr "Rocq")]))
      (bearer alice_token) "" 10 0 db in
  let attached :=
    protected_handle secret
      (Post_notes_id_files "1"
         (JObj [("filename", JStr "a.txt"); ("fileData", JStr "xx")]))
      (bearer alice_token) "" 11 0 (res_db written) in
  let by_bob :=
    protected_handle secret (Delete_notes_id "1") (bearer bob_token) "" 12 0
      (res_db attached) in
  let by_alice :=
    protected_handle secret (Delete_notes_id "1") (bearer alice_token) "" 12 0
      (res_db attached) in
  (λ t, item_user_id <$> items t) <$> tables (res_db attached) !! "files"
  = Some [Some 1]
  ∧ by_bob
    = Result (res_db attached) [] (Json 404 (Some (error_body "Note not found")))
  ∧ res_reply by_alice = Json 200 (Some (JObj [("success", JBool true)]))
  ∧ items <$> tables (res_db by_alice) !! "notes" = Some []
  ∧ items <$> tables (res_db by_alice) !! "files" = Some [].
Proof. repeat split; vm_compute; reflexivity. Qed.

(** C6 fails as stated: the username [abc] followed by the code unit 0
    has length 4 and is not stored, the password has length 7, and the
    registration is answered 500: the server refuses the username as a
    value of a [TEXT] column, and nothing is stored. *)
Lemma register_refuses_zero_code_unit :
  let username := "abc" +:+ String "000" EmptyString in
  let out := post_auth_register secret (Some username) (Some "secret1") "salt1"
               0 empty_database in
  (3 ≤ String.length username)%nat
  ∧ (6 ≤ String.length "secret1")%nat
  ∧ ¬ Exists (λ u, u_username u = username) (users empty_database)
  ∧ out
    = Outcome empty_database [] (Response 500 (error_body "Failed to register")).
Proof.
  split; [simpl; lia |]. split; [simpl; lia |].
  split; [by inversion 1 |]. vm_compute. reflexivity.
Qed.

(** C10 fails as stated: a request without a header that filters on
    [project_id=2147483648], an integer the [INTEGER] column cannot
    hold, does not succeed: it is answered 500, whatever the store. *)
Lemma get_tasks_refuses_project_id :
  let db := srv_db (run secret (take 2 activity)
                      (run secret setup initial_server)) in
  let q := TasksQuery None None None None (Some "2147483648") None None None
             None in
  bearer_token None = None
  ∧ map t_user_id (tasks db) = [Some 1; Some 2]
  ∧ get_tasks secret None q 40 db
    = Outcome db [] (Response 500 (error_body "Failed to fetch tasks")).
Proof. repeat split; vm_compute; reflexivity. Qed.

(** ** The further properties at work *)

(** Alice registers at 0 and logs in at 5. *)
Lemma session_round_trip_witness :
  status
    (out_response
       (post_auth_login secret (Some "alice") (Some "secret1") 5
          (out_db (post_auth_register secret (Some "alice") (Some "secret1")
                     "salt1" 0 empty_database)))) = 200.
Proof.
  destruct (session_round_trip secret empty_database "alice" "secret1" "salt1"
              0 5 6) as [Hlogin _].
  - simpl. lia.
  - simpl. lia.
  - reflexivity.
  - reflexivity.
  - simpl. lia.
  - simpl. by inversion 1.
  - by rewrite Hlogin.
Defined.

(** A wrong password for Alice and an unknown user get the same answer. *)
Lemma login_failures_look_alike_witness :
  let db := srv_db (run secret setup initial_server) in
  post_auth_login secret (Some "alice") (Some "wrong") 20 db
  = post_auth_login secret (Some "carol") (Some "wrong") 20 db.
Proof.
  intros db.
  transitivity (Outcome db [] (Response 401 (error_body "invalid credentials"))).
  - apply (login_failures_look_alike secret db "alice" "wrong" 20).
    + reflexivity.
    + reflexivity.
    + right. eexists _, _. split; vm_compute; reflexivity.
    + reflexivity.
  - symmetry. apply (login_failures_look_alike secret db "carol" "wrong" 20).
    + reflexivity.
    + reflexivity.
    + left. apply (bool_decide_eq_false_1 _). vm_compute. reflexivity.
    + reflexivity.
Defined.

(** Alice changes her password to a single letter. *)
Lemma change_password_accepts_any_new_witness :
  status
    (out_response
       (post_auth_change_password secret (bearer alice_token) (Some "secret1")
          (Some "x") "salt5" 20 (srv_db (run secret setup initial_server))))
  = 200.
Proof.
  edestruct (change_password_accepts_any_new secret
               (srv_db (run secret setup initial_server))
               (bearer alice_token) "secret1" "x" "salt5" 20
               (Identity 1 "alice")) as [Hresp _].
  - vm_compute. reflexivity.
  - vm_compute. reflexivity.
  - reflexivity.
  - reflexivity.
  - vm_compute. reflexivity.
  - by rewrite Hresp.
Defined.


(** Alice creates a task with a padded title. *)
Lemma created_task_is_listed_witness :
  ∃ task,
    out_response
      (post_tasks secret (bearer alice_token) (titled "  buy milk " Undefined)
         10 (srv_db (run secret setup initial_server)))
    = Response 200 (task_json task)
    ∧ t_title task = "buy milk"
    ∧ t_status task = "pending".
Proof.
  destruct (created_task_is_listed secret
              (srv_db (run secret setup initial_server)) (bearer alice_token)
              (titled "  buy milk " Undefined) "  buy milk " Undefined
              Undefined 10 (Identity 1 "alice"))
    as (task & Hresp & _ & _ & _ & Htitle & Hstatus & _).
  - vm_compute. reflexivity.
  - reflexivity.
  - vm_compute. reflexivity.
  - repeat split; vm_compute; reflexivity.
  - vm_compute. discriminate.
  - apply (bool_decide_unpack _). vm_compute. exact I.
  - exists task. split; [exact Hresp |]. split; [exact Htitle | exact Hstatus].
Defined.

(** Bob cannot update Alice's task 1. *)
Lemma foreign_task_not_found_witness :
  status
    (out_response
       (put_tasks_id secret (bearer bob_token) "1" (titled "mine now" Undefined)
          20 (srv_db (run secret (setup ++ activity) initial_server)))) = 404
  ∧ status
      (out_response
         (delete_tasks_id secret (bearer bob_token) "one" 20
            (srv_db (run secret (setup ++ activity) initial_server)))) = 500.
Proof.
  split.
  - destruct (foreign_task_not_found secret
                (srv_db (run secret (setup ++ activity) initial_server))
                (bearer bob_token) "1" (titled "mine now" Undefined) 20
                (Identity 2 "bob")) as [Hfound _].
    + vm_compute. reflexivity.
    + reflexivity.
    + destruct (Hfound 1 Undefined Undefined) as [Hput _].
      * vm_compute. reflexivity.
      * apply (bool_decide_eq_false_1 _). vm_compute. reflexivity.
      * rewrite Hput; [reflexivity |]. repeat split; vm_compute; reflexivity.
  - destruct (foreign_task_not_found secret
                (srv_db (run secret (setup ++ activity) initial_server))
                (bearer bob_token) "one" (titled "mine now" Undefined) 20
                (Identity 2 "bob")) as [_ Hrefused].
    + vm_compute. reflexivity.
    + reflexivity.
    + destruct Hrefused as [_ Hdelete]; [vm_compute; reflexivity |].
      by rewrite Hdelete.
Defined.

(** Alice renames her task 1 to the empty title. *)
Lemma put_title_unvalidated_witness :
  let db := srv_db (run secret (setup ++ activity) initial_server) in
  let b := titled EmptyString Undefined in
  status (out_response (post_tasks secret (bearer alice_token) b 20 db)) = 400
  ∧ status (out_response (put_tasks_id secret (bearer alice_token) "1" b 20 db))
    = 200.
Proof.
  intros db b.
  destruct (put_title_unvalidated secret db (bearer alice_token) "1" 1 b
              EmptyString Undefined Undefined 20 (Identity 1 "alice"))
    as (Hpost & Hput & _).
  - vm_compute. reflexivity.
  - vm_compute. reflexivity.
  - apply (bool_decide_unpack _). vm_compute. exact I.
  - reflexivity.
  - reflexivity.
  - repeat split; vm_compute; reflexivity.
  - split; [by rewrite Hpost | exact Hput].
Defined.

(** The ids after the example run. *)
Lemma task_ids_stay_fresh_witness :
  task_ids_fresh (srv_db (run secret (setup ++ activity) initial_server)).
Proof.
  destruct (task_ids_stay_fresh secret (setup ++ activity) initial_server)
    as [Hfresh _].
  - split; constructor.
  - exact Hfresh.
Defined.

(** Alice creates a task and deletes it. *)
Lemma create_then_delete_witness :
  let db := srv_db (run secret setup initial_server) in
  tasks
    (out_db
       (delete_tasks_id secret (bearer alice_token) "1" 11
          (out_db (post_tasks secret (bearer alice_token)
                     (titled "temp" Undefined) 10 db))))
  = tasks db.
Proof.
  intros db.
  destruct (create_then_delete secret db (bearer alice_token)
              (titled "temp" Undefined) "temp" Undefined Undefined 10 11
              (Identity 1 "alice"))
    as (_ & _ & Htasks & _).
  - split; vm_compute; constructor.
  - vm_compute. reflexivity.
  - vm_compute. reflexivity.
  - reflexivity.
  - reflexivity.
  - repeat split; vm_compute; reflexivity.
  - split; vm_compute; discriminate.
  - apply (bool_decide_unpack _). vm_compute. exact I.
  - exact Htasks.
Defined.

(** Alice marks all her tasks done and clears them. *)
Lemma mark_then_clear_witness :
  let db := srv_db (run secret (setup ++ activity) initial_server) in
  map t_id (tasks db) = [1]
  ∧ tasks
      (out_db
         (post_tasks_clear_completed secret (bearer alice_token) 21
            (out_db (post_tasks_mark_all_done secret (bearer alice_token) 20
                       db))))
    = [].
Proof.
  intros db. split; [vm_compute; reflexivity |].
  destruct (mark_then_clear secret db (bearer alice_token) 20 21
              (Identity 1 "alice")) as (_ & _ & _ & Hcleared).
  - vm_compute. reflexivity.
  - vm_compute. reflexivity.
  - rewrite Hcleared. vm_compute. reflexivity.
Defined.

(** A title that looks like SQL does not reach the text. *)
Lemma put_tasks_sql_text_fixed_witness :
  (put_tasks_sql (titled "'; DROP TABLE users; --" (Val "done")) "7" 2).1
  = "UPDATE tasks SET title=$1, status=$2, updated_at=NOW() WHERE id=$3 AND user_id=$4 RETURNING *".
Proof.
  rewrite (put_tasks_sql_text_fixed
             (titled "'; DROP TABLE users; --" (Val "done"))
             (titled "a" (Val "b")) "7" "0" 2 0 eq_refl).
  vm_compute. reflexivity.
Defined.

(** Connection 9 presents a token that does not verify. *)
Lemma unauthenticated_receives_nothing_witness :
  task_events_received 9
    (run secret
       ([Occurrence 5 "" (Connection 9);
         Occurrence 6 "" (Authenticate 9 "garbage")] ++ activity)
       (run secret setup initial_server))
  = [].
Proof.
  destruct (unauthenticated_receives_nothing secret 9
              ([Occurrence 5 "" (Connection 9);
                Occurrence 6 "" (Authenticate 9 "garbage")] ++ activity)
              (run secret setup initial_server)) as [_ Hrecv].
  - intros s Hs. vm_compute in Hs. discriminate Hs.
  - repeat constructor;
      intros Heq; first [discriminate Heq | eexists; vm_compute; reflexivity].
  - rewrite Hrecv. vm_compute. reflexivity.
Defined.

(** Alice's connection is still in her room after her token expired. *)
Lemma membership_persists_witness :
  ∃ s',
    srv_sockets
      (run secret
         [Occurrence 700000 "" (Authenticate 7 alice_token);
          Occurrence 700001 ""
            (Http (POST_tasks (bearer bob_token) (titled "late" Undefined)))]
         (run secret setup initial_server)) !! 7%nat = Some s'
    ∧ user_room 1 ∈ sock_rooms s'.
Proof.
  destruct (membership_persists secret 7 joined_alice
              [Occurrence 700000 "" (Authenticate 7 alice_token);
               Occurrence 700001 ""
                 (Http (POST_tasks (bearer bob_token)
                          (titled "late" Undefined)))]
              (run secret setup initial_server))
    as (s' & Hs' & Hrooms & _).
  - vm_compute. reflexivity.
  - repeat constructor; discriminate.
  - exists s'. split; [exact Hs' |].
    assert (Hin : user_room 1 ∈ sock_rooms joined_alice)
      by (apply (bool_decide_unpack _); vm_compute; exact I).
    exact (Hrooms _ Hin).
Defined.
